(** * Prometheus metrics endpoint of wakapi: [routes/api/metrics.go]

    A shallow embedding of the request handler [MetricsHandler.Get] and of
    the two collectors [getUserMetrics] and [getAdminMetrics], together with
    the properties of the handler that the specification states.

    Conventions of the embedding.
    - A Go call returning [(T, error)] is a pair [T * option error]: the value
      is there even when the error is set, because the handler sometimes
      discards the error and uses the value ([totalUsers, _ := ...]).
    - The services behind the handler (the fields of [MetricsHandler]) are
      functions of their arguments.  Every call is also recorded, in program
      order, in a trace of events carried by a writer monad, together with
      the log statements.
    - Time is abstracted: the three [(from, to)] ranges the handler asks
      summaries for are the three values of [Interval].
    - Code outside the repository file (the Go library, the [models] and
      [metrics] packages) is gathered in the record [Externals]. *)

From Stdlib Require Import List String Ascii ZArith Lia Bool Arith.
From Stdlib Require Import Permutation Sorted DecimalString OrderedTypeEx.
Import ListNotations.

Local Open Scope list_scope.
Local Infix "+++" := String.append (at level 60, right associativity).

(** ** Go values *)

Definition error := string.

(** A Go slice, where [nil] and the empty slice are told apart. *)
Inductive slice (A : Type) : Type :=
| nil_slice : slice A
| slice_of : list A -> slice A.
Arguments nil_slice {A}.
Arguments slice_of {A} _.

Definition elems {A} (s : slice A) : list A :=
  match s with
  | nil_slice => []
  | slice_of l => l
  end.

(** [int64(x)] for an unsigned 64 bit [x]: two's complement wrap-around. *)
Definition int64_of_uint64 (x : Z) : Z :=
  ((x + 2 ^ 63) mod 2 ^ 64 - 2 ^ 63)%Z.

(** ** package config *)

Module conf.
Definition KeyLatestTotalTime : string := "latest_total_time".
Definition ErrUnauthorized : string := "401 unauthorized".
Definition ErrBadRequest : string := "400 bad request".
Definition ErrInternalServerError : string := "500 internal server error".

  (** One entry of [conf.GetQueueMetrics()]. *)
Record QueueMetrics := {
    Queue : string;
    EnqueuedJobs : Z;
    FinishedJobs : Z
  }.
End conf.

(** ** package models *)

Module models.
Record User := {
    ID : string;
    IsAdmin : bool
  }.

Record SummaryItem := {
    Key : string;
    Total : Z
  }.

Record Summary := {
    Projects : list SummaryItem;
    Languages : list SummaryItem;
    Editors : list SummaryItem;
    OperatingSystems : list SummaryItem;
    Machines : list SummaryItem;
    Labels : list SummaryItem
  }.

Inductive SummaryType :=
  | SummaryProject | SummaryLanguage | SummaryEditor
  | SummaryOS | SummaryMachine | SummaryLabel.

Record CountByUser := {
    User_ : string;
    Count : Z
  }.

Record KeyStringValue := {
    KVKey : string;
    KVValue : string
  }.
End models.

(** ** package models/metrics *)

Module Label.
Record t := { Key : string; Value : string }.
End Label.

Record MetricFields := {
  Name : string;
  Desc : string;
  Value : Z;
  Labels : slice Label.t
}.

Inductive Metric :=
| GaugeMetric (f : MetricFields)
| CounterMetric (f : MetricFields).

Definition fields (m : Metric) : MetricFields :=
  match m with
  | GaugeMetric f => f
  | CounterMetric f => f
  end.

Definition Metrics := list Metric.

Definition metric_name (m : Metric) : string := Name (fields m).

(** Modelled from the spec: the comparator [Metrics.Less] of the metrics
    package, which is not part of the sources at hand.  The order is by
    "(Name, then the first label's value, ascending)"; a metric without a
    label has the empty string as its first label's value. *)
Definition first_label_value (m : Metric) : string :=
  match elems (Labels (fields m)) with
  | [] => EmptyString
  | l :: _ => Label.Value l
  end.

Definition sort_key (m : Metric) : string * string :=
  (metric_name m, first_label_value m).

Definition key_compare (a b : string * string) : comparison :=
  match String.compare (fst a) (fst b) with
  | Eq => String.compare (snd a) (snd b)
  | c => c
  end.

Definition Less (a b : Metric) : bool :=
  match key_compare (sort_key a) (sort_key b) with
  | Lt => true
  | _ => false
  end.

(** [key_le a b]: the key of [a] is lexicographically at most that of [b]. *)
Definition key_le (a b : Metric) : Prop := Less b a = false.

(** ** Rendering *)

Definition nl : string := String (ascii_of_nat 10) EmptyString.
Definition dquote : string := String (ascii_of_nat 34) EmptyString.

Definition string_of_int64 (z : Z) : string :=
  NilZero.string_of_int (Z.to_int z).

Inductive Line :=
| HelpLine (name desc : string)
| TypeLine (name kind : string)
| SampleLine (m : Metric).

Definition kind_name (m : Metric) : string :=
  match m with
  | GaugeMetric _ => "gauge"
  | CounterMetric _ => "counter"
  end.

Definition render_label (l : Label.t) : string :=
  Label.Key l +++ "=" +++ dquote +++ Label.Value l +++ dquote.

Definition render_labels (ls : list Label.t) : string :=
  match ls with
  | [] => EmptyString
  | _ => "{" +++ String.concat "," (map render_label ls) +++ "}"
  end.

Definition render_line (l : Line) : string :=
  match l with
  | HelpLine n d => "# HELP " +++ n +++ " " +++ d
  | TypeLine n k => "# TYPE " +++ n +++ " " +++ k
  | SampleLine m =>
      metric_name m +++ render_labels (elems (Labels (fields m)))
        +++ " " +++ string_of_int64 (Value (fields m))
  end.

(** The names of a metric set, each once, in the order of first occurrence. *)
Fixpoint distinct (names : list string) : list string :=
  match names with
  | [] => []
  | n :: rest => n :: filter (fun x => negb (String.eqb x n)) (distinct rest)
  end.

Definition has_name (n : string) (m : Metric) : bool :=
  String.eqb (metric_name m) n.

Definition group_lines (ms : Metrics) (n : string) : list Line :=
  match filter (has_name n) ms with
  | [] => []
  | (m :: _) as g =>
      HelpLine n (Desc (fields m)) :: TypeLine n (kind_name m) :: map SampleLine g
  end.

(** Modelled from the spec: the renderer [Metrics.Print] of the metrics
    package, which is not part of the sources at hand.  "For each distinct
    Name (in the set's existing sorted order), emit exactly one HELP line and
    one TYPE line, then one sample line per Metric instance sharing that
    Name"; the label block is left out when there is no label, and label
    values are written as they are. *)
Definition Metrics_lines (ms : Metrics) : list Line :=
  flat_map (group_lines ms) (distinct (map metric_name ms)).

Definition Metrics_Print (ms : Metrics) : string :=
  String.concat EmptyString (map (fun l => render_line l +++ nl) (Metrics_lines ms)).

(** The metrics behind the sample lines of a rendering, in output order. *)
Definition samples (ls : list Line) : list Metric :=
  flat_map (fun l => match l with SampleLine m => [m] | _ => [] end) ls.

(** ** What the handler takes from outside the file *)

Definition Duration := Z.

Record Externals := {
  (** [int64(v1.NewAllTimeFrom(s).Data.TotalSeconds)] *)
  AllTimeTotalSeconds : models.Summary -> Z;
  (** [s.TotalTime()] and [s.TotalTimeByKey(t, k)] *)
  TotalTime : models.Summary -> Duration;
  TotalTimeByKey : models.Summary -> models.SummaryType -> string -> Duration;
  (** [int64(d.Seconds())]: through a float64, so not simply a division *)
  SecondsInt : Duration -> Z;
  (** [time.ParseDuration] *)
  ParseDuration : string -> Duration * option error;
  (** [sort.Sort] on [Metrics]: the library promises an ascending
      rearrangement and nothing about elements that compare equal. *)
  sort_Sort : Metrics -> Metrics;
  sort_Sort_perm : forall ms, Permutation ms (sort_Sort ms);
  sort_Sort_sorted : forall ms, StronglySorted key_le (sort_Sort ms);
  (** The order in which the [n] tasks submitted to the worker pool get
      hold of the lock. *)
  pool_order : nat -> list nat;
  pool_order_perm : forall n, Permutation (pool_order n) (seq 0 n)
}.

Inductive Interval :=
| IntervalAllTimeUntilNow   (* time.Time{} .. time.Now() *)
| IntervalToday             (* "today" in the user's time zone *)
| IntervalAnyTruncated.     (* models.IntervalAny, [to] truncated to the hour *)

(** Snapshot of [runtime.ReadMemStats] and [runtime.NumGoroutine]. *)
Record MemStats := {
  Alloc : Z;
  Sys : Z;
  PauseTotalNs : Z;
  NumGC : Z
}.

Record MetricsHandler := {
  summarySrvc_Aliased : Interval -> models.User -> models.Summary * option error;
  heartbeatSrvc_CountByUser : models.User -> Z * option error;
  heartbeatSrvc_Count : bool -> Z * option error;
  heartbeatSrvc_CountByUsers : list models.User -> list models.CountByUser * option error;
  userSrvc_Count : Z * option error;
  userSrvc_GetActive : bool -> list models.User * option error;
  keyValueSrvc_GetString : string -> option models.KeyStringValue * option error;
  metricsRepo_GetDatabaseSize : Z * option error;
  conf_GetQueueMetrics : list conf.QueueMetrics;
  runtime_ReadMemStats : MemStats;
  runtime_NumGoroutine : Z
}.

(** ** Events and the trace monad *)

Inductive Level := LDebug | LWarn | LError.

Inductive Event :=
| EvAliased (iv : Interval) (u : models.User)
| EvCountByUser (u : models.User)
| EvHeartbeatCount (b : bool)
| EvCountByUsers (us : list models.User)
| EvUserCount
| EvGetActive (b : bool)
| EvGetString (k : string)
| EvGetDatabaseSize
| EvGetQueueMetrics
| EvReadMemStats
| EvNumGoroutine
| EvLog (lvl : Level) (format : string) (args : list string).

Definition M (A : Type) : Type := A * list Event.

Definition ret {A} (a : A) : M A := (a, []).

Definition bind {A B} (m : M A) (f : A -> M B) : M B :=
  let (a, t1) := m in
  let (b, t2) := f a in
  (b, t1 ++ t2).

Definition call {A} (e : Event) (result : A) : M A := (result, [e]).

Definition log (lvl : Level) (format : string) (args : list string) : M unit :=
  (tt, [EvLog lvl format args]).

Declare Scope go_scope.
Delimit Scope go_scope with go.
Notation "x <- c ;; k" := (bind c (fun x => k))
  (at level 61, c at next level, right associativity) : go_scope.
Notation "c ;;; k" := (bind c (fun _ => k))
  (at level 61, right associativity) : go_scope.
Local Open Scope go_scope.

(** ** net/http *)

Definition StatusOK : Z := 200.
Definition StatusUnauthorized : Z := 401.
Definition StatusInternalServerError : Z := 500.

Record ResponseWriter := {
  status : option Z;
  header : list (string * string);
  body : string
}.

Definition new_response : ResponseWriter :=
  {| status := None; header := []; body := EmptyString |}.

Definition WriteHeader (w : ResponseWriter) (code : Z) : ResponseWriter :=
  match status w with
  | Some _ => w
  | None => {| status := Some code; header := header w; body := body w |}
  end.

(** The first [Write] sends status 200 when none was set. *)
Definition Write (w : ResponseWriter) (b : string) : ResponseWriter :=
  let w' := WriteHeader w StatusOK in
  {| status := status w'; header := header w'; body := body w' +++ b |}.

(** Headers set after the status line went out are not sent.  Keys are kept
    as the handler writes them; net/http sends them in canonical case. *)
Definition Header_Set (w : ResponseWriter) (k v : string) : ResponseWriter :=
  match status w with
  | Some _ => w
  | None =>
      {| status := None;
         header := (k, v) :: filter (fun kv => negb (String.eqb (fst kv) k)) (header w);
         body := body w |}
  end.

Record Request := {
  GetPrincipal : option models.User
}.

(** ** routes/api/metrics.go *)

Definition MetricsPrefix : string := "wakatime".

Definition DescHeartbeats : string := "Total number of tracked heartbeats.".
Definition DescAllTime : string := "Total seconds (all time).".
Definition DescTotal : string := "Total seconds.".
Definition DescEditors : string := "Total seconds for each editor.".
Definition DescProjects : string := "Total seconds for each project.".
Definition DescLanguages : string := "Total seconds for each language.".
Definition DescOperatingSystems : string := "Total seconds for each operating system.".
Definition DescMachines : string := "Total seconds for each machine.".
Definition DescLabels : string := "Total seconds for each project label.".

Definition DescAdminTotalTime : string := "Total seconds (all users, all time).".
Definition DescAdminTotalHeartbeats : string :=
  "Total number of tracked heartbeats (all users, all time)".
Definition DescAdminUserHeartbeats : string :=
  "Total number of tracked heartbeats by user (all time).".
Definition DescAdminUserTime : string :=
  "Total tracked activity in seconds (all time) (active users only).".
Definition DescAdminTotalUsers : string := "Total number of registered users.".
Definition DescAdminActiveUsers : string := "Number of active users.".

Definition DescJobQueueEnqueued : string := "Number of jobs currently enqueued".
Definition DescJobQueueTotalFinished : string := "Total number of processed jobs".

Definition DescMemAllocTotal : string := "Total number of bytes allocated for heap".
Definition DescMemSysTotal : string := "Total number of bytes obtained from the OS".
Definition DescPausedTotal : string :=
  "Total nanoseconds stop-the-world pause time due to GC".
Definition DescNumGCTotal : string := "Total number of GC cycles".
Definition DescGoroutines : string := "Total number of running goroutines".
Definition DescDatabaseSize : string := "Total database size in bytes".

Definition gauge (name desc : string) (v : Z) (ls : list Label.t) : Metric :=
  GaugeMetric {| Name := MetricsPrefix +++ name; Desc := desc; Value := v;
                 Labels := slice_of ls |}.

Definition counter (name desc : string) (v : Z) (ls : list Label.t) : Metric :=
  CounterMetric {| Name := MetricsPrefix +++ name; Desc := desc; Value := v;
                   Labels := slice_of ls |}.

Definition label (k v : string) : Label.t := {| Label.Key := k; Label.Value := v |}.

Section Handler.

Variable X : Externals.
Variable h : MetricsHandler.

  (** One [for _, p := range summaryToday.<Dimension>] loop. *)
Definition breakdown (name desc : string) (today : models.Summary)
      (ty : models.SummaryType) (items : list models.SummaryItem) : Metrics :=
    map (fun p =>
           gauge name desc
             (SecondsInt X (TotalTimeByKey X today ty (models.Key p)))
             [label "name" (models.Key p)])
        items.

  (** The two metrics of one queue, in the order they are appended. *)
Definition queue_metrics (qm : conf.QueueMetrics) : Metrics :=
    [ gauge "_queue_jobs_enqueued" DescJobQueueEnqueued (conf.EnqueuedJobs qm)
        [label "queue" (conf.Queue qm)];
      counter "_queue_jobs_total_finished" DescJobQueueTotalFinished
        (conf.FinishedJobs qm) [label "queue" (conf.Queue qm)] ].

Definition getUserMetrics (user : models.User) : M (Metrics + error) :=
    let metrics : Metrics := [] in
    r <- call (EvAliased IntervalAllTimeUntilNow user)
           (summarySrvc_Aliased h IntervalAllTimeUntilNow user) ;;
    let '(summaryAllTime, err) := r in
    match err with
    | Some err =>
        log LError "failed to retrieve all time summary for user '%s' for metric"
          [models.ID user] ;;;
        ret (inr err)
    | None =>
    r <- call (EvAliased IntervalToday user) (summarySrvc_Aliased h IntervalToday user) ;;
    let '(summaryToday, err) := r in
    match err with
    | Some err =>
        log LError "failed to retrieve today's summary for user '%s' for metric"
          [models.ID user] ;;;
        ret (inr err)
    | None =>
    r <- call (EvCountByUser user) (heartbeatSrvc_CountByUser h user) ;;
    let '(heartbeatCount, err) := r in
    match err with
    | Some err =>
        log LError "failed to count heartbeats for user '%s' for metric"
          [models.ID user] ;;;
        ret (inr err)
    | None =>
    (* User Metrics *)
    let metrics := metrics ++
      [gauge "_cumulative_seconds_total" DescAllTime
         (AllTimeTotalSeconds X summaryAllTime) []] in
    let metrics := metrics ++
      [gauge "_seconds_total" DescTotal (SecondsInt X (TotalTime X summaryToday)) []] in
    let metrics := metrics ++
      [gauge "_heartbeats_total" DescHeartbeats heartbeatCount []] in
    let metrics := metrics ++
      breakdown "_project_seconds_total" DescProjects summaryToday
        models.SummaryProject (models.Projects summaryToday) in
    let metrics := metrics ++
      breakdown "_language_seconds_total" DescLanguages summaryToday
        models.SummaryLanguage (models.Languages summaryToday) in
    let metrics := metrics ++
      breakdown "_editor_seconds_total" DescEditors summaryToday
        models.SummaryEditor (models.Editors summaryToday) in
    let metrics := metrics ++
      breakdown "_operating_system_seconds_total" DescOperatingSystems summaryToday
        models.SummaryOS (models.OperatingSystems summaryToday) in
    let metrics := metrics ++
      breakdown "_machine_seconds_total" DescMachines summaryToday
        models.SummaryMachine (models.Machines summaryToday) in
    let metrics := metrics ++
      breakdown "_label_seconds_total" DescLabels summaryToday
        models.SummaryLabel (models.Labels summaryToday) in
    (* Runtime metrics *)
    memStats <- call EvReadMemStats (runtime_ReadMemStats h) ;;
    goroutines <- call EvNumGoroutine (runtime_NumGoroutine h) ;;
    let metrics := metrics ++
      [gauge "_goroutines_total" DescGoroutines goroutines []] in
    let metrics := metrics ++
      [gauge "_mem_alloc_total" DescMemAllocTotal (int64_of_uint64 (Alloc memStats)) []] in
    let metrics := metrics ++
      [gauge "_mem_sys_total" DescMemSysTotal (int64_of_uint64 (Sys memStats)) []] in
    let metrics := metrics ++
      [counter "_paused_total" DescPausedTotal
         (int64_of_uint64 (PauseTotalNs memStats)) []] in
    let metrics := metrics ++
      [counter "_num_gc_total" DescNumGCTotal (NumGC memStats) []] in
    (* Database metrics *)
    r <- call EvGetDatabaseSize (metricsRepo_GetDatabaseSize h) ;;
    let '(dbSize, err) := r in
    match err with
    | Some err => log LWarn "failed to get database size (%v)" [err]
    | None => ret tt
    end ;;;
    let metrics := metrics ++
      [gauge "_db_total_bytes" DescDatabaseSize dbSize []] in
    (* Miscellaneous *)
    queues <- call EvGetQueueMetrics (conf_GetQueueMetrics h) ;;
    let metrics := metrics ++ flat_map queue_metrics queues in
    ret (inl metrics)
    end end end.

  (** The body of one task handed to the worker pool, for the user at index
      [i] of [activeUsers]; [i] is the loop variable of its own iteration.
      An index outside the slice does not occur ([pool_order_perm]). *)
Definition user_time_task (activeUsers : list models.User) (i : nat)
      (metrics : Metrics) : M Metrics :=
    match nth_error activeUsers i with
    | None => ret metrics
    | Some u =>
        r <- call (EvAliased IntervalAnyTruncated u)
               (summarySrvc_Aliased h IntervalAnyTruncated u) ;;
        let '(summary, err) := r in
        match err with
        | Some err =>
            log LError "failed to get total time for user '%s' as part of metrics, %v"
              [models.ID u; err] ;;;
            ret metrics
        | None =>
            ret (metrics ++
                 [gauge "_admin_user_time_seconds_total" DescAdminUserTime
                    (SecondsInt X (TotalTime X summary))
                    [label "user" (models.ID u)]])
        end
    end.

  (** [wp.Submit] for every index, then [wp.StopAndWait()]: the tasks have
      all run when this returns, each appending under the lock, in the order
      the pool gave them the lock. *)
Fixpoint run_pool (activeUsers : list models.User) (order : list nat)
      (metrics : Metrics) : M Metrics :=
    match order with
    | [] => ret metrics
    | i :: rest =>
        metrics <- user_time_task activeUsers i metrics ;;
        run_pool activeUsers rest metrics
    end.

Definition getAdminMetrics (user : models.User) : M (Metrics + error) :=
    let metrics : Metrics := [] in
    log LDebug "[metrics] start admin metrics calculation" [] ;;;
    if negb (models.IsAdmin user) then ret (inr "unauthorized"%string) else
    r <- call (EvGetString conf.KeyLatestTotalTime)
           (keyValueSrvc_GetString h conf.KeyLatestTotalTime) ;;
    let totalSeconds : Z :=
      match r with
      | (Some t, None) =>
          if String.eqb (models.KVValue t) EmptyString then 0%Z
          else match ParseDuration X (models.KVValue t) with
               | (d, None) => SecondsInt X d
               | (_, Some _) => 0%Z
               end
      | _ => 0%Z
      end in
    r <- call EvUserCount (userSrvc_Count h) ;;
    let totalUsers := fst r in
    r <- call (EvHeartbeatCount true) (heartbeatSrvc_Count h true) ;;
    let totalHeartbeats := fst r in
    log LDebug "[metrics] finished counting users and heartbeats after %v" [] ;;;
    r <- call (EvGetActive false) (userSrvc_GetActive h false) ;;
    let '(activeUsers, err) := r in
    match err with
    | Some err =>
        log LError "failed to retrieve active users for metric - %v" [err] ;;;
        ret (inr err)
    | None =>
    log LDebug "[metrics] finished getting active users after %v" [] ;;;
    let metrics := metrics ++
      [gauge "_admin_seconds_total" DescAdminTotalTime totalSeconds []] in
    let metrics := metrics ++
      [gauge "_admin_heartbeats_total" DescAdminTotalHeartbeats totalHeartbeats []] in
    let metrics := metrics ++
      [gauge "_admin_users_total" DescAdminTotalUsers totalUsers []] in
    let metrics := metrics ++
      [gauge "_admin_users_active_total" DescAdminActiveUsers
         (Z.of_nat (List.length activeUsers)) []] in
    (* Count per-user heartbeats *)
    r <- call (EvCountByUsers activeUsers) (heartbeatSrvc_CountByUsers h activeUsers) ;;
    let '(userCounts, err) := r in
    match err with
    | Some err =>
        log LError "failed to count heartbeats for active users" [err] ;;;
        ret (inr err)
    | None =>
    let metrics := metrics ++
      map (fun uc =>
             gauge "_admin_user_heartbeats_total" DescAdminUserHeartbeats
               (models.Count uc) [label "user" (models.User_ uc)])
          userCounts in
    log LDebug "[metrics] finished counting heartbeats by user after %v" [] ;;;
    (* Get per-user total activity *)
    metrics <- run_pool activeUsers (pool_order X (List.length activeUsers)) metrics ;;
    log LDebug "[metrics] finished retrieving total activity time by user after %v" [] ;;;
    ret (inl metrics)
    end end.

Definition internal_error (w : ResponseWriter) (err : error) : M ResponseWriter :=
    log LError "%v" [err] ;;;
    let w := WriteHeader w StatusInternalServerError in
    ret (Write w conf.ErrInternalServerError).

Definition Get (w : ResponseWriter) (r : Request) : M ResponseWriter :=
    match GetPrincipal r with
    | None =>
        let w := WriteHeader w StatusUnauthorized in
        ret (Write w conf.ErrUnauthorized)
    | Some reqUser =>
        let metrics : Metrics := [] in
        res <- getUserMetrics reqUser ;;
        match res with
        | inr err => internal_error w err
        | inl userMetrics =>
            let metrics := metrics ++ userMetrics in
            res <- (if models.IsAdmin reqUser then
                      res <- getAdminMetrics reqUser ;;
                      match res with
                      | inr err => ret (inr err)
                      | inl adminMetrics => ret (inl (metrics ++ adminMetrics))
                      end
                    else ret (inl metrics)) ;;
            match res with
            | inr err => internal_error w err
            | inl metrics =>
                let metrics := sort_Sort X metrics in
                let w := Header_Set w "content-type" "text/plain; charset=utf-8" in
                ret (Write w (Metrics_Print metrics))
            end
        end
    end.

End Handler.

(** ** The order of the sort keys *)

Lemma string_compare_refl (s : string) : String.compare s s = Eq.
Proof.
  destruct (String.compare s s) eqn:E; trivial.
  - pose proof (String.compare_antisym s s) as A. rewrite E in A. discriminate.
  - pose proof (String.compare_antisym s s) as A. rewrite E in A. discriminate.
Qed.

Lemma string_compare_lt_trans (a b c : string) :
  String.compare a b = Lt -> String.compare b c = Lt -> String.compare a c = Lt.
Proof.
  intros H1 H2.
  apply String_as_OT.cmp_lt in H1. apply String_as_OT.cmp_lt in H2.
  apply String_as_OT.cmp_lt. eapply String_as_OT.lt_trans; eauto.
Qed.

Lemma key_compare_refl (a : string * string) : key_compare a a = Eq.
Proof. unfold key_compare. now rewrite !string_compare_refl. Qed.

Lemma key_compare_eq (a b : string * string) : key_compare a b = Eq -> a = b.
Proof.
  destruct a as [a1 a2], b as [b1 b2]. unfold key_compare. simpl.
  destruct (String.compare a1 b1) eqn:E1; try discriminate.
  intros E2. apply String.compare_eq_iff in E1. apply String.compare_eq_iff in E2.
  congruence.
Qed.

Lemma key_compare_antisym (a b : string * string) :
  key_compare a b = CompOpp (key_compare b a).
Proof.
  unfold key_compare.
  rewrite (String.compare_antisym (fst a) (fst b)).
  destruct (String.compare (fst b) (fst a)); simpl; trivial.
  apply String.compare_antisym.
Qed.

Lemma key_compare_lt_trans (a b c : string * string) :
  key_compare a b = Lt -> key_compare b c = Lt -> key_compare a c = Lt.
Proof.
  destruct a as [a1 a2], b as [b1 b2], c as [c1 c2]. unfold key_compare. simpl.
  destruct (String.compare a1 b1) eqn:E1; try discriminate;
    destruct (String.compare b1 c1) eqn:E2; try discriminate; intros H1 H2.
  - apply String.compare_eq_iff in E1, E2. subst.
    rewrite string_compare_refl. eapply string_compare_lt_trans; eauto.
  - apply String.compare_eq_iff in E1. subst. now rewrite E2.
  - apply String.compare_eq_iff in E2. subst. now rewrite E1.
  - now rewrite (string_compare_lt_trans _ _ _ E1 E2).
Qed.

Lemma key_le_iff (a b : Metric) :
  key_le a b <-> key_compare (sort_key a) (sort_key b) <> Gt.
Proof.
  unfold key_le, Less. rewrite (key_compare_antisym (sort_key b)).
  destruct (key_compare (sort_key a) (sort_key b)); simpl; split; congruence.
Qed.

Lemma key_le_refl (a : Metric) : key_le a a.
Proof. apply key_le_iff. now rewrite key_compare_refl. Qed.

Lemma key_le_total (a b : Metric) : key_le a b \/ key_le b a.
Proof.
  rewrite !key_le_iff. rewrite (key_compare_antisym (sort_key b)).
  destruct (key_compare (sort_key a) (sort_key b)); simpl; intuition congruence.
Qed.

Lemma key_le_trans (a b c : Metric) : key_le a b -> key_le b c -> key_le a c.
Proof.
  rewrite !key_le_iff. intros H1 H2.
  destruct (key_compare (sort_key a) (sort_key b)) eqn:E1; try congruence;
    destruct (key_compare (sort_key b) (sort_key c)) eqn:E2; try congruence.
  - apply key_compare_eq in E1. rewrite E1, E2. congruence.
  - apply key_compare_eq in E1. rewrite E1, E2. congruence.
  - apply key_compare_eq in E2. rewrite <- E2, E1. congruence.
  - rewrite (key_compare_lt_trans _ _ _ E1 E2). congruence.
Qed.

Lemma Less_false_of_lt (a b : Metric) : Less a b = true -> Less b a = false.
Proof.
  unfold Less. rewrite (key_compare_antisym (sort_key b)).
  destruct (key_compare (sort_key a) (sort_key b)); simpl; congruence.
Qed.

(** ** Two sorting procedures that keep the promise of [sort.Sort] *)

Fixpoint insert (m : Metric) (l : Metrics) : Metrics :=
  match l with
  | [] => [m]
  | x :: rest => if Less x m then x :: insert m rest else m :: l
  end.

Definition insertion_sort (ms : Metrics) : Metrics := fold_right insert [] ms.

Lemma insert_perm (m : Metric) (l : Metrics) : Permutation (m :: l) (insert m l).
Proof.
  induction l as [|x rest IH]; simpl; auto.
  destruct (Less x m); auto.
  etransitivity; [apply perm_swap|]. now constructor.
Qed.

Lemma insertion_sort_perm (ms : Metrics) : Permutation ms (insertion_sort ms).
Proof.
  induction ms as [|m rest IH]; simpl; auto.
  etransitivity; [|apply insert_perm]. now constructor.
Qed.

Lemma insert_sorted (m : Metric) (l : Metrics) :
  StronglySorted key_le l -> StronglySorted key_le (insert m l).
Proof.
  induction 1 as [|x rest Hs IH Hall]; simpl.
  - repeat constructor.
  - destruct (Less x m) eqn:E.
    + constructor; trivial.
      eapply Permutation_Forall; [apply insert_perm|].
      constructor; trivial. now apply Less_false_of_lt.
    + constructor; [now constructor|].
      constructor; trivial.
      eapply Forall_impl; [|exact Hall]. intros y Hy.
      eapply key_le_trans; [exact E|exact Hy].
Qed.

Lemma insertion_sort_sorted (ms : Metrics) : StronglySorted key_le (insertion_sort ms).
Proof.
  induction ms as [|m rest IH]; simpl; [constructor|now apply insert_sorted].
Qed.

(** Sorting the reversed slice: as good for [sort.Sort], and it swaps the
    elements that compare equal. *)
Definition reversing_sort (ms : Metrics) : Metrics := insertion_sort (rev ms).

Lemma reversing_sort_perm (ms : Metrics) : Permutation ms (reversing_sort ms).
Proof.
  unfold reversing_sort.
  etransitivity; [apply Permutation_rev|apply insertion_sort_perm].
Qed.

Lemma reversing_sort_sorted (ms : Metrics) : StronglySorted key_le (reversing_sort ms).
Proof. apply insertion_sort_sorted. Qed.

Definition identity_order (n : nat) : list nat := seq 0 n.

Lemma identity_order_perm (n : nat) : Permutation (identity_order n) (seq 0 n).
Proof. apply Permutation_refl. Qed.

Lemma reverse_order_perm (n : nat) : Permutation (rev (seq 0 n)) (seq 0 n).
Proof. apply Permutation_sym, Permutation_rev. Qed.

(** Sample externals used to run the handler on concrete requests: seconds
    by integer division of nanoseconds, the total of a summary read off its
    project items, and only the literal [1h] understood as a duration. *)
Definition sum_totals (items : list models.SummaryItem) : Z :=
  fold_right (fun i acc => (models.Total i + acc)%Z) 0%Z items.

Definition items_of (s : models.Summary) (ty : models.SummaryType) :=
  match ty with
  | models.SummaryProject => models.Projects s
  | models.SummaryLanguage => models.Languages s
  | models.SummaryEditor => models.Editors s
  | models.SummaryOS => models.OperatingSystems s
  | models.SummaryMachine => models.Machines s
  | models.SummaryLabel => models.Labels s
  end.

Definition sample_externals (srt : Metrics -> Metrics)
    (Hp : forall ms, Permutation ms (srt ms))
    (Hs : forall ms, StronglySorted key_le (srt ms))
    (ord : nat -> list nat) (Ho : forall n, Permutation (ord n) (seq 0 n))
    : Externals :=
  {| AllTimeTotalSeconds := fun s => (sum_totals (models.Projects s) / 1000000000)%Z;
     TotalTime := fun s => sum_totals (models.Projects s);
     TotalTimeByKey := fun s ty k =>
       sum_totals (filter (fun i => String.eqb (models.Key i) k) (items_of s ty));
     SecondsInt := fun d => (d / 1000000000)%Z;
     ParseDuration := fun s =>
       if String.eqb s "1h" then (3600000000000%Z, None)
       else (0%Z, Some "time: invalid duration"%string);
     sort_Sort := srt;
     sort_Sort_perm := Hp;
     sort_Sort_sorted := Hs;
     pool_order := ord;
     pool_order_perm := Ho |}.

Definition X0 : Externals :=
  sample_externals insertion_sort insertion_sort_perm insertion_sort_sorted
    identity_order identity_order_perm.

Definition X1 : Externals :=
  sample_externals reversing_sort reversing_sort_perm reversing_sort_sorted
    (fun n => rev (seq 0 n)) reverse_order_perm.

(** ** What the two collectors return *)

Section Collectors.

Variable X : Externals.
Variable h : MetricsHandler.

  (** The metric set [getUserMetrics] has built when it returns without
      error, read off the sequence of [append]s. *)
Definition user_metric_set (summaryAllTime summaryToday : models.Summary)
      (heartbeatCount : Z) : Metrics :=
    [ gauge "_cumulative_seconds_total" DescAllTime
        (AllTimeTotalSeconds X summaryAllTime) [];
      gauge "_seconds_total" DescTotal (SecondsInt X (TotalTime X summaryToday)) [];
      gauge "_heartbeats_total" DescHeartbeats heartbeatCount [] ]
    ++ breakdown X "_project_seconds_total" DescProjects summaryToday
         models.SummaryProject (models.Projects summaryToday)
    ++ breakdown X "_language_seconds_total" DescLanguages summaryToday
         models.SummaryLanguage (models.Languages summaryToday)
    ++ breakdown X "_editor_seconds_total" DescEditors summaryToday
         models.SummaryEditor (models.Editors summaryToday)
    ++ breakdown X "_operating_system_seconds_total" DescOperatingSystems summaryToday
         models.SummaryOS (models.OperatingSystems summaryToday)
    ++ breakdown X "_machine_seconds_total" DescMachines summaryToday
         models.SummaryMachine (models.Machines summaryToday)
    ++ breakdown X "_label_seconds_total" DescLabels summaryToday
         models.SummaryLabel (models.Labels summaryToday)
    ++ [ gauge "_goroutines_total" DescGoroutines (runtime_NumGoroutine h) [];
         gauge "_mem_alloc_total" DescMemAllocTotal
           (int64_of_uint64 (Alloc (runtime_ReadMemStats h))) [];
         gauge "_mem_sys_total" DescMemSysTotal
           (int64_of_uint64 (Sys (runtime_ReadMemStats h))) [];
         counter "_paused_total" DescPausedTotal
           (int64_of_uint64 (PauseTotalNs (runtime_ReadMemStats h))) [];
         counter "_num_gc_total" DescNumGCTotal (NumGC (runtime_ReadMemStats h)) [];
         gauge "_db_total_bytes" DescDatabaseSize
           (fst (metricsRepo_GetDatabaseSize h)) [] ]
    ++ flat_map (queue_metrics) (conf_GetQueueMetrics h).

Definition user_result (user : models.User) : Metrics + error :=
    let '(summaryAllTime, e1) := summarySrvc_Aliased h IntervalAllTimeUntilNow user in
    let '(summaryToday, e2) := summarySrvc_Aliased h IntervalToday user in
    let '(heartbeatCount, e3) := heartbeatSrvc_CountByUser h user in
    match e1, e2, e3 with
    | Some e, _, _ => inr e
    | None, Some e, _ => inr e
    | None, None, Some e => inr e
    | None, None, None =>
        inl (user_metric_set summaryAllTime summaryToday heartbeatCount)
    end.

Lemma getUserMetrics_result (user : models.User) :
    fst (getUserMetrics X h user) = user_result user.
Proof.
    unfold getUserMetrics, user_result, user_metric_set, bind, call, log, ret.
    destruct (summarySrvc_Aliased h IntervalAllTimeUntilNow user) as [s1 [e1|]];
      destruct (summarySrvc_Aliased h IntervalToday user) as [s2 [e2|]];
      destruct (heartbeatSrvc_CountByUser h user) as [hb [e3|]]; simpl; trivial;
      destruct (metricsRepo_GetDatabaseSize h) as [db [e4|]]; simpl;
      rewrite <- ?app_assoc; reflexivity.
Qed.

  (** The row a pool task appends for the user at index [i], if any. *)
Definition time_row (u : models.User) : Metrics :=
    match summarySrvc_Aliased h IntervalAnyTruncated u with
    | (summary, None) =>
        [gauge "_admin_user_time_seconds_total" DescAdminUserTime
           (SecondsInt X (TotalTime X summary)) [label "user" (models.ID u)]]
    | (_, Some _) => []
    end.

Definition time_row_at (activeUsers : list models.User) (i : nat) : Metrics :=
    match nth_error activeUsers i with
    | Some u => time_row u
    | None => []
    end.

Lemma run_pool_result (activeUsers : list models.User) (order : list nat) :
    forall metrics,
      fst (run_pool X h activeUsers order metrics)
      = metrics ++ flat_map (time_row_at activeUsers) order.
Proof.
    induction order as [|i rest IH]; intros metrics; simpl.
    - now rewrite app_nil_r.
    - unfold bind.
      destruct (user_time_task X h activeUsers i metrics) as [ms t] eqn:E.
      specialize (IH ms).
      destruct (run_pool X h activeUsers rest ms) as [ms' t'].
      simpl in *. subst ms'.
      assert (ms = metrics ++ time_row_at activeUsers i) as ->.
      { clear - E. unfold user_time_task, time_row_at, time_row, bind, call, log, ret in *.
        destruct (nth_error activeUsers i) as [u|].
        - destruct (summarySrvc_Aliased h IntervalAnyTruncated u) as [s [e|]];
            simpl in E; inversion E; subst; trivial.
          now rewrite app_nil_r.
        - inversion E. now rewrite app_nil_r. }
      now rewrite <- app_assoc.
Qed.

Definition cached_total_seconds : Z :=
    match keyValueSrvc_GetString h conf.KeyLatestTotalTime with
    | (Some t, None) =>
        if String.eqb (models.KVValue t) EmptyString then 0%Z
        else match ParseDuration X (models.KVValue t) with
             | (d, None) => SecondsInt X d
             | (_, Some _) => 0%Z
             end
    | _ => 0%Z
    end.

Definition heartbeat_rows (userCounts : list models.CountByUser) : Metrics :=
    map (fun uc =>
           gauge "_admin_user_heartbeats_total" DescAdminUserHeartbeats
             (models.Count uc) [label "user" (models.User_ uc)])
        userCounts.

  (** The metric set [getAdminMetrics] has built when it returns without
      error. *)
Definition admin_metric_set (activeUsers : list models.User)
      (userCounts : list models.CountByUser) : Metrics :=
    [ gauge "_admin_seconds_total" DescAdminTotalTime cached_total_seconds [];
      gauge "_admin_heartbeats_total" DescAdminTotalHeartbeats
        (fst (heartbeatSrvc_Count h true)) [];
      gauge "_admin_users_total" DescAdminTotalUsers (fst (userSrvc_Count h)) [];
      gauge "_admin_users_active_total" DescAdminActiveUsers
        (Z.of_nat (List.length activeUsers)) [] ]
    ++ heartbeat_rows userCounts
    ++ flat_map (time_row_at activeUsers) (pool_order X (List.length activeUsers)).

Definition admin_result (user : models.User) : Metrics + error :=
    if negb (models.IsAdmin user) then inr "unauthorized"%string else
    let '(activeUsers, e1) := userSrvc_GetActive h false in
    match e1 with
    | Some e => inr e
    | None =>
        let '(userCounts, e2) := heartbeatSrvc_CountByUsers h activeUsers in
        match e2 with
        | Some e => inr e
        | None => inl (admin_metric_set activeUsers userCounts)
        end
    end.

Lemma getAdminMetrics_result (user : models.User) :
    fst (getAdminMetrics X h user) = admin_result user.
Proof.
    unfold getAdminMetrics, admin_result, admin_metric_set, cached_total_seconds,
      heartbeat_rows.
    unfold bind at 1. unfold log at 1.
    destruct (models.IsAdmin user); simpl; trivial.
    unfold bind, call, log, ret.
    destruct (userSrvc_Count h) as [tu eu].
    destruct (heartbeatSrvc_Count h true) as [th eh].
    destruct (userSrvc_GetActive h false) as [au [e1|]]; simpl.
    - destruct (keyValueSrvc_GetString h conf.KeyLatestTotalTime); reflexivity.
    - destruct (keyValueSrvc_GetString h conf.KeyLatestTotalTime) as [kv ekv].
      destruct (heartbeatSrvc_CountByUsers h au) as [uc [e2|]]; simpl; trivial.
      pose proof (run_pool_result au (pool_order X (List.length au))) as R.
      match goal with
      | |- context [run_pool X h au ?o ?m] =>
          specialize (R m); destruct (run_pool X h au o m) as [ms t]
      end.
      simpl in *. subst ms. rewrite <- ?app_assoc. reflexivity.
Qed.

  (** *** The handler, case by case *)

Definition error_response (w : ResponseWriter) : ResponseWriter :=
    Write (WriteHeader w StatusInternalServerError) conf.ErrInternalServerError.

Definition ok_response (w : ResponseWriter) (ms : Metrics) : ResponseWriter :=
    Write (Header_Set w "content-type" "text/plain; charset=utf-8")
      (Metrics_Print (sort_Sort X ms)).

  (** The merged set the handler sorts and prints, or the error it logs. *)
Definition merged_result (reqUser : models.User) : Metrics + error :=
    match user_result reqUser with
    | inr e => inr e
    | inl userMetrics =>
        if models.IsAdmin reqUser then
          match admin_result reqUser with
          | inr e => inr e
          | inl adminMetrics => inl (userMetrics ++ adminMetrics)
          end
        else inl userMetrics
    end.

Lemma Get_result (w : ResponseWriter) (reqUser : models.User) :
    fst (Get X h w {| GetPrincipal := Some reqUser |})
    = match merged_result reqUser with
      | inr _ => error_response w
      | inl ms => ok_response w ms
      end.
Proof.
    unfold Get, merged_result. simpl.
    rewrite <- getUserMetrics_result, <- getAdminMetrics_result.
    unfold bind, internal_error, log, ret.
    destruct (getUserMetrics X h reqUser) as [[um|e] t]; simpl; trivial.
    destruct (models.IsAdmin reqUser); simpl; trivial.
    destruct (getAdminMetrics X h reqUser) as [[am|e] t']; simpl; trivial.
Qed.

End Collectors.

(** ** The renderer on a sorted set *)

Definition groups (ms : Metrics) (names : list string) : Metrics :=
  flat_map (fun n => filter (has_name n) ms) names.

Lemma samples_app (a b : list Line) : samples (a ++ b) = samples a ++ samples b.
Proof. unfold samples. apply flat_map_app. Qed.

Lemma samples_map_SampleLine (g : Metrics) : samples (map SampleLine g) = g.
Proof. induction g as [|m g IH]; simpl; congruence. Qed.

Lemma samples_group_lines (ms : Metrics) (n : string) :
  samples (group_lines ms n) = filter (has_name n) ms.
Proof.
  unfold group_lines. destruct (filter (has_name n) ms) as [|m g]; trivial.
  change (samples (map SampleLine (m :: g)) = m :: g).
  apply samples_map_SampleLine.
Qed.

Lemma samples_Metrics_lines (ms : Metrics) :
  samples (Metrics_lines ms) = groups ms (distinct (map metric_name ms)).
Proof.
  unfold Metrics_lines, groups.
  induction (distinct (map metric_name ms)) as [|n L IH]; simpl; trivial.
  now rewrite samples_app, samples_group_lines, IH.
Qed.

Lemma filter_all_false {A} (f : A -> bool) (l : list A) :
  Forall (fun x => f x = false) l -> filter f l = [].
Proof.
  induction 1 as [|x l Hx _ IH]; simpl; trivial. now rewrite Hx.
Qed.

Lemma filter_all_true {A} (f : A -> bool) (l : list A) :
  Forall (fun x => f x = true) l -> filter f l = l.
Proof.
  induction 1 as [|x l Hx _ IH]; simpl; trivial. now rewrite Hx, IH.
Qed.

Lemma filter_name_group (p : string -> bool) (n : string) (ms : Metrics) :
  filter (fun m => p (metric_name m)) (filter (has_name n) ms)
  = if p n then filter (has_name n) ms else [].
Proof.
  assert (Forall (fun m => p (metric_name m) = p n) (filter (has_name n) ms)) as H.
  { apply Forall_forall. intros m Hm. apply filter_In in Hm as [_ Hm].
    unfold has_name in Hm. apply String.eqb_eq in Hm. now rewrite Hm. }
  destruct (p n).
  - now apply filter_all_true.
  - now apply filter_all_false.
Qed.

Lemma filter_groups (p : string -> bool) (ms : Metrics) (names : list string) :
  filter (fun m => p (metric_name m)) (groups ms names) = groups ms (filter p names).
Proof.
  unfold groups. induction names as [|n L IH]; simpl; trivial.
  rewrite filter_app, filter_name_group, IH.
  destruct (p n); reflexivity.
Qed.

Lemma groups_cons_other (m : Metric) (ms : Metrics) (names : list string) :
  Forall (fun n => has_name n m = false) names ->
  groups (m :: ms) names = groups ms names.
Proof.
  unfold groups. induction 1 as [|n L Hn _ IH]; trivial.
  cbn [flat_map filter]. rewrite Hn. now f_equal.
Qed.

Lemma key_le_name (a b : Metric) :
  key_le a b -> String.compare (metric_name a) (metric_name b) <> Gt.
Proof.
  rewrite key_le_iff. unfold key_compare, sort_key. simpl.
  destruct (String.compare (metric_name a) (metric_name b)); congruence.
Qed.

(** In a sorted set, the metrics that share the name of a lower bound come
    first. *)
Lemma sorted_partition (m : Metric) (rest : Metrics) :
  StronglySorted key_le rest -> Forall (key_le m) rest ->
  filter (has_name (metric_name m)) rest
    ++ filter (fun x => negb (has_name (metric_name m) x)) rest = rest.
Proof.
  induction 1 as [|x r Hs IH Hall]; intros Hm; simpl; trivial.
  inversion Hm as [|? ? Hmx Hmr]; subst.
  destruct (has_name (metric_name m) x) eqn:E; simpl.
  - f_equal. now apply IH.
  - assert (Forall (fun y => has_name (metric_name m) y = false) r) as Hr.
    { apply Forall_forall. intros y Hy.
      destruct (has_name (metric_name m) y) eqn:Ey; trivial.
      unfold has_name in E, Ey. apply String.eqb_eq in Ey.
      apply String.eqb_neq in E. exfalso. apply E.
      rewrite Forall_forall in Hall. specialize (Hall y Hy).
      apply key_le_name in Hall. apply key_le_name in Hmx.
      rewrite Ey in Hall.
      rewrite String.compare_antisym in Hmx.
      destruct (String.compare (metric_name x) (metric_name m)) eqn:C;
        simpl in *; try congruence.
      now apply String.compare_eq_iff in C. }
    rewrite (filter_all_false _ _ Hr). simpl. f_equal.
    apply filter_all_true. eapply Forall_impl; [|exact Hr].
    intros y Hy. simpl in Hy. now rewrite Hy.
Qed.

(** On a sorted set the renderer emits the sample lines in the order of the
    set. *)
Lemma sorted_samples (ms : Metrics) :
  StronglySorted key_le ms -> samples (Metrics_lines ms) = ms.
Proof.
  rewrite samples_Metrics_lines.
  induction 1 as [|m rest Hs IH Hall]; trivial.
  set (others := filter (fun x => negb (String.eqb x (metric_name m)))
                   (distinct (map metric_name rest))).
  change (filter (has_name (metric_name m)) (m :: rest) ++ groups (m :: rest) others
          = m :: rest).
  cbn [filter]. unfold has_name at 1. rewrite String.eqb_refl.
  rewrite groups_cons_other.
  - unfold others.
    rewrite <- (filter_groups (fun x => negb (String.eqb x (metric_name m)))), IH.
    simpl. f_equal. now apply sorted_partition.
  - apply Forall_forall. intros n Hn. apply filter_In in Hn as [_ Hn].
    unfold has_name. rewrite String.eqb_sym.
    now apply negb_true_iff in Hn.
Qed.

Lemma StronglySorted_split (A : Type) (R : A -> A -> Prop) (pre mid post : list A) (a b : A) :
  StronglySorted R (pre ++ a :: mid ++ b :: post) -> R a b.
Proof.
  induction pre as [|x pre IH]; simpl; intros H.
  - apply StronglySorted_inv in H as [_ H].
    rewrite Forall_forall in H. apply H.
    apply in_or_app. right. now left.
  - apply StronglySorted_inv in H as [H _]. auto.
Qed.

(** ** Sample handlers *)

Definition alice : models.User := {| models.ID := "alice"; models.IsAdmin := false |}.
Definition bob : models.User := {| models.ID := "bob"; models.IsAdmin := false |}.
Definition root : models.User := {| models.ID := "root"; models.IsAdmin := true |}.

Definition item (k : string) (seconds : Z) : models.SummaryItem :=
  {| models.Key := k; models.Total := (seconds * 1000000000)%Z |}.

Definition summary0 : models.Summary :=
  {| models.Projects := [item "wakapi" 7200];
     models.Languages := [item "rust" 3600; item "go" 3600];
     models.Editors := [item "vim" 7200];
     models.OperatingSystems := [];
     models.Machines := [];
     models.Labels := [] |}.

Definition memstats0 : MemStats :=
  {| Alloc := 1024; Sys := 4096; PauseTotalNs := 500; NumGC := 3 |}.

Definition count_one (u : models.User) : models.CountByUser :=
  {| models.User_ := models.ID u; models.Count := 1 |}.

(** Every service answers. *)
Definition h0 : MetricsHandler :=
  {| summarySrvc_Aliased := fun _ _ => (summary0, None);
     heartbeatSrvc_CountByUser := fun _ => (42%Z, None);
     heartbeatSrvc_Count := fun _ => (100%Z, None);
     heartbeatSrvc_CountByUsers := fun us => (map count_one us, None);
     userSrvc_Count := (3%Z, None);
     userSrvc_GetActive := fun _ => ([alice; bob], None);
     keyValueSrvc_GetString := fun k =>
       (Some {| models.KVKey := k; models.KVValue := "1h" |}, None);
     metricsRepo_GetDatabaseSize := (8192%Z, None);
     conf_GetQueueMetrics :=
       [{| conf.Queue := "default"; conf.EnqueuedJobs := 0; conf.FinishedJobs := 5 |}];
     runtime_ReadMemStats := memstats0;
     runtime_NumGoroutine := 8%Z |}.

(** As [h0], with the database size query failing. *)
Definition h_db_error : MetricsHandler :=
  {| summarySrvc_Aliased := summarySrvc_Aliased h0;
     heartbeatSrvc_CountByUser := heartbeatSrvc_CountByUser h0;
     heartbeatSrvc_Count := heartbeatSrvc_Count h0;
     heartbeatSrvc_CountByUsers := heartbeatSrvc_CountByUsers h0;
     userSrvc_Count := userSrvc_Count h0;
     userSrvc_GetActive := userSrvc_GetActive h0;
     keyValueSrvc_GetString := keyValueSrvc_GetString h0;
     metricsRepo_GetDatabaseSize := (0%Z, Some "database is locked"%string);
     conf_GetQueueMetrics := conf_GetQueueMetrics h0;
     runtime_ReadMemStats := runtime_ReadMemStats h0;
     runtime_NumGoroutine := runtime_NumGoroutine h0 |}.

(** As [h0], with the today summary failing for every user. *)
Definition h_today_error : MetricsHandler :=
  {| summarySrvc_Aliased := fun iv u =>
       match iv with
       | IntervalToday => (summary0, Some "summary unavailable"%string)
       | _ => (summary0, None)
       end;
     heartbeatSrvc_CountByUser := heartbeatSrvc_CountByUser h0;
     heartbeatSrvc_Count := heartbeatSrvc_Count h0;
     heartbeatSrvc_CountByUsers := heartbeatSrvc_CountByUsers h0;
     userSrvc_Count := userSrvc_Count h0;
     userSrvc_GetActive := userSrvc_GetActive h0;
     keyValueSrvc_GetString := keyValueSrvc_GetString h0;
     metricsRepo_GetDatabaseSize := metricsRepo_GetDatabaseSize h0;
     conf_GetQueueMetrics := conf_GetQueueMetrics h0;
     runtime_ReadMemStats := runtime_ReadMemStats h0;
     runtime_NumGoroutine := runtime_NumGoroutine h0 |}.

(** As [h0], with the key-value lookup and both instance-wide counts
    failing. *)
Definition h_scalar_errors : MetricsHandler :=
  {| summarySrvc_Aliased := summarySrvc_Aliased h0;
     heartbeatSrvc_CountByUser := heartbeatSrvc_CountByUser h0;
     heartbeatSrvc_Count := fun _ => (0%Z, Some "count failed"%string);
     heartbeatSrvc_CountByUsers := heartbeatSrvc_CountByUsers h0;
     userSrvc_Count := (0%Z, Some "count failed"%string);
     userSrvc_GetActive := userSrvc_GetActive h0;
     keyValueSrvc_GetString := fun _ => (None, Some "record not found"%string);
     metricsRepo_GetDatabaseSize := metricsRepo_GetDatabaseSize h0;
     conf_GetQueueMetrics := conf_GetQueueMetrics h0;
     runtime_ReadMemStats := runtime_ReadMemStats h0;
     runtime_NumGoroutine := runtime_NumGoroutine h0 |}.

(** As [h0], with the active users not retrievable. *)
Definition h_active_error : MetricsHandler :=
  {| summarySrvc_Aliased := summarySrvc_Aliased h0;
     heartbeatSrvc_CountByUser := heartbeatSrvc_CountByUser h0;
     heartbeatSrvc_Count := heartbeatSrvc_Count h0;
     heartbeatSrvc_CountByUsers := heartbeatSrvc_CountByUsers h0;
     userSrvc_Count := userSrvc_Count h0;
     userSrvc_GetActive := fun _ => ([], Some "connection refused"%string);
     keyValueSrvc_GetString := keyValueSrvc_GetString h0;
     metricsRepo_GetDatabaseSize := metricsRepo_GetDatabaseSize h0;
     conf_GetQueueMetrics := conf_GetQueueMetrics h0;
     runtime_ReadMemStats := runtime_ReadMemStats h0;
     runtime_NumGoroutine := runtime_NumGoroutine h0 |}.

(** As [h0], with the all-time total of [bob] failing in the pool and the
    batched count leaving out users without heartbeats. *)
Definition h_bob_fails : MetricsHandler :=
  {| summarySrvc_Aliased := fun iv u =>
       match iv with
       | IntervalAnyTruncated =>
           if String.eqb (models.ID u) "bob"
           then (summary0, Some "summary unavailable"%string)
           else (summary0, None)
       | _ => (summary0, None)
       end;
     heartbeatSrvc_CountByUser := heartbeatSrvc_CountByUser h0;
     heartbeatSrvc_Count := heartbeatSrvc_Count h0;
     heartbeatSrvc_CountByUsers := fun us =>
       (map count_one (filter (fun u => String.eqb (models.ID u) "alice") us), None);
     userSrvc_Count := userSrvc_Count h0;
     userSrvc_GetActive := userSrvc_GetActive h0;
     keyValueSrvc_GetString := keyValueSrvc_GetString h0;
     metricsRepo_GetDatabaseSize := metricsRepo_GetDatabaseSize h0;
     conf_GetQueueMetrics := conf_GetQueueMetrics h0;
     runtime_ReadMemStats := runtime_ReadMemStats h0;
     runtime_NumGoroutine := runtime_NumGoroutine h0 |}.

(** As [h0], with two queue snapshots under one queue name. *)
Definition h_twin_queues : MetricsHandler :=
  {| summarySrvc_Aliased := summarySrvc_Aliased h0;
     heartbeatSrvc_CountByUser := heartbeatSrvc_CountByUser h0;
     heartbeatSrvc_Count := heartbeatSrvc_Count h0;
     heartbeatSrvc_CountByUsers := heartbeatSrvc_CountByUsers h0;
     userSrvc_Count := userSrvc_Count h0;
     userSrvc_GetActive := userSrvc_GetActive h0;
     keyValueSrvc_GetString := keyValueSrvc_GetString h0;
     metricsRepo_GetDatabaseSize := metricsRepo_GetDatabaseSize h0;
     conf_GetQueueMetrics :=
       [{| conf.Queue := "mail"; conf.EnqueuedJobs := 1; conf.FinishedJobs := 10 |};
        {| conf.Queue := "mail"; conf.EnqueuedJobs := 2; conf.FinishedJobs := 20 |}];
     runtime_ReadMemStats := runtime_ReadMemStats h0;
     runtime_NumGoroutine := runtime_NumGoroutine h0 |}.

Definition request_of (u : models.User) : Request := {| GetPrincipal := Some u |}.
Definition anonymous : Request := {| GetPrincipal := None |}.

(** ** Properties of the handler *)

(** *** No principal *)

(** C6. A request without an authenticated principal gets status 401 and the
    body [401 unauthorized], nothing else is written, and no service is
    called and nothing is logged on the way. *)
Theorem Get_unauthorized (X : Externals) (h : MetricsHandler) (r : Request) :
  GetPrincipal r = None ->
  Get X h new_response r
  = ({| status := Some 401%Z; header := []; body := "401 unauthorized" |}, []).
Proof.
  intros Hr. unfold Get. rewrite Hr. reflexivity.
Qed.

Lemma Get_unauthorized_witness :
  Get X0 h0 new_response anonymous
  = ({| status := Some 401%Z; header := []; body := "401 unauthorized" |}, []).
Proof.
  apply (Get_unauthorized X0 h0 anonymous). reflexivity.
Defined.

(** *** Failures in the user-scoped phase *)

Definition response_500 : ResponseWriter :=
  {| status := Some 500%Z; header := []; body := "500 internal server error" |}.

(** The request of [u] is aborted: the collector returns an error and the
    response is the bare 500. *)
Definition request_aborts (X : Externals) (h : MetricsHandler) (u : models.User) : Prop :=
  (exists e, fst (getUserMetrics X h u) = inr e)
  /\ fst (Get X h new_response (request_of u)) = response_500.

Definition summary_or_count_fails (h : MetricsHandler) (u : models.User) : Prop :=
  snd (summarySrvc_Aliased h IntervalAllTimeUntilNow u) <> None
  \/ snd (summarySrvc_Aliased h IntervalToday u) <> None
  \/ snd (heartbeatSrvc_CountByUser h u) <> None.

(** The failures the claim lists; the queue snapshot list has no error
    result at all. *)
Definition user_phase_fails (h : MetricsHandler) (u : models.User) : Prop :=
  summary_or_count_fails h u \/ snd (metricsRepo_GetDatabaseSize h) <> None.

Lemma ok_response_new (X : Externals) (ms : Metrics) :
  ok_response X new_response ms
  = {| status := Some 200%Z;
       header := [("content-type"%string, "text/plain; charset=utf-8"%string)];
       body := Metrics_Print (sort_Sort X ms) |}.
Proof. reflexivity. Qed.

Lemma error_response_new : error_response new_response = response_500.
Proof. reflexivity. Qed.

Lemma Get_request_of (X : Externals) (h : MetricsHandler) (u : models.User) :
  fst (Get X h new_response (request_of u))
  = match merged_result X h u with
    | inr _ => response_500
    | inl ms => ok_response X new_response ms
    end.
Proof. unfold request_of. now rewrite Get_result, error_response_new. Qed.

(** C1, as stated, fails when only the database size query fails: the
    request of [alice] is then answered with status 200. *)
Lemma db_error_does_not_abort :
  user_phase_fails h_db_error alice
  /\ status (fst (Get X0 h_db_error new_response (request_of alice))) = Some 200%Z
  /\ ~ request_aborts X0 h_db_error alice.
Proof.
  split; [right; simpl; discriminate|].
  split; [rewrite Get_request_of; reflexivity|].
  intros [_ H]. rewrite Get_request_of in H. vm_compute in H. discriminate.
Qed.

(** What the database size query leaves in the log: one warning carrying
    the error when it fails, nothing when it answers. *)
Definition db_size_warning (h : MetricsHandler) : list Event :=
  match snd (metricsRepo_GetDatabaseSize h) with
  | Some err => [EvLog LWarn "failed to get database size (%v)" [err]]
  | None => []
  end.

(** C1, amended. When one of the two summary retrievals or the heartbeat
    count fails, [getUserMetrics] returns an error and the response is the
    bare 500 with the generic message.  A failing database size query does
    not abort: with the three calls above answering, [getUserMetrics]
    returns its metric set, carrying the size value the query returned, and
    its trace has, right after the query, one warning with the error of the
    query when it failed and no log line at all otherwise; the queue
    snapshots are read after it. *)
Theorem user_phase_abort (X : Externals) (h : MetricsHandler) (u : models.User) :
  (summary_or_count_fails h u -> request_aborts X h u)
  /\ (~ summary_or_count_fails h u ->
      exists ms,
        fst (getUserMetrics X h u) = inl ms
        /\ In (gauge "_db_total_bytes" DescDatabaseSize
                 (fst (metricsRepo_GetDatabaseSize h)) []) ms
        /\ snd (getUserMetrics X h u)
           = [ EvAliased IntervalAllTimeUntilNow u; EvAliased IntervalToday u;
               EvCountByUser u; EvReadMemStats; EvNumGoroutine; EvGetDatabaseSize ]
             ++ db_size_warning h ++ [EvGetQueueMetrics]).
Proof.
  split.
  - unfold summary_or_count_fails, request_aborts.
    rewrite Get_request_of, getUserMetrics_result.
    unfold merged_result, user_result.
    destruct (summarySrvc_Aliased h IntervalAllTimeUntilNow u) as [s1 [e1|]];
      destruct (summarySrvc_Aliased h IntervalToday u) as [s2 [e2|]];
      destruct (heartbeatSrvc_CountByUser h u) as [hb [e3|]]; simpl; intros F;
      try (split; [eexists; reflexivity | reflexivity]).
    exfalso. intuition congruence.
  - unfold summary_or_count_fails. intros F.
    rewrite getUserMetrics_result. unfold user_result.
    unfold getUserMetrics, db_size_warning, bind, call, log, ret.
    destruct (summarySrvc_Aliased h IntervalAllTimeUntilNow u) as [s1 [e1|]];
      destruct (summarySrvc_Aliased h IntervalToday u) as [s2 [e2|]];
      destruct (heartbeatSrvc_CountByUser h u) as [hb [e3|]];
      cbn [snd] in F; try (exfalso; apply F; intuition congruence).
    eexists. split; [reflexivity|]. split.
    + unfold user_metric_set. simpl. rewrite !in_app_iff. simpl. intuition.
    + destruct (metricsRepo_GetDatabaseSize h) as [db [e4|]]; reflexivity.
Qed.

Lemma user_phase_abort_witness :
  request_aborts X0 h_today_error alice
  /\ exists ms,
       fst (getUserMetrics X0 h_db_error alice) = inl ms
       /\ In (gauge "_db_total_bytes" DescDatabaseSize 0 []) ms
       /\ snd (getUserMetrics X0 h_db_error alice)
          = [ EvAliased IntervalAllTimeUntilNow alice; EvAliased IntervalToday alice;
              EvCountByUser alice; EvReadMemStats; EvNumGoroutine; EvGetDatabaseSize;
              EvLog LWarn "failed to get database size (%v)" ["database is locked"%string];
              EvGetQueueMetrics ].
Proof.
  split.
  - apply (proj1 (user_phase_abort X0 h_today_error alice)).
    right. left. simpl. discriminate.
  - apply (proj2 (user_phase_abort X0 h_db_error alice)).
    unfold summary_or_count_fails. simpl. intuition congruence.
Defined.

(** *** Names and labels of the collected metrics *)

Definition mem_name (n : string) (names : list string) : bool :=
  existsb (String.eqb n) names.

Definition user_names : list string :=
  [ "wakatime_cumulative_seconds_total"; "wakatime_seconds_total";
    "wakatime_heartbeats_total"; "wakatime_project_seconds_total";
    "wakatime_language_seconds_total"; "wakatime_editor_seconds_total";
    "wakatime_operating_system_seconds_total"; "wakatime_machine_seconds_total";
    "wakatime_label_seconds_total"; "wakatime_goroutines_total";
    "wakatime_mem_alloc_total"; "wakatime_mem_sys_total"; "wakatime_paused_total";
    "wakatime_num_gc_total"; "wakatime_db_total_bytes";
    "wakatime_queue_jobs_enqueued"; "wakatime_queue_jobs_total_finished" ]%string.

Definition admin_names : list string :=
  [ "wakatime_admin_seconds_total"; "wakatime_admin_heartbeats_total";
    "wakatime_admin_users_total"; "wakatime_admin_users_active_total";
    "wakatime_admin_user_heartbeats_total";
    "wakatime_admin_user_time_seconds_total" ]%string.

Definition user_named (m : Metric) : bool := mem_name (metric_name m) user_names.
Definition admin_named (m : Metric) : bool := mem_name (metric_name m) admin_names.

(** A name under the admin part of the name space. *)
Definition admin_scoped (n : string) : bool := String.prefix "wakatime_admin_" n.

Definition label_keys : list string := ["name"; "user"; "queue"]%string.

Definition well_formed (m : Metric) : Prop :=
  String.prefix "wakatime_" (metric_name m) = true
  /\ Labels (fields m) <> nil_slice
  /\ (List.length (elems (Labels (fields m))) <= 1)%nat
  /\ Forall (fun l => In (Label.Key l) label_keys) (elems (Labels (fields m))).

Definition well_formedb (m : Metric) : bool :=
  String.prefix "wakatime_" (metric_name m)
  && match Labels (fields m) with
     | nil_slice => false
     | slice_of ls =>
         (List.length ls <=? 1)%nat
         && forallb (fun l => mem_name (Label.Key l) label_keys) ls
     end.

Lemma mem_name_In (n : string) (names : list string) :
  mem_name n names = true -> In n names.
Proof.
  unfold mem_name. intros H. apply existsb_exists in H as [x [Hx E]].
  apply String.eqb_eq in E. now subst.
Qed.

Lemma well_formedb_sound (m : Metric) : well_formedb m = true -> well_formed m.
Proof.
  unfold well_formedb, well_formed. intros H.
  apply andb_true_iff in H as [Hp Hl]. split; trivial.
  destruct (Labels (fields m)) as [|ls]; [discriminate|].
  apply andb_true_iff in Hl as [Hn Hk]. simpl.
  split; [discriminate|]. split; [now apply Nat.leb_le|].
  apply Forall_forall. intros l Hin.
  rewrite forallb_forall in Hk. apply (mem_name_In _ label_keys). now apply Hk.
Qed.

(** Goals [Forall (fun m => f m = true) set] where [f] looks at the name and
    the label keys only. *)
Ltac each_metric :=
  repeat first
    [ apply Forall_nil
    | apply Forall_cons; [reflexivity|]
    | apply Forall_app; split
    | apply Forall_map; apply Forall_forall; intros ? _; reflexivity
    | apply Forall_flat_map; apply Forall_forall; intros ? _ ].

Section Names.

Variable X : Externals.
Variable h : MetricsHandler.

Lemma time_rows_forall (P : Metric -> Prop) (au : list models.User) (order : list nat) :
  (forall v id, P (gauge "_admin_user_time_seconds_total" DescAdminUserTime v
                     [label "user" id])) ->
  Forall P (flat_map (time_row_at X h au) order).
Proof.
  intros Hf. apply Forall_flat_map, Forall_forall. intros i _.
  unfold time_row_at, time_row.
  destruct (nth_error au i) as [u|]; [|constructor].
  destruct (summarySrvc_Aliased h IntervalAnyTruncated u) as [s [e|]];
    repeat constructor. apply Hf.
Qed.

Lemma user_metric_set_wf (s1 s2 : models.Summary) (hb : Z) :
  Forall (fun m => well_formedb m = true) (user_metric_set X h s1 s2 hb).
Proof. unfold user_metric_set, breakdown, queue_metrics. each_metric. Qed.

Lemma user_metric_set_named (s1 s2 : models.Summary) (hb : Z) :
  Forall (fun m => user_named m = true) (user_metric_set X h s1 s2 hb).
Proof. unfold user_metric_set, breakdown, queue_metrics. each_metric. Qed.

Lemma admin_metric_set_wf (au : list models.User) (uc : list models.CountByUser) :
  Forall (fun m => well_formedb m = true) (admin_metric_set X h au uc).
Proof.
  unfold admin_metric_set, heartbeat_rows. cbn [app].
  repeat (apply Forall_cons; [reflexivity|]).
  apply Forall_app; split.
  - apply Forall_map, Forall_forall. intros ? _. reflexivity.
  - apply time_rows_forall. intros; reflexivity.
Qed.

Lemma admin_metric_set_named (au : list models.User) (uc : list models.CountByUser) :
  Forall (fun m => admin_named m = true) (admin_metric_set X h au uc).
Proof.
  unfold admin_metric_set, heartbeat_rows. cbn [app].
  repeat (apply Forall_cons; [reflexivity|]).
  apply Forall_app; split.
  - apply Forall_map, Forall_forall. intros ? _. reflexivity.
  - apply time_rows_forall. intros; reflexivity.
Qed.

Lemma user_result_named (u : models.User) (ms : Metrics) :
  user_result X h u = inl ms -> Forall (fun m => user_named m = true) ms.
Proof.
  unfold user_result.
  destruct (summarySrvc_Aliased h IntervalAllTimeUntilNow u) as [s1 [e1|]];
    destruct (summarySrvc_Aliased h IntervalToday u) as [s2 [e2|]];
    destruct (heartbeatSrvc_CountByUser h u) as [hb [e3|]]; try discriminate.
  intros E. inversion E. apply user_metric_set_named.
Qed.

Lemma admin_result_named (u : models.User) (ms : Metrics) :
  admin_result X h u = inl ms -> Forall (fun m => admin_named m = true) ms.
Proof.
  unfold admin_result. destruct (negb (models.IsAdmin u)); [discriminate|].
  destruct (userSrvc_GetActive h false) as [au [e1|]]; [discriminate|].
  destruct (heartbeatSrvc_CountByUsers h au) as [uc [e2|]]; [discriminate|].
  intros E. inversion E. apply admin_metric_set_named.
Qed.

End Names.

(** C10. Every metric of the set [getUserMetrics] returns, and of the set
    [getAdminMetrics] returns, has a name that starts with [wakatime_], a
    label slice that is not nil and holds at most one label, and that
    label's key is [name], [user] or [queue]. *)
Theorem collected_metrics_well_formed (X : Externals) (h : MetricsHandler)
    (u : models.User) :
  match fst (getUserMetrics X h u) with
  | inl ms => Forall well_formed ms
  | inr _ => True
  end
  /\ match fst (getAdminMetrics X h u) with
     | inl ms => Forall well_formed ms
     | inr _ => True
     end.
Proof.
  rewrite getUserMetrics_result, getAdminMetrics_result. split.
  - unfold user_result.
    destruct (summarySrvc_Aliased h IntervalAllTimeUntilNow u) as [s1 [e1|]];
      destruct (summarySrvc_Aliased h IntervalToday u) as [s2 [e2|]];
      destruct (heartbeatSrvc_CountByUser h u) as [hb [e3|]]; trivial.
    eapply Forall_impl; [|apply user_metric_set_wf]. apply well_formedb_sound.
  - unfold admin_result. destruct (negb (models.IsAdmin u)); trivial.
    destruct (userSrvc_GetActive h false) as [au [e1|]]; trivial.
    destruct (heartbeatSrvc_CountByUsers h au) as [uc [e2|]]; trivial.
    eapply Forall_impl; [|apply admin_metric_set_wf]. apply well_formedb_sound.
Qed.

(** *** Failures in the admin phase *)

Definition admin_request_aborts (X : Externals) (h : MetricsHandler)
    (u : models.User) : Prop :=
  (exists e, fst (getAdminMetrics X h u) = inr e)
  /\ fst (Get X h new_response (request_of u)) = response_500.

(** The four instance-wide retrievals the claim lists. *)
Definition admin_scalar_fails (h : MetricsHandler) : Prop :=
  snd (keyValueSrvc_GetString h conf.KeyLatestTotalTime) <> None
  \/ snd (heartbeatSrvc_Count h true) <> None
  \/ snd (userSrvc_Count h) <> None
  \/ snd (userSrvc_GetActive h false) <> None.

(** C2, as stated, fails when the cached total time lookup and the two
    instance-wide counts fail: the admin [root] still gets its metrics. *)
Lemma scalar_errors_do_not_abort :
  admin_scalar_fails h_scalar_errors
  /\ (exists ms, fst (getAdminMetrics X0 h_scalar_errors root) = inl ms)
  /\ status (fst (Get X0 h_scalar_errors new_response (request_of root))) = Some 200%Z
  /\ ~ admin_request_aborts X0 h_scalar_errors root.
Proof.
  split; [left; simpl; discriminate|].
  split; [rewrite getAdminMetrics_result; eexists; reflexivity|].
  split; [rewrite Get_request_of; reflexivity|].
  intros [_ H]. rewrite Get_request_of in H. vm_compute in H. discriminate.
Qed.

(** C2, amended. For an admin, a failure to retrieve the active users makes
    [getAdminMetrics] return an error and the handler respond 500, and no
    admin metric set is returned.  The cached total time lookup, the total
    heartbeat count and the total user count cannot make it fail: once the
    active users and their batched heartbeat counts are there,
    [getAdminMetrics] returns a metric set. *)
Theorem admin_phase_abort (X : Externals) (h : MetricsHandler) (u : models.User) :
  models.IsAdmin u = true ->
  (snd (userSrvc_GetActive h false) <> None -> admin_request_aborts X h u)
  /\ (snd (userSrvc_GetActive h false) = None ->
      snd (heartbeatSrvc_CountByUsers h (fst (userSrvc_GetActive h false))) = None ->
      exists ms, fst (getAdminMetrics X h u) = inl ms).
Proof.
  intros Ha. unfold admin_request_aborts.
  rewrite Get_request_of, getAdminMetrics_result.
  unfold merged_result, admin_result. rewrite Ha. simpl.
  destruct (userSrvc_GetActive h false) as [au [e1|]]; simpl.
  - split; [intros _ | discriminate].
    split; [eexists; reflexivity|].
    destruct (user_result X h u); reflexivity.
  - split; [congruence|]. intros _ E.
    destruct (heartbeatSrvc_CountByUsers h au) as [uc [e2|]]; [discriminate|].
    eexists; reflexivity.
Qed.

Lemma admin_phase_abort_witness :
  admin_request_aborts X0 h_active_error root
  /\ exists ms, fst (getAdminMetrics X0 h_scalar_errors root) = inl ms.
Proof.
  split.
  - apply (proj1 (admin_phase_abort X0 h_active_error root eq_refl)).
    simpl. discriminate.
  - apply (proj2 (admin_phase_abort X0 h_scalar_errors root eq_refl));
      reflexivity.
Defined.

(** *** The cached total time *)

(** The cached last-known total time is of no use: the lookup fails, there
    is no entry, the entry is empty, or it is not a duration. *)
Definition cached_total_unusable (X : Externals) (h : MetricsHandler) : Prop :=
  match keyValueSrvc_GetString h conf.KeyLatestTotalTime with
  | (_, Some _) => True
  | (None, None) => True
  | (Some t, None) =>
      models.KVValue t = EmptyString
      \/ snd (ParseDuration X (models.KVValue t)) <> None
  end.

Lemma cached_total_seconds_unusable (X : Externals) (h : MetricsHandler) :
  cached_total_unusable X h -> cached_total_seconds X h = 0%Z.
Proof.
  unfold cached_total_unusable, cached_total_seconds.
  destruct (keyValueSrvc_GetString h conf.KeyLatestTotalTime) as [[t|] [e|]]; trivial.
  intros [E|E].
  - now rewrite E.
  - destruct (String.eqb (models.KVValue t) EmptyString); trivial.
    destruct (ParseDuration X (models.KVValue t)) as [d [e|]]; trivial.
    now elim E.
Qed.

(** C9. With an unusable cached total time, [getAdminMetrics] called for an
    admin fails only when the active users or their batched heartbeat counts
    cannot be retrieved; otherwise it returns a metric set that starts with
    the gauge [wakatime_admin_seconds_total] of value 0, the only metric of
    that name. *)
Theorem unusable_cached_total_is_zero (X : Externals) (h : MetricsHandler)
    (u : models.User) :
  models.IsAdmin u = true ->
  cached_total_unusable X h ->
  (forall e, fst (getAdminMetrics X h u) = inr e ->
     snd (userSrvc_GetActive h false) = Some e
     \/ snd (heartbeatSrvc_CountByUsers h (fst (userSrvc_GetActive h false))) = Some e)
  /\ (snd (userSrvc_GetActive h false) = None ->
      snd (heartbeatSrvc_CountByUsers h (fst (userSrvc_GetActive h false))) = None ->
      exists rest,
        fst (getAdminMetrics X h u)
        = inl (gauge "_admin_seconds_total" DescAdminTotalTime 0 [] :: rest)
        /\ filter (has_name "wakatime_admin_seconds_total") rest = []).
Proof.
  intros Ha Hc. rewrite getAdminMetrics_result. unfold admin_result. rewrite Ha. simpl.
  destruct (userSrvc_GetActive h false) as [au [e1|]]; simpl.
  - split; [intros e E; left; congruence | discriminate].
  - destruct (heartbeatSrvc_CountByUsers h au) as [uc [e2|]]; simpl.
    + split; [intros e E; right; congruence | discriminate].
    + split; [discriminate|]. intros _ _.
      unfold admin_metric_set. rewrite (cached_total_seconds_unusable X h Hc).
      eexists. split; [reflexivity|].
      apply filter_all_false. cbn [app].
      repeat (apply Forall_cons; [reflexivity|]).
      apply Forall_app; split.
      * apply Forall_map, Forall_forall. intros ? _. reflexivity.
      * apply time_rows_forall. intros; reflexivity.
Qed.

Lemma unusable_cached_total_is_zero_witness :
  exists rest,
    fst (getAdminMetrics X0 h_scalar_errors root)
    = inl (gauge "_admin_seconds_total" DescAdminTotalTime 0 [] :: rest)
    /\ filter (has_name "wakatime_admin_seconds_total") rest = [].
Proof.
  apply (proj2 (unusable_cached_total_is_zero X0 h_scalar_errors root eq_refl I));
    reflexivity.
Defined.

(** *** The admin check *)

(** The first thing [getAdminMetrics] does, whoever calls it. *)
Definition admin_start : Event :=
  EvLog LDebug "[metrics] start admin metrics calculation" [].

(** The events [getUserMetrics] can leave in the trace. *)
Definition user_event (e : Event) : bool :=
  match e with
  | EvAliased IntervalAllTimeUntilNow _ | EvAliased IntervalToday _ => true
  | EvCountByUser _ | EvGetDatabaseSize | EvGetQueueMetrics
  | EvReadMemStats | EvNumGoroutine => true
  | EvLog LError _ _ | EvLog LWarn _ _ => true
  | _ => false
  end.

Lemma getUserMetrics_trace (X : Externals) (h : MetricsHandler) (u : models.User) :
  forallb user_event (snd (getUserMetrics X h u)) = true.
Proof.
  unfold getUserMetrics, bind, call, log, ret.
  destruct (summarySrvc_Aliased h IntervalAllTimeUntilNow u) as [s1 [e1|]];
    destruct (summarySrvc_Aliased h IntervalToday u) as [s2 [e2|]];
    destruct (heartbeatSrvc_CountByUser h u) as [hb [e3|]]; trivial;
    destruct (metricsRepo_GetDatabaseSize h) as [db [e4|]]; reflexivity.
Qed.

Lemma getAdminMetrics_starts (X : Externals) (h : MetricsHandler) (u : models.User) :
  exists t, snd (getAdminMetrics X h u) = admin_start :: t.
Proof.
  unfold getAdminMetrics. unfold bind at 1. unfold log at 1.
  match goal with
  | |- context [let (b, t2) := ?c in (b, _ ++ t2)] => destruct c as [b t2]
  end.
  eexists. reflexivity.
Qed.

Lemma Get_trace_non_admin (X : Externals) (h : MetricsHandler) (w : ResponseWriter)
    (u : models.User) :
  models.IsAdmin u = false ->
  snd (Get X h w (request_of u))
  = snd (getUserMetrics X h u)
    ++ match fst (getUserMetrics X h u) with
       | inr e => [EvLog LError "%v" [e]]
       | inl _ => []
       end.
Proof.
  intros Hu. unfold Get, request_of. simpl. rewrite Hu.
  unfold bind, internal_error, log, ret.
  destruct (getUserMetrics X h u) as [[um|e] t]; reflexivity.
Qed.

Lemma user_named_not_admin_scoped (m : Metric) :
  user_named m = true -> admin_scoped (metric_name m) = false.
Proof.
  intros H. apply mem_name_In in H. unfold user_names in H. simpl in H.
  repeat (destruct H as [<-|H]; [reflexivity|]). contradiction.
Qed.

(** C8. Called for a user who is not an admin, [getAdminMetrics] returns the
    error [unauthorized] and no metrics, after its opening log line and
    without calling a service.  The handler does not call it for such a
    principal: the trace of the request lacks that opening log line, which
    every call of [getAdminMetrics] leaves.  The response is then the 500 of
    a failed user phase or the rendering of a set in which no sample line
    has an admin-scoped name. *)
Theorem non_admin_has_no_admin_metrics (X : Externals) (h : MetricsHandler)
    (u : models.User) :
  models.IsAdmin u = false ->
  getAdminMetrics X h u = (inr "unauthorized"%string, [admin_start])
  /\ (forall u', In admin_start (snd (getAdminMetrics X h u')))
  /\ ~ In admin_start (snd (Get X h new_response (request_of u)))
  /\ (fst (Get X h new_response (request_of u)) = response_500
      \/ exists ms,
           fst (getUserMetrics X h u) = inl ms
           /\ fst (Get X h new_response (request_of u)) = ok_response X new_response ms
           /\ Forall (fun m => admin_scoped (metric_name m) = false)
                (samples (Metrics_lines (sort_Sort X ms)))).
Proof.
  intros Hu. split; [|split; [|split]].
  - unfold getAdminMetrics. rewrite Hu. reflexivity.
  - intros u'. destruct (getAdminMetrics_starts X h u') as [t ->]. now left.
  - rewrite Get_trace_non_admin by exact Hu. intros Hin.
    apply in_app_or in Hin as [Hin|Hin].
    + pose proof (getUserMetrics_trace X h u) as T.
      rewrite forallb_forall in T. specialize (T _ Hin). discriminate.
    + destruct (fst (getUserMetrics X h u)); simpl in Hin; [contradiction|].
      destruct Hin as [Hin|[]]. discriminate.
  - rewrite Get_request_of, getUserMetrics_result. unfold merged_result. rewrite Hu.
    destruct (user_result X h u) as [ms|e] eqn:E; [right | now left].
    exists ms. repeat split.
    rewrite sorted_samples by apply sort_Sort_sorted.
    eapply Permutation_Forall; [apply sort_Sort_perm|].
    eapply Forall_impl; [|eapply user_result_named; exact E].
    apply user_named_not_admin_scoped.
Qed.

Lemma non_admin_has_no_admin_metrics_witness :
  getAdminMetrics X0 h0 alice = (inr "unauthorized"%string, [admin_start])
  /\ ~ In admin_start (snd (Get X0 h0 new_response (request_of alice)))
  /\ status (fst (Get X0 h0 new_response (request_of alice))) = Some 200%Z.
Proof.
  pose proof (non_admin_has_no_admin_metrics X0 h0 alice eq_refl) as [H1 [_ [H3 _]]].
  split; [exact H1|]. split; [exact H3|]. reflexivity.
Defined.

(** ** Successful responses *)

Definition response_200 (out : Metrics) : ResponseWriter :=
  {| status := Some 200%Z;
     header := [("content-type"%string, "text/plain; charset=utf-8"%string)];
     body := Metrics_Print out |}.

(** The request of [u] is answered with status 200 and the rendering of
    [out], the sorted union of what the collectors returned. *)
Definition responds_with (X : Externals) (h : MetricsHandler) (u : models.User)
    (out : Metrics) : Prop :=
  exists um am,
    fst (getUserMetrics X h u) = inl um
    /\ (if models.IsAdmin u then fst (getAdminMetrics X h u) = inl am else am = [])
    /\ out = sort_Sort X (um ++ am)
    /\ fst (Get X h new_response (request_of u)) = response_200 out.

Lemma merged_responds_with (X : Externals) (h : MetricsHandler) (u : models.User)
    (ms : Metrics) :
  merged_result X h u = inl ms ->
  exists um am,
    user_result X h u = inl um
    /\ (if models.IsAdmin u then admin_result X h u = inl am else am = [])
    /\ ms = um ++ am
    /\ responds_with X h u (sort_Sort X ms).
Proof.
  intros E. pose proof (Get_request_of X h u) as G. rewrite E in G.
  unfold responds_with. rewrite getUserMetrics_result, getAdminMetrics_result.
  unfold merged_result in E.
  destruct (user_result X h u) as [um|e]; [|discriminate].
  destruct (models.IsAdmin u).
  - destruct (admin_result X h u) as [am|e]; inversion E; subst.
    exists um, am. repeat split; trivial. exists um, am. repeat split; trivial.
  - inversion E; subst. exists ms, []. rewrite app_nil_r.
    repeat split; trivial. exists ms, []. rewrite app_nil_r. repeat split; trivial.
Qed.

Lemma status_200_responds_with (X : Externals) (h : MetricsHandler) (u : models.User) :
  status (fst (Get X h new_response (request_of u))) = Some 200%Z ->
  exists ms, merged_result X h u = inl ms.
Proof.
  rewrite Get_request_of.
  destruct (merged_result X h u) as [ms|e]; [eauto|discriminate].
Qed.

(** ** Counting rows *)

Lemma Permutation_filter {A} (f : A -> bool) (l l' : list A) :
  Permutation l l' -> Permutation (filter f l) (filter f l').
Proof.
  induction 1 as [|x l l' _ IH|x y l|l l' l'' _ IH1 _ IH2]; simpl.
  - constructor.
  - destruct (f x); auto.
  - destruct (f x), (f y); auto using perm_swap.
  - etransitivity; eauto.
Qed.

Lemma Permutation_flat_map {A B} (f : A -> list B) (l l' : list A) :
  Permutation l l' -> Permutation (flat_map f l) (flat_map f l').
Proof.
  induction 1 as [|x l l' _ IH|x y l|l l' l'' _ IH1 _ IH2]; simpl.
  - constructor.
  - now apply Permutation_app_head.
  - rewrite !app_assoc. apply Permutation_app_tail, Permutation_app_comm.
  - etransitivity; eauto.
Qed.

Lemma StronglySorted_filter {A} (R : A -> A -> Prop) (f : A -> bool) (l : list A) :
  StronglySorted R l -> StronglySorted R (filter f l).
Proof.
  induction 1 as [|x l _ IH Hall]; simpl; [constructor|].
  destruct (f x); trivial. constructor; trivial.
  apply Forall_forall. intros y Hy. apply filter_In in Hy as [Hy _].
  rewrite Forall_forall in Hall. auto.
Qed.

Lemma flat_map_nth_error_seq {A B} (g : A -> list B) (l : list A) :
  flat_map (fun i => match nth_error l i with Some a => g a | None => [] end)
    (seq 0 (List.length l))
  = flat_map g l.
Proof.
  induction l as [|a l IH]; simpl; trivial.
  f_equal. rewrite <- seq_shift, <- IH.
  rewrite flat_map_concat_map, map_map, <- flat_map_concat_map. reflexivity.
Qed.

Section Rows.

Variable X : Externals.
Variable h : MetricsHandler.

Definition time_fails (u : models.User) : bool :=
  match snd (summarySrvc_Aliased h IntervalAnyTruncated u) with
  | Some _ => true
  | None => false
  end.

Lemma pool_rows_perm (au : list models.User) :
  Permutation (flat_map (time_row_at X h au) (pool_order X (List.length au)))
    (flat_map (time_row X h) au).
Proof.
  rewrite <- (flat_map_nth_error_seq (time_row X h) au).
  apply (Permutation_flat_map (time_row_at X h au)), pool_order_perm.
Qed.

Lemma time_rows_length (au : list models.User) :
  List.length (flat_map (time_row X h) au)
  = (List.length au - List.length (filter time_fails au))%nat.
Proof.
  induction au as [|a au IH]; [reflexivity|].
  cbn [flat_map filter]. rewrite length_app, IH.
  pose proof (filter_length time_fails au) as F.
  assert (time_fails a
          = match snd (summarySrvc_Aliased h IntervalAnyTruncated a) with
            | Some _ => true
            | None => false
            end) as T by reflexivity.
  unfold time_row.
  destruct (summarySrvc_Aliased h IntervalAnyTruncated a) as [s [e|]];
    simpl in T; rewrite T; cbn [List.length]; lia.
Qed.

Lemma filter_user_set_other (n : string) (s1 s2 : models.Summary) (hb : Z) :
  mem_name n user_names = false ->
  filter (has_name n) (user_metric_set X h s1 s2 hb) = [].
Proof.
  intros Hn. apply filter_all_false.
  eapply Forall_impl; [|apply (user_metric_set_named X h)].
  intros m Hm. unfold has_name. apply String.eqb_neq. intros E.
  unfold user_named in Hm. rewrite E in Hm. congruence.
Qed.

Lemma filter_user_result_other (n : string) (u : models.User) (um : Metrics) :
  mem_name n user_names = false ->
  user_result X h u = inl um -> filter (has_name n) um = [].
Proof.
  intros Hn E. apply filter_all_false.
  eapply Forall_impl; [|apply (user_result_named X h u um E)].
  intros m Hm. unfold has_name. apply String.eqb_neq. intros E'.
  unfold user_named in Hm. rewrite E' in Hm. congruence.
Qed.

Lemma filter_admin_result_other (n : string) (u : models.User) (am : Metrics) :
  mem_name n admin_names = false ->
  admin_result X h u = inl am -> filter (has_name n) am = [].
Proof.
  intros Hn E. apply filter_all_false.
  eapply Forall_impl; [|apply (admin_result_named X h u am E)].
  intros m Hm. unfold has_name. apply String.eqb_neq. intros E'.
  unfold admin_named in Hm. rewrite E' in Hm. congruence.
Qed.

Lemma heartbeat_rows_forall (P : Metric -> Prop) (uc : list models.CountByUser) :
  (forall v id, P (gauge "_admin_user_heartbeats_total" DescAdminUserHeartbeats v
                     [label "user" id])) ->
  Forall P (heartbeat_rows uc).
Proof.
  intros HP. apply Forall_map, Forall_forall. intros ? _. apply HP.
Qed.

Lemma filter_time_rows (au : list models.User) (uc : list models.CountByUser) :
  filter (has_name "wakatime_admin_user_time_seconds_total") (admin_metric_set X h au uc)
  = flat_map (time_row_at X h au) (pool_order X (List.length au)).
Proof.
  unfold admin_metric_set. rewrite !filter_app.
  rewrite (filter_all_false _ (heartbeat_rows uc))
    by (apply heartbeat_rows_forall; intros; reflexivity).
  rewrite (filter_all_true _ (flat_map _ _))
    by (apply time_rows_forall; intros; reflexivity).
  reflexivity.
Qed.

Lemma filter_heartbeat_rows (au : list models.User) (uc : list models.CountByUser) :
  filter (has_name "wakatime_admin_user_heartbeats_total") (admin_metric_set X h au uc)
  = heartbeat_rows uc.
Proof.
  unfold admin_metric_set. rewrite !filter_app.
  rewrite (filter_all_true _ (heartbeat_rows uc))
    by (apply heartbeat_rows_forall; intros; reflexivity).
  rewrite (filter_all_false _ (flat_map _ _))
    by (apply time_rows_forall; intros; reflexivity).
  rewrite app_nil_r. reflexivity.
Qed.

Lemma filter_active_total (au : list models.User) (uc : list models.CountByUser) :
  filter (has_name "wakatime_admin_users_active_total") (admin_metric_set X h au uc)
  = [gauge "_admin_users_active_total" DescAdminActiveUsers
       (Z.of_nat (List.length au)) []].
Proof.
  unfold admin_metric_set. rewrite !filter_app.
  rewrite (filter_all_false _ (heartbeat_rows uc))
    by (apply heartbeat_rows_forall; intros; reflexivity).
  rewrite (filter_all_false _ (flat_map _ _))
    by (apply time_rows_forall; intros; reflexivity).
  reflexivity.
Qed.

End Rows.

(** ** Rows of the admin *)

Definition count_rows (n : string) (out : Metrics) : nat :=
  List.length (filter (has_name n) out).

Lemma sorted_rows_perm (X : Externals) (n : string) (ms : Metrics) :
  Permutation (filter (has_name n) ms) (filter (has_name n) (sort_Sort X ms)).
Proof. apply Permutation_filter, sort_Sort_perm. Qed.

(** What the collectors returned behind a 200 answered to an admin. *)
Lemma responds_with_admin (X : Externals) (h : MetricsHandler) (u : models.User)
    (out : Metrics) :
  models.IsAdmin u = true ->
  responds_with X h u out ->
  exists um au uc,
    user_result X h u = inl um
    /\ userSrvc_GetActive h false = (au, None)
    /\ heartbeatSrvc_CountByUsers h au = (uc, None)
    /\ out = sort_Sort X (um ++ admin_metric_set X h au uc).
Proof.
  intros Ha (um & am & Eu & Ea & -> & _). rewrite Ha in Ea.
  rewrite getUserMetrics_result in Eu. rewrite getAdminMetrics_result in Ea.
  unfold admin_result in Ea. rewrite Ha in Ea. simpl in Ea.
  destruct (userSrvc_GetActive h false) as [au [e1|]]; [discriminate|].
  destruct (heartbeatSrvc_CountByUsers h au) as [uc [e2|]] eqn:Ec; [discriminate|].
  inversion Ea; subst. exists um, au, uc. repeat split; trivial.
Qed.

(** The rows the claim counts, for the response [out] to an admin. *)
Definition admin_rows_as_claimed (h : MetricsHandler) (out : Metrics) : Prop :=
  let activeUsers := fst (userSrvc_GetActive h false) in
  let N := List.length activeUsers in
  let K := List.length (filter (time_fails h) activeUsers) in
  count_rows "wakatime_admin_user_heartbeats_total" out = N
  /\ count_rows "wakatime_admin_user_time_seconds_total" out = (N - K)%nat
  /\ filter (has_name "wakatime_admin_users_active_total") out
     = [gauge "_admin_users_active_total" DescAdminActiveUsers (Z.of_nat N) []].

(** C7, as stated, fails when the batched heartbeat count returns no entry
    for an active user: with two active users and one entry, the response
    to [root] has one heartbeat row. *)
Lemma heartbeat_rows_follow_the_batched_count :
  exists out,
    responds_with X0 h_bob_fails root out
    /\ List.length (fst (userSrvc_GetActive h_bob_fails false)) = 2%nat
    /\ count_rows "wakatime_admin_user_heartbeats_total" out = 1%nat
    /\ ~ admin_rows_as_claimed h_bob_fails out.
Proof.
  destruct (merged_responds_with X0 h_bob_fails root _ eq_refl) as (_ & _ & _ & _ & _ & R).
  eexists. split; [exact R|]. split; [reflexivity|]. split; [reflexivity|].
  intros [H _]. vm_compute in H. discriminate.
Qed.

(** C7, amended. In the successful response to an admin with N active users
    of which K fail the total-time computation, the sample lines are those
    of the sorted set, which holds as many [_admin_user_heartbeats_total]
    rows as the batched heartbeat count returned entries, N-K
    [_admin_user_time_seconds_total] rows, and one
    [_admin_users_active_total] metric, of value N. *)
Theorem admin_row_counts (X : Externals) (h : MetricsHandler) (u : models.User)
    (out : Metrics) :
  models.IsAdmin u = true ->
  responds_with X h u out ->
  let activeUsers := fst (userSrvc_GetActive h false) in
  let userCounts := fst (heartbeatSrvc_CountByUsers h activeUsers) in
  let N := List.length activeUsers in
  let K := List.length (filter (time_fails h) activeUsers) in
  samples (Metrics_lines out) = out
  /\ count_rows "wakatime_admin_user_heartbeats_total" out = List.length userCounts
  /\ count_rows "wakatime_admin_user_time_seconds_total" out = (N - K)%nat
  /\ filter (has_name "wakatime_admin_users_active_total") out
     = [gauge "_admin_users_active_total" DescAdminActiveUsers (Z.of_nat N) []].
Proof.
  intros Ha R.
  destruct (responds_with_admin X h u out Ha R) as (um & au & uc & Eu & Eau & Euc & ->).
  rewrite Eau. cbn [fst]. rewrite Euc. cbn [fst]. cbv zeta.
  split; [apply sorted_samples, sort_Sort_sorted|].
  unfold count_rows.
  rewrite <- !(Permutation_length (sorted_rows_perm X _ _)).
  rewrite !filter_app.
  rewrite !(filter_user_result_other X h _ u um) by (reflexivity || exact Eu).
  cbn [app].
  rewrite filter_heartbeat_rows, filter_time_rows.
  split; [unfold heartbeat_rows; apply length_map|].
  split.
  - rewrite (Permutation_length (pool_rows_perm X h au)). apply time_rows_length.
  - apply Permutation_length_1_inv.
    rewrite <- (filter_active_total X h au uc).
    etransitivity; [|apply sorted_rows_perm].
    rewrite filter_app.
    rewrite (filter_user_result_other X h _ u um) by (reflexivity || exact Eu).
    reflexivity.
Qed.

Lemma admin_row_counts_witness :
  exists out,
    responds_with X0 h_bob_fails root out
    /\ count_rows "wakatime_admin_user_heartbeats_total" out = 1%nat
    /\ count_rows "wakatime_admin_user_time_seconds_total" out = (2 - 1)%nat
    /\ filter (has_name "wakatime_admin_users_active_total") out
       = [gauge "_admin_users_active_total" DescAdminActiveUsers 2 []].
Proof.
  destruct (merged_responds_with X0 h_bob_fails root _ eq_refl) as (_ & _ & _ & _ & _ & R).
  eexists. split; [exact R|].
  exact (proj2 (admin_row_counts X0 h_bob_fails root _ eq_refl R)).
Defined.

(** ** A failing task of the pool *)

Definition time_metric (X : Externals) (u : models.User) (summary : models.Summary)
    : Metric :=
  gauge "_admin_user_time_seconds_total" DescAdminUserTime
    (SecondsInt X (TotalTime X summary)) [label "user" (models.ID u)].

(** C4. With the user phase, the active users and the batched heartbeat
    count answering, the response to an admin is a 200 whatever the
    total-time lookups do.  A task whose lookup fails leaves the metric set
    as it found it, and the total-time sample lines of the response are the
    rows of the users whose lookup succeeded.  So, with active users A and B
    of different identifiers where A's lookup succeeds and B's fails, there
    is the line of A and no total-time line labelled with B. *)
Theorem failed_task_is_isolated (X : Externals) (h : MetricsHandler)
    (u : models.User) (um : Metrics) (au : list models.User)
    (uc : list models.CountByUser) :
  models.IsAdmin u = true ->
  fst (getUserMetrics X h u) = inl um ->
  userSrvc_GetActive h false = (au, None) ->
  heartbeatSrvc_CountByUsers h au = (uc, None) ->
  (forall i a ms0,
     nth_error au i = Some a -> time_fails h a = true ->
     fst (user_time_task X h au i ms0) = ms0)
  /\ exists out,
       responds_with X h u out
       /\ status (fst (Get X h new_response (request_of u))) = Some 200%Z
       /\ Permutation
            (filter (has_name "wakatime_admin_user_time_seconds_total")
               (samples (Metrics_lines out)))
            (flat_map (time_row X h) au)
       /\ (forall A B sA,
             au = [A; B] ->
             summarySrvc_Aliased h IntervalAnyTruncated A = (sA, None) ->
             time_fails h B = true ->
             models.ID A <> models.ID B ->
             In (time_metric X A sA) (samples (Metrics_lines out))
             /\ forall v,
                  ~ In (gauge "_admin_user_time_seconds_total" DescAdminUserTime v
                          [label "user" (models.ID B)])
                       (samples (Metrics_lines out))).
Proof.
  intros Ha Eu Eau Euc. split.
  - intros i a ms0 Hi Hf. unfold user_time_task, bind, call, log, ret. rewrite Hi.
    unfold time_fails in Hf.
    destruct (summarySrvc_Aliased h IntervalAnyTruncated a) as [s [e|]];
      [reflexivity | discriminate].
  - assert (merged_result X h u = inl (um ++ admin_metric_set X h au uc)) as E.
    { unfold merged_result, admin_result.
      rewrite <- getUserMetrics_result, Eu, Ha. simpl. now rewrite Eau, Euc. }
    destruct (merged_responds_with X h u _ E) as (_ & _ & _ & _ & _ & R).
    set (out := sort_Sort X (um ++ admin_metric_set X h au uc)) in *.
    assert (Permutation
              (filter (has_name "wakatime_admin_user_time_seconds_total")
                 (samples (Metrics_lines out)))
              (flat_map (time_row X h) au)) as P.
    { unfold out. rewrite sorted_samples by apply sort_Sort_sorted.
      etransitivity; [symmetry; apply sorted_rows_perm|].
      rewrite filter_app.
      rewrite getUserMetrics_result in Eu.
      rewrite (filter_user_result_other X h _ u um) by (reflexivity || exact Eu).
      cbn [app]. rewrite filter_time_rows. apply pool_rows_perm. }
    exists out. split; [exact R|]. split.
    { rewrite Get_request_of, E. reflexivity. }
    split; [exact P|].
    intros A B sA -> EA FB Hne.
    assert (flat_map (time_row X h) [A; B] = [time_metric X A sA]) as F.
    { cbn [flat_map]. unfold time_row at 1. rewrite EA.
      unfold time_row, time_fails in *.
      destruct (summarySrvc_Aliased h IntervalAnyTruncated B) as [sB [e|]];
        [reflexivity | discriminate]. }
    rewrite F in P. split.
    + assert (In (time_metric X A sA)
                (filter (has_name "wakatime_admin_user_time_seconds_total")
                   (samples (Metrics_lines out)))) as Hin.
      { eapply Permutation_in; [symmetry; exact P|]. now left. }
      now apply filter_In in Hin.
    + intros v Hin.
      assert (In (gauge "_admin_user_time_seconds_total" DescAdminUserTime v
                    [label "user" (models.ID B)]) [time_metric X A sA]) as Hin'.
      { eapply Permutation_in; [exact P|]. apply filter_In. now split. }
      destruct Hin' as [Heq|[]]. unfold time_metric, gauge, label in Heq.
      inversion Heq. congruence.
Qed.

Lemma failed_task_is_isolated_witness :
  exists out,
    responds_with X1 h_bob_fails root out
    /\ status (fst (Get X1 h_bob_fails new_response (request_of root))) = Some 200%Z
    /\ In (time_metric X1 alice summary0) (samples (Metrics_lines out))
    /\ forall v,
         ~ In (gauge "_admin_user_time_seconds_total" DescAdminUserTime v
                 [label "user" "bob"])
              (samples (Metrics_lines out)).
Proof.
  destruct (proj2 (failed_task_is_isolated X1 h_bob_fails root _ _ _
                     eq_refl eq_refl eq_refl eq_refl))
    as (out & R & S & _ & H).
  exists out. split; [exact R|]. split; [exact S|].
  apply (H alice bob summary0 eq_refl eq_refl eq_refl). discriminate.
Defined.

(** ** The lines of one name *)

Definition line_name (l : Line) : string :=
  match l with
  | HelpLine n _ => n
  | TypeLine n _ => n
  | SampleLine m => metric_name m
  end.

Lemma distinct_In (x : string) (names : list string) :
  In x (distinct names) <-> In x names.
Proof.
  induction names as [|n rest IH]; simpl; [tauto|].
  rewrite filter_In, IH, negb_true_iff, String.eqb_neq.
  destruct (string_dec n x); intuition congruence.
Qed.

Lemma distinct_NoDup (names : list string) : NoDup (distinct names).
Proof.
  induction names as [|n rest IH]; simpl; constructor.
  - rewrite filter_In, negb_true_iff, String.eqb_neq. tauto.
  - now apply NoDup_filter.
Qed.

Lemma group_lines_names (ms : Metrics) (n : string) :
  Forall (fun l => line_name l = n) (group_lines ms n).
Proof.
  unfold group_lines.
  assert (Forall (fun m => metric_name m = n) (filter (has_name n) ms)) as H.
  { apply Forall_forall. intros m Hm. apply filter_In in Hm as [_ Hm].
    now apply String.eqb_eq in Hm. }
  destruct (filter (has_name n) ms) as [|m g]; constructor; trivial.
  constructor; trivial. apply Forall_map. exact H.
Qed.

Lemma other_groups_names (ms : Metrics) (n : string) (names : list string) :
  ~ In n names ->
  Forall (fun l => line_name l <> n) (flat_map (group_lines ms) names).
Proof.
  intros Hn. apply Forall_flat_map, Forall_forall. intros n' Hin.
  eapply Forall_impl; [|apply group_lines_names].
  intros l Hl. simpl in Hl. congruence.
Qed.

(** The lines of a name that occurs come in one block: the two declaration
    lines, then the sample lines of the metrics of that name. *)
Lemma lines_of_name (ms : Metrics) (n : string) (m : Metric) (g : Metrics) :
  filter (has_name n) ms = m :: g ->
  exists pre post,
    Metrics_lines ms
    = pre ++ (HelpLine n (Desc (fields m)) :: TypeLine n (kind_name m)
                :: map SampleLine (m :: g)) ++ post
    /\ Forall (fun l => line_name l <> n) pre
    /\ Forall (fun l => line_name l <> n) post.
Proof.
  intros E.
  assert (In n (distinct (map metric_name ms))) as Hin.
  { apply distinct_In, in_map_iff. exists m.
    assert (In m (filter (has_name n) ms)) as Hm by (rewrite E; now left).
    apply filter_In in Hm as [Hm Hn]. apply String.eqb_eq in Hn. now split. }
  pose proof (distinct_NoDup (map metric_name ms)) as ND.
  apply in_split in Hin as (D1 & D2 & ED). rewrite ED in ND.
  apply NoDup_remove_2 in ND.
  exists (flat_map (group_lines ms) D1), (flat_map (group_lines ms) D2).
  split; [|split].
  - unfold Metrics_lines. rewrite ED, flat_map_app. cbn [flat_map].
    unfold group_lines at 2. rewrite E. reflexivity.
  - apply other_groups_names. intros H. apply ND, in_or_app. now left.
  - apply other_groups_names. intros H. apply ND, in_or_app. now right.
Qed.

Section Languages.

Variable X : Externals.
Variable h : MetricsHandler.

Definition language_metric (today : models.Summary) (k : string) : Metric :=
  gauge "_language_seconds_total" DescLanguages
    (SecondsInt X (TotalTimeByKey X today models.SummaryLanguage k))
    [label "name" k].

Lemma breakdown_forall (P : Metric -> Prop) (name desc : string)
    (today : models.Summary) (ty : models.SummaryType)
    (items : list models.SummaryItem) :
  (forall v k, P (gauge name desc v [label "name" k])) ->
  Forall P (breakdown X name desc today ty items).
Proof.
  intros HP. apply Forall_map, Forall_forall. intros ? _. apply HP.
Qed.

Lemma filter_language_rows (s1 s2 : models.Summary) (hb : Z) :
  filter (has_name "wakatime_language_seconds_total") (user_metric_set X h s1 s2 hb)
  = map (fun l => language_metric s2 (models.Key l)) (models.Languages s2).
Proof.
  unfold user_metric_set. rewrite !filter_app.
  rewrite (filter_all_true _ (breakdown X "_language_seconds_total" _ _ _ _))
    by (apply breakdown_forall; intros; reflexivity).
  rewrite !(filter_all_false _ (breakdown X _ _ _ _ _))
    by (apply breakdown_forall; intros; reflexivity).
  rewrite (filter_all_false _ (flat_map _ _))
    by (apply Forall_flat_map, Forall_forall; intros ? _;
        repeat constructor).
  cbn. rewrite app_nil_r. reflexivity.
Qed.

End Languages.

(** ** The language lines *)

Lemma two_keys (items : list models.SummaryItem) (f : string -> Metric) :
  Permutation (map models.Key items) ["go"; "rust"]%string ->
  map (fun l => f (models.Key l)) items = [f "go"; f "rust"]%string
  \/ map (fun l => f (models.Key l)) items = [f "rust"; f "go"]%string.
Proof.
  intros P. apply Permutation_sym in P.
  apply Permutation_length_2_inv in P.
  destruct items as [|l1 [|l2 [|l3 items]]]; simpl in P;
    destruct P as [P|P]; try discriminate; inversion P as [[E1 E2]]; simpl;
    rewrite E1, E2; auto.
Qed.

Lemma sorted_pair (a b : Metric) (l : Metrics) :
  Less a b = true ->
  StronglySorted key_le l ->
  Permutation [a; b] l \/ Permutation [b; a] l ->
  l = [a; b].
Proof.
  intros Hlt Hs P.
  assert (l = [a; b] \/ l = [b; a]) as [E|E].
  { destruct P as [P|P]; apply Permutation_length_2_inv in P; tauto. }
  - exact E.
  - subst l. apply StronglySorted_inv in Hs as [_ Hs].
    inversion Hs as [|? ? Hba _]; subst. unfold key_le in Hba. congruence.
Qed.

(** C5, as stated, names a metric the collector never emits: for a user
    whose today summary holds the languages rust and go, no line of the
    response bears the name [wakapi_language_seconds_total]. *)
Lemma no_line_named_wakapi_language :
  exists out,
    responds_with X0 h0 alice out
    /\ map models.Key
         (models.Languages (fst (summarySrvc_Aliased h0 IntervalToday alice)))
       = ["rust"; "go"]%string
    /\ filter (fun l => String.eqb (line_name l) "wakapi_language_seconds_total")
         (Metrics_lines out) = [].
Proof.
  destruct (merged_responds_with X0 h0 alice _ eq_refl) as (_ & _ & _ & _ & _ & R).
  eexists. split; [exact R|]. split; reflexivity.
Qed.

(** C5, amended. For an authenticated user whose today summary holds exactly
    the languages go and rust, the per-language metrics go out under the
    name [wakatime_language_seconds_total], one per language with the
    language key as the value of the single label [name]: a successful
    response has one HELP line and one TYPE line of that name, followed by
    the sample line of go and then that of rust, and no other line of that
    name. *)
Theorem language_lines (X : Externals) (h : MetricsHandler) (u : models.User)
    (out : Metrics) :
  let today := fst (summarySrvc_Aliased h IntervalToday u) in
  responds_with X h u out ->
  Permutation (map models.Key (models.Languages today)) ["go"; "rust"]%string ->
  exists pre post,
    Metrics_lines out
    = pre
      ++ [ HelpLine "wakatime_language_seconds_total" DescLanguages;
           TypeLine "wakatime_language_seconds_total" "gauge";
           SampleLine (language_metric X today "go");
           SampleLine (language_metric X today "rust") ]
      ++ post
    /\ Forall (fun l => line_name l <> "wakatime_language_seconds_total"%string) pre
    /\ Forall (fun l => line_name l <> "wakatime_language_seconds_total"%string) post.
Proof.
  intros today (um & am & Eu & Ea & -> & _) P.
  rewrite getUserMetrics_result in Eu. rewrite getAdminMetrics_result in Ea.
  assert (filter (has_name "wakatime_language_seconds_total") am = []) as Fa.
  { destruct (models.IsAdmin u).
    - apply (filter_admin_result_other X h _ u am); [reflexivity | exact Ea].
    - now subst am. }
  assert (filter (has_name "wakatime_language_seconds_total") um
          = map (fun l => language_metric X today (models.Key l))
              (models.Languages today)) as Fu.
  { unfold user_result in Eu. subst today.
    destruct (summarySrvc_Aliased h IntervalAllTimeUntilNow u) as [s1 [e1|]];
      destruct (summarySrvc_Aliased h IntervalToday u) as [s2 [e2|]];
      destruct (heartbeatSrvc_CountByUser h u) as [hb [e3|]]; try discriminate.
    inversion Eu. apply filter_language_rows. }
  assert (filter (has_name "wakatime_language_seconds_total") (sort_Sort X (um ++ am))
          = [language_metric X today "go"; language_metric X today "rust"]) as F.
  { apply sorted_pair.
    - reflexivity.
    - apply StronglySorted_filter, sort_Sort_sorted.
    - pose proof (sorted_rows_perm X "wakatime_language_seconds_total" (um ++ am)) as Q.
      rewrite filter_app, Fa, app_nil_r, Fu in Q.
      destruct (two_keys (models.Languages today) (language_metric X today) P)
        as [E|E]; rewrite E in Q; auto. }
  destruct (lines_of_name _ _ _ _ F) as (pre & post & E & Hpre & Hpost).
  exists pre, post. split; [exact E|]. split; assumption.
Qed.

Lemma language_lines_witness :
  exists out pre post,
    responds_with X0 h0 alice out
    /\ Metrics_lines out
       = pre
         ++ [ HelpLine "wakatime_language_seconds_total" DescLanguages;
              TypeLine "wakatime_language_seconds_total" "gauge";
              SampleLine (language_metric X0 summary0 "go");
              SampleLine (language_metric X0 summary0 "rust") ]
         ++ post.
Proof.
  destruct (merged_responds_with X0 h0 alice _ eq_refl) as (_ & _ & _ & _ & _ & R).
  assert (Permutation ["rust"; "go"]%string ["go"; "rust"]%string) as P
    by apply perm_swap.
  destruct (language_lines X0 h0 alice _ R P) as (pre & post & E & _).
  eexists. exists pre, post. split; [exact R | exact E].
Defined.

(** * Further properties of the handler *)

(** ** The status of every response *)

Definition user_phase_ok (h : MetricsHandler) (u : models.User) : bool :=
  match snd (summarySrvc_Aliased h IntervalAllTimeUntilNow u),
        snd (summarySrvc_Aliased h IntervalToday u),
        snd (heartbeatSrvc_CountByUser h u) with
  | None, None, None => true
  | _, _, _ => false
  end.

Definition admin_phase_ok (h : MetricsHandler) : bool :=
  match snd (userSrvc_GetActive h false) with
  | Some _ => false
  | None =>
      match snd (heartbeatSrvc_CountByUsers h (fst (userSrvc_GetActive h false))) with
      | Some _ => false
      | None => true
      end
  end.

Lemma user_result_ok (X : Externals) (h : MetricsHandler) (u : models.User) :
  if user_phase_ok h u
  then exists um, user_result X h u = inl um
  else exists e, user_result X h u = inr e.
Proof.
  unfold user_phase_ok, user_result.
  destruct (summarySrvc_Aliased h IntervalAllTimeUntilNow u) as [s1 [e1|]];
    destruct (summarySrvc_Aliased h IntervalToday u) as [s2 [e2|]];
    destruct (heartbeatSrvc_CountByUser h u) as [hb [e3|]]; simpl; eauto.
Qed.

Lemma admin_result_ok (X : Externals) (h : MetricsHandler) (u : models.User) :
  models.IsAdmin u = true ->
  if admin_phase_ok h
  then exists am, admin_result X h u = inl am
  else exists e, admin_result X h u = inr e.
Proof.
  intros Ha. unfold admin_phase_ok, admin_result. rewrite Ha. simpl.
  destruct (userSrvc_GetActive h false) as [au [e1|]]; simpl; eauto.
  destruct (heartbeatSrvc_CountByUsers h au) as [uc [e2|]]; simpl; eauto.
Qed.

(** X1. The handler always answers, and with one of three statuses: 401
    without a principal; 200 when the two summaries and the heartbeat count
    of the principal are there and, for an admin, the active users and their
    batched heartbeat counts too; 500 otherwise.  Only the 200 carries a
    content type, and the two error bodies are the fixed messages. *)
Theorem Get_status (X : Externals) (h : MetricsHandler) (r : Request) :
  let w := fst (Get X h new_response r) in
  match GetPrincipal r with
  | None =>
      status w = Some 401%Z /\ header w = [] /\ body w = conf.ErrUnauthorized
  | Some u =>
      if user_phase_ok h u && (negb (models.IsAdmin u) || admin_phase_ok h)
      then status w = Some 200%Z
           /\ header w = [("content-type"%string, "text/plain; charset=utf-8"%string)]
      else status w = Some 500%Z /\ header w = []
           /\ body w = conf.ErrInternalServerError
  end.
Proof.
  destruct r as [[u|]]; cbn [GetPrincipal]; [|repeat split].
  cbv zeta. change {| GetPrincipal := Some u |} with (request_of u).
  rewrite Get_request_of. unfold merged_result.
  pose proof (user_result_ok X h u) as U.
  destruct (user_phase_ok h u); destruct U as [x ->]; cbn [andb];
    [|repeat split].
  destruct (models.IsAdmin u) eqn:Ha; cbn [negb orb]; [|repeat split].
  pose proof (admin_result_ok X h u Ha) as A.
  destruct (admin_phase_ok h); destruct A as [y ->]; repeat split.
Qed.

(** ** The order of the service calls *)

Definition user_calls (u : models.User) : list Event :=
  [ EvAliased IntervalAllTimeUntilNow u; EvAliased IntervalToday u; EvCountByUser u ].

Definition is_log (e : Event) : bool :=
  match e with
  | EvLog _ _ _ => true
  | _ => false
  end.

(** The service calls of a trace, without the log lines. *)
Definition calls_of (t : list Event) : list Event :=
  filter (fun e => negb (is_log e)) t.

(** The error results of the three calls, in the order of [user_calls]. *)
Definition user_answers (h : MetricsHandler) (u : models.User) : list (option error) :=
  [ snd (summarySrvc_Aliased h IntervalAllTimeUntilNow u);
    snd (summarySrvc_Aliased h IntervalToday u);
    snd (heartbeatSrvc_CountByUser h u) ].

(** The error line of each of the three calls. *)
Definition user_error_formats : list string :=
  [ "failed to retrieve all time summary for user '%s' for metric";
    "failed to retrieve today's summary for user '%s' for metric";
    "failed to count heartbeats for user '%s' for metric" ]%string.

(** X2. [getUserMetrics] asks its services in a fixed order and stops at the
    first failing one of the first three.  When it returns an error [e], then
    for some [n] below three the first [n] calls answered without error, call
    number [n] (counting from zero) failed with that very [e], and the trace
    is exactly the calls up to and including that one followed by the error
    line of that call, naming the user: no later service is asked, and the
    runtime, the database and the queues are not read.  When it returns a
    metric set, none of the three calls failed and it has made all seven
    reads, in order. *)
Theorem getUserMetrics_call_order (X : Externals) (h : MetricsHandler)
    (u : models.User) :
  match fst (getUserMetrics X h u) with
  | inr e =>
      exists n,
        (n < 3)%nat
        /\ firstn n (user_answers h u) = repeat None n
        /\ nth_error (user_answers h u) n = Some (Some e)
        /\ snd (getUserMetrics X h u)
           = firstn (S n) (user_calls u)
             ++ [EvLog LError (nth n user_error_formats EmptyString) [models.ID u]]
  | inl _ =>
      user_answers h u = [None; None; None]
      /\ calls_of (snd (getUserMetrics X h u))
         = user_calls u
           ++ [EvReadMemStats; EvNumGoroutine; EvGetDatabaseSize; EvGetQueueMetrics]
  end.
Proof.
  unfold getUserMetrics, bind, call, log, ret, user_calls, user_answers.
  destruct (summarySrvc_Aliased h IntervalAllTimeUntilNow u) as [s1 [e1|]];
    [exists 0%nat; repeat split; lia|].
  destruct (summarySrvc_Aliased h IntervalToday u) as [s2 [e2|]];
    [exists 1%nat; repeat split; lia|].
  destruct (heartbeatSrvc_CountByUser h u) as [hb [e3|]];
    [exists 2%nat; repeat split; lia|].
  destruct (metricsRepo_GetDatabaseSize h) as [db [e4|]]; split; reflexivity.
Qed.

(** ** The calls of the admin phase *)

Definition pool_error_format : string :=
  "failed to get total time for user '%s' as part of metrics, %v".

(** What one task of the pool leaves in the trace. *)
Definition task_events (h : MetricsHandler) (au : list models.User) (i : nat)
    : list Event :=
  match nth_error au i with
  | None => []
  | Some u =>
      EvAliased IntervalAnyTruncated u
      :: match snd (summarySrvc_Aliased h IntervalAnyTruncated u) with
         | Some e => [EvLog LError pool_error_format [models.ID u; e]]
         | None => []
         end
  end.

Lemma run_pool_trace (X : Externals) (h : MetricsHandler) (au : list models.User)
    (order : list nat) :
  forall ms, snd (run_pool X h au order ms) = flat_map (task_events h au) order.
Proof.
  induction order as [|i rest IH]; intros ms; [reflexivity|].
  cbn [run_pool flat_map]. unfold bind.
  destruct (user_time_task X h au i ms) as [ms' t] eqn:E.
  specialize (IH ms'). destruct (run_pool X h au rest ms') as [ms'' t'].
  cbn [snd] in *. subst t'. f_equal.
  unfold user_time_task, task_events, bind, call, log, ret in *.
  destruct (nth_error au i) as [u|]; [|now inversion E].
  destruct (summarySrvc_Aliased h IntervalAnyTruncated u) as [s [e|]];
    inversion E; reflexivity.
Qed.

(** The users whose task the pool ran, in the order it ran them. *)
Definition pool_visits (X : Externals) (au : list models.User) : list models.User :=
  flat_map (fun i => match nth_error au i with Some u => [u] | None => [] end)
    (pool_order X (List.length au)).

Lemma pool_visits_perm (X : Externals) (au : list models.User) :
  Permutation (pool_visits X au) au.
Proof.
  unfold pool_visits.
  etransitivity;
    [apply Permutation_flat_map, pool_order_perm|].
  rewrite (flat_map_nth_error_seq (fun u => [u]) au).
  clear. induction au as [|a au IH]; simpl; auto.
Qed.

Definition admin_scalar_calls : list Event :=
  [ EvGetString conf.KeyLatestTotalTime; EvUserCount; EvHeartbeatCount true;
    EvGetActive false ].

Lemma getAdminMetrics_trace (X : Externals) (h : MetricsHandler) (u : models.User) :
  models.IsAdmin u = true ->
  let au := fst (userSrvc_GetActive h false) in
  snd (getAdminMetrics X h u)
  = [ admin_start; EvGetString conf.KeyLatestTotalTime; EvUserCount;
      EvHeartbeatCount true;
      EvLog LDebug "[metrics] finished counting users and heartbeats after %v" [];
      EvGetActive false ]
    ++ match snd (userSrvc_GetActive h false) with
       | Some e => [EvLog LError "failed to retrieve active users for metric - %v" [e]]
       | None =>
           [ EvLog LDebug "[metrics] finished getting active users after %v" [];
             EvCountByUsers au ]
           ++ match snd (heartbeatSrvc_CountByUsers h au) with
              | Some e =>
                  [EvLog LError "failed to count heartbeats for active users" [e]]
              | None =>
                  EvLog LDebug "[metrics] finished counting heartbeats by user after %v" []
                  :: flat_map (task_events h au) (pool_order X (List.length au))
                  ++ [EvLog LDebug
                        "[metrics] finished retrieving total activity time by user after %v"
                        []]
              end
       end.
Proof.
  intros Ha. unfold getAdminMetrics. rewrite Ha. cbn [negb].
  unfold bind, call, log, ret.
  destruct (keyValueSrvc_GetString h conf.KeyLatestTotalTime) as [kv ekv].
  destruct (userSrvc_Count h) as [tu eu].
  destruct (heartbeatSrvc_Count h true) as [th eh].
  destruct (userSrvc_GetActive h false) as [au [e1|]]; cbn [fst snd]; [reflexivity|].
  destruct (heartbeatSrvc_CountByUsers h au) as [uc [e2|]]; cbn [fst snd];
    [reflexivity|].
  match goal with
  | |- context [run_pool X h au ?o ?m] =>
      pose proof (run_pool_trace X h au o m) as T;
      destruct (run_pool X h au o m) as [ms t]
  end.
  cbn [snd] in T. subst t. reflexivity.
Qed.

Lemma calls_of_app (a b : list Event) : calls_of (a ++ b) = calls_of a ++ calls_of b.
Proof. unfold calls_of. apply filter_app. Qed.

Lemma calls_of_tasks (h : MetricsHandler) (au : list models.User) (order : list nat) :
  calls_of (flat_map (task_events h au) order)
  = map (EvAliased IntervalAnyTruncated)
      (flat_map (fun i => match nth_error au i with Some u => [u] | None => [] end)
         order).
Proof.
  induction order as [|i rest IH]; [reflexivity|].
  cbn [flat_map]. rewrite calls_of_app, map_app, IH. f_equal.
  unfold task_events. destruct (nth_error au i) as [u|]; [|reflexivity].
  destruct (snd (summarySrvc_Aliased h IntervalAnyTruncated u)); reflexivity.
Qed.

(** X3. Called for an admin, [getAdminMetrics] asks for the cached total,
    the two instance-wide counts and the active users, in that order and
    whatever the first three answer.  It asks for the batched heartbeat
    counts only when the active users are there, and for the total time of
    the active users only when those counts are there too: then it asks
    once for every active user, in the order the pool runs the tasks, and
    has asked for all of them when it returns. *)
Theorem getAdminMetrics_calls (X : Externals) (h : MetricsHandler) (u : models.User) :
  models.IsAdmin u = true ->
  let au := fst (userSrvc_GetActive h false) in
  calls_of (snd (getAdminMetrics X h u))
  = admin_scalar_calls
    ++ match snd (userSrvc_GetActive h false) with
       | Some _ => []
       | None =>
           EvCountByUsers au
           :: match snd (heartbeatSrvc_CountByUsers h au) with
              | Some _ => []
              | None => map (EvAliased IntervalAnyTruncated) (pool_visits X au)
              end
       end
  /\ Permutation (pool_visits X au) au.
Proof.
  intros Ha. split; [|apply pool_visits_perm].
  rewrite (getAdminMetrics_trace X h u Ha). cbv zeta.
  rewrite calls_of_app. unfold admin_scalar_calls.
  change (calls_of [admin_start; EvGetString conf.KeyLatestTotalTime; EvUserCount;
                    EvHeartbeatCount true;
                    EvLog LDebug "[metrics] finished counting users and heartbeats after %v" [];
                    EvGetActive false])
    with [EvGetString conf.KeyLatestTotalTime; EvUserCount; EvHeartbeatCount true;
          EvGetActive false].
  f_equal.
  destruct (snd (userSrvc_GetActive h false)); [reflexivity|].
  rewrite calls_of_app.
  destruct (snd (heartbeatSrvc_CountByUsers h (fst (userSrvc_GetActive h false))));
    [reflexivity|].
  cbn [calls_of filter is_log negb app].
  change (filter (fun e => negb (is_log e))) with calls_of.
  rewrite calls_of_app, calls_of_tasks. cbn. rewrite app_nil_r. reflexivity.
Qed.

Lemma getAdminMetrics_calls_witness :
  calls_of (snd (getAdminMetrics X1 h_bob_fails root))
  = admin_scalar_calls
    ++ [ EvCountByUsers [alice; bob];
         EvAliased IntervalAnyTruncated bob; EvAliased IntervalAnyTruncated alice ].
Proof.
  exact (proj1 (getAdminMetrics_calls X1 h_bob_fails root eq_refl)).
Defined.

(** The identifiers in the error lines of the pool tasks. *)
Definition pool_error_ids (t : list Event) : list string :=
  flat_map (fun e =>
              match e with
              | EvLog LError format (id :: _) =>
                  if String.eqb format pool_error_format then [id] else []
              | _ => []
              end) t.

Lemma pool_error_ids_app (a b : list Event) :
  pool_error_ids (a ++ b) = pool_error_ids a ++ pool_error_ids b.
Proof. unfold pool_error_ids. apply flat_map_app. Qed.

Lemma pool_error_ids_tasks (h : MetricsHandler) (au : list models.User)
    (order : list nat) :
  pool_error_ids (flat_map (task_events h au) order)
  = flat_map (fun i => match nth_error au i with
                       | Some u => if time_fails h u then [models.ID u] else []
                       | None => []
                       end) order.
Proof.
  induction order as [|i rest IH]; [reflexivity|].
  cbn [flat_map]. rewrite pool_error_ids_app, IH. f_equal.
  unfold task_events, time_fails. destruct (nth_error au i) as [u|]; [|reflexivity].
  destruct (snd (summarySrvc_Aliased h IntervalAnyTruncated u)); reflexivity.
Qed.

(** X4. When [getAdminMetrics] returns a metric set, it has logged one error
    line for every active user whose total-time lookup failed, carrying that
    user's identifier, and no such line for any other user. *)
Theorem pool_failures_are_logged (X : Externals) (h : MetricsHandler)
    (u : models.User) (ms : Metrics) :
  fst (getAdminMetrics X h u) = inl ms ->
  Permutation (pool_error_ids (snd (getAdminMetrics X h u)))
    (map models.ID (filter (time_fails h) (fst (userSrvc_GetActive h false)))).
Proof.
  intros E. rewrite getAdminMetrics_result in E. unfold admin_result in E.
  destruct (models.IsAdmin u) eqn:Ha; [|discriminate]. cbn [negb] in E.
  rewrite (getAdminMetrics_trace X h u Ha). cbv zeta.
  destruct (userSrvc_GetActive h false) as [au [e1|]]; [discriminate|].
  destruct (heartbeatSrvc_CountByUsers h au) as [uc [e2|]] eqn:Ec; [discriminate|].
  cbn [fst snd]. rewrite Ec. cbn [snd].
  rewrite !pool_error_ids_app. cbn [app].
  change (EvLog LDebug "[metrics] finished counting heartbeats by user after %v" []
          :: ?l) with ([EvLog LDebug "[metrics] finished counting heartbeats by user after %v" []] ++ l).
  rewrite !pool_error_ids_app, pool_error_ids_tasks. cbn. rewrite app_nil_r.
  etransitivity; [apply Permutation_flat_map, pool_order_perm|].
  rewrite (flat_map_nth_error_seq
             (fun u => if time_fails h u then [models.ID u] else []) au).
  clear. induction au as [|a au IH]; [reflexivity|].
  cbn [flat_map filter]. destruct (time_fails h a); cbn; auto.
Qed.

Lemma pool_failures_are_logged_witness :
  Permutation (pool_error_ids (snd (getAdminMetrics X1 h_bob_fails root)))
    ["bob"%string].
Proof.
  exact (pool_failures_are_logged X1 h_bob_fails root _ eq_refl).
Defined.

(** ** The rows of the user phase *)

Lemma queue_rows_length (n : string) (qs : list conf.QueueMetrics) :
  List.length (filter (has_name n) (flat_map queue_metrics qs))
  = ((if String.eqb "wakatime_queue_jobs_enqueued" n then List.length qs else 0)
     + (if String.eqb "wakatime_queue_jobs_total_finished" n then List.length qs else 0))%nat.
Proof.
  induction qs as [|q qs IH].
  - cbn [flat_map filter List.length].
    now destruct (String.eqb "wakatime_queue_jobs_enqueued" n),
                        (String.eqb "wakatime_queue_jobs_total_finished" n).
  - cbn [flat_map]. rewrite filter_app, length_app, IH. unfold queue_metrics.
    cbn [filter]. unfold has_name, metric_name, gauge, counter. cbn [fields Name].
    change (MetricsPrefix +++ "_queue_jobs_enqueued")
      with "wakatime_queue_jobs_enqueued"%string.
    change (MetricsPrefix +++ "_queue_jobs_total_finished")
      with "wakatime_queue_jobs_total_finished"%string.
    destruct (String.eqb "wakatime_queue_jobs_enqueued" n),
             (String.eqb "wakatime_queue_jobs_total_finished" n);
      cbn [List.length]; lia.
Qed.

(** The number of rows of a given name in the set of [getUserMetrics]. *)
Ltac user_rows :=
  unfold count_rows, user_metric_set; rewrite !filter_app, !length_app;
  repeat match goal with
    | |- context [filter ?f (breakdown ?X ?n ?d ?t ?ty ?items)] =>
        first
          [ rewrite (filter_all_true f (breakdown X n d t ty items))
              by (apply breakdown_forall; intros; reflexivity)
          | rewrite (filter_all_false f (breakdown X n d t ty items))
              by (apply breakdown_forall; intros; reflexivity) ]
    end;
  rewrite queue_rows_length; unfold breakdown; rewrite ?length_map;
  cbn; lia.

Definition user_scalar_names : list string :=
  [ "wakatime_cumulative_seconds_total"; "wakatime_seconds_total";
    "wakatime_heartbeats_total"; "wakatime_goroutines_total";
    "wakatime_mem_alloc_total"; "wakatime_mem_sys_total"; "wakatime_paused_total";
    "wakatime_num_gc_total"; "wakatime_db_total_bytes" ]%string.

Section UserRows.

Variable X : Externals.
Variable h : MetricsHandler.
Variables (s1 s2 : models.Summary) (hb : Z).

Lemma user_set_breakdown_rows :
  let set := user_metric_set X h s1 s2 hb in
  count_rows "wakatime_project_seconds_total" set = List.length (models.Projects s2)
  /\ count_rows "wakatime_language_seconds_total" set = List.length (models.Languages s2)
  /\ count_rows "wakatime_editor_seconds_total" set = List.length (models.Editors s2)
  /\ count_rows "wakatime_operating_system_seconds_total" set
     = List.length (models.OperatingSystems s2)
  /\ count_rows "wakatime_machine_seconds_total" set = List.length (models.Machines s2)
  /\ count_rows "wakatime_label_seconds_total" set = List.length (models.Labels s2).
Proof. cbv zeta. repeat split; user_rows. Qed.

Lemma user_set_queue_rows :
  let set := user_metric_set X h s1 s2 hb in
  count_rows "wakatime_queue_jobs_enqueued" set = List.length (conf_GetQueueMetrics h)
  /\ count_rows "wakatime_queue_jobs_total_finished" set
     = List.length (conf_GetQueueMetrics h).
Proof. cbv zeta. repeat split; user_rows. Qed.

Lemma user_set_scalar_rows :
  Forall (fun n => count_rows n (user_metric_set X h s1 s2 hb) = 1%nat)
    user_scalar_names.
Proof. unfold user_scalar_names. repeat constructor; user_rows. Qed.

End UserRows.

Lemma responds_with_user_set (X : Externals) (h : MetricsHandler) (u : models.User)
    (out : Metrics) :
  responds_with X h u out ->
  exists s1 hb,
    forall n, mem_name n admin_names = false ->
      count_rows n out
      = count_rows n
          (user_metric_set X h s1 (fst (summarySrvc_Aliased h IntervalToday u)) hb).
Proof.
  intros (um & am & Eu & Ea & -> & _).
  rewrite getUserMetrics_result in Eu. rewrite getAdminMetrics_result in Ea.
  unfold user_result in Eu.
  destruct (summarySrvc_Aliased h IntervalAllTimeUntilNow u) as [s1 [e1|]];
    destruct (summarySrvc_Aliased h IntervalToday u) as [s2 [e2|]];
    destruct (heartbeatSrvc_CountByUser h u) as [hb [e3|]]; try discriminate.
  inversion Eu; subst um. exists s1, hb. intros n Hn. cbn [fst].
  unfold count_rows.
  rewrite <- (Permutation_length (sorted_rows_perm X n _)).
  rewrite filter_app, length_app.
  assert (filter (has_name n) am = []) as ->.
  { destruct (models.IsAdmin u).
    - apply (filter_admin_result_other X h n u am Hn Ea).
    - now subst am. }
  cbn [List.length]. lia.
Qed.

(** X5. A successful response has, whoever asks, exactly one row for each
    of the nine scalar user metrics, one row per item of each breakdown of
    the today summary (projects, languages, editors, operating systems,
    machines, labels), and for each of the two queue metrics one row per
    queue snapshot. *)
Theorem user_row_counts (X : Externals) (h : MetricsHandler) (u : models.User)
    (out : Metrics) :
  responds_with X h u out ->
  let today := fst (summarySrvc_Aliased h IntervalToday u) in
  Forall (fun n => count_rows n out = 1%nat) user_scalar_names
  /\ count_rows "wakatime_project_seconds_total" out = List.length (models.Projects today)
  /\ count_rows "wakatime_language_seconds_total" out
     = List.length (models.Languages today)
  /\ count_rows "wakatime_editor_seconds_total" out = List.length (models.Editors today)
  /\ count_rows "wakatime_operating_system_seconds_total" out
     = List.length (models.OperatingSystems today)
  /\ count_rows "wakatime_machine_seconds_total" out = List.length (models.Machines today)
  /\ count_rows "wakatime_label_seconds_total" out = List.length (models.Labels today)
  /\ count_rows "wakatime_queue_jobs_enqueued" out = List.length (conf_GetQueueMetrics h)
  /\ count_rows "wakatime_queue_jobs_total_finished" out
     = List.length (conf_GetQueueMetrics h).
Proof.
  intros R today. destruct (responds_with_user_set X h u out R) as (s1 & hb & C).
  fold today in C.
  pose proof (user_set_breakdown_rows X h s1 today hb) as (B1 & B2 & B3 & B4 & B5 & B6).
  pose proof (user_set_queue_rows X h s1 today hb) as (Q1 & Q2).
  split.
  - pose proof (user_set_scalar_rows X h s1 today hb) as S.
    rewrite Forall_forall in S. apply Forall_forall. intros n Hn.
    rewrite C; [now apply S|].
    unfold user_scalar_names in Hn. simpl in Hn.
    repeat (destruct Hn as [<-|Hn]; [reflexivity|]). contradiction.
  - rewrite !C by reflexivity. repeat split; assumption.
Qed.

Lemma user_row_counts_witness :
  exists out,
    responds_with X0 h_twin_queues root out
    /\ count_rows "wakatime_language_seconds_total" out = 2%nat
    /\ count_rows "wakatime_machine_seconds_total" out = 0%nat
    /\ count_rows "wakatime_queue_jobs_enqueued" out = 2%nat.
Proof.
  destruct (merged_responds_with X0 h_twin_queues root _ eq_refl)
    as (_ & _ & _ & _ & _ & R).
  eexists. split; [exact R|].
  destruct (user_row_counts X0 h_twin_queues root _ R)
    as (_ & _ & L & _ & _ & M & _ & Q & _).
  split; [exact L|]. split; [exact M | exact Q].
Defined.

(** ** One declaration per name *)

Definition declarations : list (string * (string * string)) :=
  [ ("wakatime_cumulative_seconds_total", ("gauge", DescAllTime));
    ("wakatime_seconds_total", ("gauge", DescTotal));
    ("wakatime_heartbeats_total", ("gauge", DescHeartbeats));
    ("wakatime_project_seconds_total", ("gauge", DescProjects));
    ("wakatime_language_seconds_total", ("gauge", DescLanguages));
    ("wakatime_editor_seconds_total", ("gauge", DescEditors));
    ("wakatime_operating_system_seconds_total", ("gauge", DescOperatingSystems));
    ("wakatime_machine_seconds_total", ("gauge", DescMachines));
    ("wakatime_label_seconds_total", ("gauge", DescLabels));
    ("wakatime_goroutines_total", ("gauge", DescGoroutines));
    ("wakatime_mem_alloc_total", ("gauge", DescMemAllocTotal));
    ("wakatime_mem_sys_total", ("gauge", DescMemSysTotal));
    ("wakatime_paused_total", ("counter", DescPausedTotal));
    ("wakatime_num_gc_total", ("counter", DescNumGCTotal));
    ("wakatime_db_total_bytes", ("gauge", DescDatabaseSize));
    ("wakatime_queue_jobs_enqueued", ("gauge", DescJobQueueEnqueued));
    ("wakatime_queue_jobs_total_finished", ("counter", DescJobQueueTotalFinished));
    ("wakatime_admin_seconds_total", ("gauge", DescAdminTotalTime));
    ("wakatime_admin_heartbeats_total", ("gauge", DescAdminTotalHeartbeats));
    ("wakatime_admin_users_total", ("gauge", DescAdminTotalUsers));
    ("wakatime_admin_users_active_total", ("gauge", DescAdminActiveUsers));
    ("wakatime_admin_user_heartbeats_total", ("gauge", DescAdminUserHeartbeats));
    ("wakatime_admin_user_time_seconds_total", ("gauge", DescAdminUserTime)) ]%string.

Fixpoint declaration_of (n : string) (table : list (string * (string * string)))
    : option (string * string) :=
  match table with
  | [] => None
  | (n', d) :: rest => if String.eqb n n' then Some d else declaration_of n rest
  end.

(** [m] is declared as the table says for its name. *)
Definition declared (m : Metric) : bool :=
  match declaration_of (metric_name m) declarations with
  | Some (k, d) => String.eqb k (kind_name m) && String.eqb d (Desc (fields m))
  | None => false
  end.

Lemma declared_same (a b : Metric) :
  declared a = true -> declared b = true ->
  metric_name a = metric_name b ->
  kind_name a = kind_name b /\ Desc (fields a) = Desc (fields b).
Proof.
  unfold declared. intros Ha Hb E. rewrite <- E in Hb.
  destruct (declaration_of (metric_name a) declarations) as [[k d]|]; [|discriminate].
  apply andb_true_iff in Ha as [Ka Da]. apply andb_true_iff in Hb as [Kb Db].
  apply String.eqb_eq in Ka, Da, Kb, Db. split; congruence.
Qed.

Lemma user_metric_set_declared (X : Externals) (h : MetricsHandler)
    (s1 s2 : models.Summary) (hb : Z) :
  Forall (fun m => declared m = true) (user_metric_set X h s1 s2 hb).
Proof. unfold user_metric_set, breakdown, queue_metrics. each_metric. Qed.

Lemma admin_metric_set_declared (X : Externals) (h : MetricsHandler)
    (au : list models.User) (uc : list models.CountByUser) :
  Forall (fun m => declared m = true) (admin_metric_set X h au uc).
Proof.
  unfold admin_metric_set. cbn [app].
  repeat (apply Forall_cons; [reflexivity|]).
  apply Forall_app; split.
  - apply heartbeat_rows_forall. intros; reflexivity.
  - apply time_rows_forall. intros; reflexivity.
Qed.

(** X6. In the set a successful response renders, the metrics of one name
    are all of one kind (gauge or counter) and carry one description, so the
    HELP and TYPE lines of a name hold for every sample line under them. *)
Theorem one_declaration_per_name (X : Externals) (h : MetricsHandler)
    (u : models.User) (out : Metrics) :
  responds_with X h u out ->
  forall a b, In a out -> In b out ->
    metric_name a = metric_name b ->
    kind_name a = kind_name b /\ Desc (fields a) = Desc (fields b).
Proof.
  intros (um & am & Eu & Ea & -> & _).
  rewrite getUserMetrics_result in Eu. rewrite getAdminMetrics_result in Ea.
  assert (Forall (fun m => declared m = true) (sort_Sort X (um ++ am))) as D.
  { eapply Permutation_Forall; [apply sort_Sort_perm|].
    apply Forall_app; split.
    - unfold user_result in Eu.
      destruct (summarySrvc_Aliased h IntervalAllTimeUntilNow u) as [s1 [e1|]];
        destruct (summarySrvc_Aliased h IntervalToday u) as [s2 [e2|]];
        destruct (heartbeatSrvc_CountByUser h u) as [hb [e3|]]; try discriminate.
      inversion Eu. apply user_metric_set_declared.
    - destruct (models.IsAdmin u) eqn:Ha; [|subst am; constructor].
      unfold admin_result in Ea. rewrite Ha in Ea. cbn [negb] in Ea.
      destruct (userSrvc_GetActive h false) as [au [e1|]]; [discriminate|].
      destruct (heartbeatSrvc_CountByUsers h au) as [uc [e2|]]; [discriminate|].
      inversion Ea. apply admin_metric_set_declared. }
  rewrite Forall_forall in D. intros a b Ha Hb. apply declared_same; auto.
Qed.

Lemma one_declaration_per_name_witness :
  exists out,
    responds_with X0 h_twin_queues root out
    /\ forall a b, In a out -> In b out ->
         metric_name a = metric_name b ->
         kind_name a = kind_name b /\ Desc (fields a) = Desc (fields b).
Proof.
  destruct (merged_responds_with X0 h_twin_queues root _ eq_refl)
    as (_ & _ & _ & _ & _ & R).
  eexists. split; [exact R|].
  exact (one_declaration_per_name X0 h_twin_queues root _ R).
Defined.

(** ** The response does not depend on the scheduling *)

Lemma key_le_antisym (a b : Metric) :
  key_le a b -> key_le b a -> sort_key a = sort_key b.
Proof.
  rewrite !key_le_iff. rewrite (key_compare_antisym (sort_key b)). intros H1 H2.
  apply key_compare_eq.
  destruct (key_compare (sort_key a) (sort_key b)); simpl in *; congruence.
Qed.

(** Two ascending arrangements of one set without equal keys are the same
    list. *)
Lemma sorted_perm_unique (l1 : Metrics) :
  forall l2,
    StronglySorted key_le l1 -> StronglySorted key_le l2 ->
    Permutation l1 l2 -> NoDup (map sort_key l1) -> l1 = l2.
Proof.
  induction l1 as [|a t1 IH]; intros l2 S1 S2 P N.
  - apply Permutation_nil in P. now subst.
  - destruct l2 as [|b t2];
      [apply Permutation_sym, Permutation_nil in P; discriminate|].
    apply StronglySorted_inv in S1 as [S1 A1].
    apply StronglySorted_inv in S2 as [S2 A2].
    rewrite Forall_forall in A1, A2.
    cbn [map] in N. apply NoDup_cons_iff in N as [Na N].
    assert (a = b) as ->.
    { assert (In a (b :: t2)) as Ia by (eapply Permutation_in; [exact P|now left]).
      assert (In b (a :: t1)) as Ib
          by (eapply Permutation_in; [symmetry; exact P|now left]).
      destruct Ia as [E|Ia]; [now subst|].
      destruct Ib as [E|Ib]; [now subst|].
      exfalso. apply Na.
      rewrite (key_le_antisym a b (A1 b Ib) (A2 a Ia)).
      now apply in_map. }
    f_equal. apply IH; trivial. now apply Permutation_cons_inv in P.
Qed.

(** The two externals differ at most in how they sort and in how the pool
    schedules. *)
Definition same_data (X X' : Externals) : Prop :=
  AllTimeTotalSeconds X = AllTimeTotalSeconds X'
  /\ TotalTime X = TotalTime X'
  /\ TotalTimeByKey X = TotalTimeByKey X'
  /\ SecondsInt X = SecondsInt X'
  /\ ParseDuration X = ParseDuration X'.

Lemma same_data_user_set (X X' : Externals) (h : MetricsHandler)
    (s1 s2 : models.Summary) (hb : Z) :
  same_data X X' -> user_metric_set X h s1 s2 hb = user_metric_set X' h s1 s2 hb.
Proof.
  intros (E1 & E2 & E3 & E4 & _). unfold user_metric_set, breakdown.
  now rewrite E1, E2, E3, E4.
Qed.

Lemma same_data_admin_set (X X' : Externals) (h : MetricsHandler)
    (au : list models.User) (uc : list models.CountByUser) :
  same_data X X' ->
  Permutation (admin_metric_set X h au uc) (admin_metric_set X' h au uc).
Proof.
  intros (_ & E2 & _ & E4 & E5). unfold admin_metric_set, cached_total_seconds.
  rewrite E4, E5.
  apply Permutation_app_head, Permutation_app_head.
  etransitivity; [apply pool_rows_perm|].
  etransitivity; [|symmetry; apply pool_rows_perm].
  unfold time_row. rewrite E2, E4. reflexivity.
Qed.

(** X7. Whatever order the pool ran its tasks in and whatever rearrangement
    [sort.Sort] makes among the ascending ones, a successful response renders
    the same metrics, each as often; and when no two of them have the same
    key (Name, first label's value), it renders them in the same order, so
    that the response is a function of what the services answered. *)
Theorem response_independent_of_scheduling (X X' : Externals) (h : MetricsHandler)
    (u : models.User) (out out' : Metrics) :
  same_data X X' ->
  responds_with X h u out ->
  responds_with X' h u out' ->
  Permutation out out'
  /\ (NoDup (map sort_key out) ->
      out' = out
      /\ fst (Get X' h new_response (request_of u))
         = fst (Get X h new_response (request_of u))).
Proof.
  intros D (um & am & Eu & Ea & -> & G) (um' & am' & Eu' & Ea' & -> & G').
  rewrite getUserMetrics_result in Eu, Eu'.
  rewrite getAdminMetrics_result in Ea, Ea'.
  assert (um' = um) as ->.
  { unfold user_result in Eu, Eu'.
    destruct (summarySrvc_Aliased h IntervalAllTimeUntilNow u) as [s1 [e1|]];
      destruct (summarySrvc_Aliased h IntervalToday u) as [s2 [e2|]];
      destruct (heartbeatSrvc_CountByUser h u) as [hb [e3|]]; try discriminate.
    inversion Eu; inversion Eu'. symmetry. now apply same_data_user_set. }
  assert (Permutation am am') as P.
  { destruct (models.IsAdmin u) eqn:Ha; [|now subst].
    unfold admin_result in Ea, Ea'. rewrite Ha in Ea, Ea'. cbn [negb] in Ea, Ea'.
    destruct (userSrvc_GetActive h false) as [au [e1|]]; [discriminate|].
    destruct (heartbeatSrvc_CountByUsers h au) as [uc [e2|]]; [discriminate|].
    inversion Ea; inversion Ea'. now apply same_data_admin_set. }
  assert (Permutation (sort_Sort X (um ++ am)) (sort_Sort X' (um ++ am'))) as PS.
  { etransitivity; [symmetry; apply sort_Sort_perm|].
    etransitivity; [|apply sort_Sort_perm].
    now apply Permutation_app_head. }
  split; [exact PS|]. intros N.
  assert (sort_Sort X (um ++ am) = sort_Sort X' (um ++ am')) as E
      by (apply sorted_perm_unique; trivial; apply sort_Sort_sorted).
  split; [now symmetry|]. rewrite G, G'. now rewrite E.
Qed.

Lemma response_independent_of_scheduling_witness :
  fst (Get X1 h_bob_fails new_response (request_of root))
  = fst (Get X0 h_bob_fails new_response (request_of root)).
Proof.
  destruct (merged_responds_with X0 h_bob_fails root _ eq_refl)
    as (_ & _ & _ & _ & _ & R0).
  destruct (merged_responds_with X1 h_bob_fails root _ eq_refl)
    as (_ & _ & _ & _ & _ & R1).
  refine (proj2 (proj2 (response_independent_of_scheduling X0 X1 h_bob_fails root
                          _ _ _ R0 R1) _)).
  - repeat split.
  - vm_compute. repeat constructor; simpl; intuition discriminate.
Defined.

(** * The configuration: [config/config.go] *)

(** ** The Go library functions the file uses on strings *)

Module strings.

(** [strings.Contains(s, substr)]: [substr] occurs in [s]. *)
Fixpoint Contains (s substr : string) : bool :=
  String.prefix substr s
  || match s with
     | EmptyString => false
     | String _ rest => Contains rest substr
     end.

(** [strings.HasSuffix(s, suffix)]. *)
Definition HasSuffix (s suffix : string) : bool :=
  (String.length suffix <=? String.length s)%nat
  && String.eqb
       (String.substring (String.length s - String.length suffix)
          (String.length suffix) s)
       suffix.

(** [strings.TrimSuffix(s, suffix)]: [s] without the trailing [suffix], once,
    or [s] itself when it does not end with it. *)
Definition TrimSuffix (s suffix : string) : string :=
  if HasSuffix s suffix
  then String.substring 0 (String.length s - String.length suffix) s
  else s.

(** [strings.Split(s, sep)] for a separator of one byte, the only kind the
    file splits on: the pieces between the separators, at least one. *)
Fixpoint Split (s : string) (sep : ascii) : list string :=
  match s with
  | EmptyString => [EmptyString]
  | String a rest =>
      if Ascii.eqb a sep then EmptyString :: Split rest sep
      else match Split rest sep with
           | piece :: pieces => String a piece :: pieces
           | [] => [String a EmptyString]
           end
  end.

End strings.

Module strconv.

Inductive NumError :=
| ErrSyntax (input : string)
| ErrRange (input : string).

Definition maxInt : Z := (2 ^ 63 - 1)%Z.
Definition minInt : Z := (- 2 ^ 63)%Z.

(** The sign in front of the digits, if there is one: whether it is a minus,
    and what follows it. *)
Definition sign_split (s : string) : bool * string :=
  match s with
  | EmptyString => (false, s)
  | String a rest =>
      if Ascii.eqb a "-" then (true, rest)
      else if Ascii.eqb a "+" then (false, rest)
      else (false, s)
  end.

(** [strconv.Atoi(s)] where [int] has 64 bits: an optional sign and then
    decimal digits, at least one, of a value within the range of [int]. *)
Definition Atoi (s : string) : Z * option NumError :=
  let '(neg, digits) := sign_split s in
  match NilZero.uint_of_string digits with
  | None => (0%Z, Some (ErrSyntax s))
  | Some d =>
      let n := Z.of_uint d in
      let v := if neg then (- n)%Z else n in
      if (v <? minInt)%Z then (minInt, Some (ErrRange s))
      else if (maxInt <? v)%Z then (maxInt, Some (ErrRange s))
      else (v, None)
  end.

(** [%d] of [fmt.Sprintf]. *)
Definition Itoa (z : Z) : string := NilZero.string_of_int (Z.to_int z).

End strconv.

Example Split_time : strings.Split "15:04" ":" = ["15"; "04"]%string.
Proof. reflexivity. Qed.

Example Split_empty : strings.Split "" "," = [EmptyString].
Proof. reflexivity. Qed.

Example Split_edges : strings.Split ",a," "," = [""; "a"; ""]%string.
Proof. reflexivity. Qed.

Example Atoi_plain : strconv.Atoi "04" = (4%Z, None).
Proof. reflexivity. Qed.

Example Atoi_signed : strconv.Atoi "-7" = ((-7)%Z, None) /\ strconv.Atoi "+7" = (7%Z, None).
Proof. split; reflexivity. Qed.

Example Atoi_bad :
  snd (strconv.Atoi "") <> None /\ snd (strconv.Atoi "-") <> None
  /\ snd (strconv.Atoi "1 2") <> None /\ snd (strconv.Atoi "fri") <> None
  /\ snd (strconv.Atoi "9223372036854775808") <> None
  /\ snd (strconv.Atoi "9223372036854775807") = None.
Proof. vm_compute. repeat split; discriminate. Qed.

Example TrimSuffix_once :
  strings.TrimSuffix "/wakapi//" "/" = "/wakapi/"%string
  /\ strings.TrimSuffix "/" "/" = EmptyString
  /\ strings.TrimSuffix "" "/" = EmptyString.
Proof. repeat split. Qed.

(** ** The configuration structs *)

Module config.

(** A [net.IP], as its bytes. *)
Definition IP := string.

(** A [float32], as its bits: the file only carries these values along. *)
Inductive float32 := float32_bits (bits : Z).

(** What [securecookie.New(hashKey, blockKey)] is made of. *)
Record SecureCookie := {
  hashKey : string;
  blockKey : string
}.

Record appConfig := {
  AggregationTime : string;
  LeaderboardGenerationTime : string;
  ReportTimeWeekly : string;
  DataCleanupTime : string;
  ImportEnabled : bool;
  ImportBackoffMin : Z;
  ImportMaxRate : Z;
  ImportBatchSize : Z;
  InactiveDays : Z;
  HeartbeatMaxAge : string;
  CountCacheTTLMin : Z;
  DataRetentionMonths : Z;
  DataCleanupDryRun : bool;
  AvatarURLTemplate : string;
  SupportContact : string;
  CustomLanguages : list (string * string);
  Colors : list (string * list (string * string))
}.

Record securityConfig := {
  AllowSignup : bool;
  ExposeMetrics : bool;
  EnableProxy : bool;
  DisableFrontpage : bool;
  PasswordSalt : string;
  InsecureCookies : bool;
  CookieMaxAgeSec : Z;
  TrustedHeaderAuth : bool;
  TrustedHeaderAuthKey : string;
  TrustReverseProxyIps : string;
  SecureCookie_ : option SecureCookie;
  SessionKey : string;
  trustReverseProxyIpParsed : slice IP
}.

Record dbConfig := {
  Host : string;
  Socket : string;
  Port : Z;
  User : string;
  Password : string;
  Name : string;
  Dialect : string;
  Charset : string;
  Type_ : string;
  DSN : string;
  MaxConn : Z;
  Ssl : bool;
  AutoMigrateFailSilently : bool
}.

Record serverConfig := {
  ServerPort : Z;
  ListenIpV4 : string;
  ListenIpV6 : string;
  ListenSocket : string;
  ListenSocketMode : Z;
  TimeoutSec : Z;
  BasePath : string;
  PublicUrl : string;
  TlsCertPath : string;
  TlsKeyPath : string
}.

Record subscriptionsConfig := {
  Enabled : bool;
  ExpiryNotifications : bool;
  StripeApiKey : string;
  StripeSecretKey : string;
  StripeEndpointSecret : string;
  StandardPriceId : string;
  StandardPrice : string
}.

Record sentryConfig := {
  Dsn : string;
  EnableTracing : bool;
  SampleRate : float32;
  SampleRateHeartbeats : float32
}.

Record MailwhaleMailConfig := {
  Url : string;
  ClientId : string;
  ClientSecret : string
}.

Record SMTPMailConfig := {
  SmtpHost : string;
  SmtpPort : Z;
  Username : string;
  SmtpPassword : string;
  TLS : bool
}.

Record mailConfig := {
  MailEnabled : bool;
  Provider : string;
  MailWhale : MailwhaleMailConfig;
  Smtp : SMTPMailConfig;
  Sender : string
}.

Record Config := {
  Env : string;
  Version : string;
  QuickStart : bool;
  SkipMigrations : bool;
  InstanceId : string;
  EnablePprof : bool;
  App : appConfig;
  Security : securityConfig;
  Db : dbConfig;
  Server : serverConfig;
  Subscriptions : subscriptionsConfig;
  Sentry : sentryConfig;
  Mail : mailConfig
}.

Definition MailProviderSmtp : string := "smtp".
Definition MailProviderMailWhale : string := "mailwhale".
Definition emailProviders : list string := [MailProviderSmtp; MailProviderMailWhale].

(** ** Cookies *)

Inductive SameSite := SameSiteDefaultMode | SameSiteLaxMode | SameSiteStrictMode
                    | SameSiteNoneMode.

(** The fields of [http.Cookie] that [createCookie] sets; the others keep
    their zero value. *)
Record Cookie := {
  CookieName : string;
  CookieValue : string;
  CookiePath : string;
  MaxAge : Z;
  Secure : bool;
  HttpOnly : bool;
  SameSite_ : SameSite
}.

Definition createCookie (c : Config) (name value path : string) (maxAge : Z) : Cookie :=
  {| CookieName := name;
     CookieValue := value;
     CookiePath := path;
     MaxAge := maxAge;
     Secure := negb (InsecureCookies (Security c));
     HttpOnly := true;
     SameSite_ := SameSiteLaxMode |}.

Definition CreateCookie (c : Config) (name value : string) : Cookie :=
  createCookie c name value (BasePath (Server c)) (CookieMaxAgeSec (Security c)).

Definition GetClearCookie (c : Config) (name : string) : Cookie :=
  createCookie c name EmptyString (BasePath (Server c)) (-1)%Z.

(** ** Small queries *)

Definition IsDev (env : string) : bool :=
  String.eqb env "dev" || String.eqb env "development".

Definition Config_IsDev (c : Config) : bool := IsDev (Env c).

Definition UseTLS (c : Config) : bool :=
  negb (String.eqb (TlsCertPath (Server c)) EmptyString)
  && negb (String.eqb (TlsKeyPath (Server c)) EmptyString).

Definition IsSQLite (c : dbConfig) : bool := String.eqb (Dialect c) "sqlite3".
Definition IsMySQL (c : dbConfig) : bool := String.eqb (Dialect c) "mysql".
Definition IsPostgres (c : dbConfig) : bool := String.eqb (Dialect c) "postgres".

Definition GetPublicUrl (c : serverConfig) : string :=
  strings.TrimSuffix (PublicUrl c) "/".

Definition ConnStr (c : SMTPMailConfig) : string :=
  SmtpHost c +++ ":" +++ strconv.Itoa (SmtpPort c).

Definition resolveDbDialect (dbType : string) : string :=
  if String.eqb dbType "cockroach" then "postgres"%string
  else if String.eqb dbType "sqlite" then "sqlite3"%string
  else if String.eqb dbType "mariadb" then "mysql"%string
  else dbType.

(** ** Outcomes *)

(** [logbuch.Fatal] logs and panics, and an index outside a slice panics:
    either way the function does not return. *)
Inductive Abort :=
| FatalError (format : string) (args : list string)
| FatalAtoi (e : strconv.NumError)
| IndexOutOfRange (index len : nat).

Inductive Outcome (A : Type) :=
| Returns (a : A)
| Aborts (why : Abort).
Arguments Returns {A} _.
Arguments Aborts {A} _.

Definition obind {A B} (o : Outcome A) (f : A -> Outcome B) : Outcome B :=
  match o with
  | Returns a => f a
  | Aborts why => Aborts why
  end.

(** [l[i]] *)
Definition at_index {A} (l : list A) (i : nat) : Outcome A :=
  match nth_error l i with
  | Some a => Returns a
  | None => Aborts (IndexOutOfRange i (List.length l))
  end.

(** [n, err := strconv.Atoi(s); if err != nil { logbuch.Fatal(err.Error()) }] *)
Definition atoi_or_fatal (s : string) : Outcome Z :=
  match strconv.Atoi s with
  | (_, Some e) => Aborts (FatalAtoi e)
  | (n, None) => Returns n
  end.

Declare Scope outcome_scope.
Delimit Scope outcome_scope with out.
Notation "x <- c ;; k" := (obind c (fun x => k))
  (at level 61, c at next level, right associativity) : outcome_scope.

(** ** Functions of other packages and of the Go library *)

Record Deps := {
  (** [strings.TrimSpace] *)
  TrimSpace : string -> string;
  (** [net.ParseIP], [nil] being [None] *)
  ParseIP : string -> option IP;
  (** [time.ParseDuration] *)
  ParseDuration : string -> Duration * option error;
  (** [utils.CronPadToSecondly] *)
  CronPadToSecondly : string -> string;
  (** [utils.ParseWeekday], a [time.Weekday] *)
  ParseWeekday : string -> Z;
  (** [utils.SplitMulti(s, delims...)] *)
  SplitMulti : string -> list string -> list string
}.

(** ** Schedules *)

Section Schedules.

Variable D : Deps.

Local Open Scope outcome_scope.

(** [fmt.Sprintf("0 %d %d * * *", m, h)] *)
Definition daily_cron (m h : Z) : string :=
  "0 " +++ strconv.Itoa m +++ " " +++ strconv.Itoa h +++ " * * *".

Definition GetAggregationTimeCron (c : appConfig) : Outcome string :=
  if strings.Contains (AggregationTime c) ":" then
    (* old gocron format, e.g. "15:04" *)
    let timeParts := strings.Split (AggregationTime c) ":" in
    p0 <- at_index timeParts 0 ;;
    h <- atoi_or_fatal p0 ;;
    p1 <- at_index timeParts 1 ;;
    m <- atoi_or_fatal p1 ;;
    Returns (daily_cron m h)
  else Returns (CronPadToSecondly D (AggregationTime c)).

Definition GetWeeklyReportCron (c : appConfig) : Outcome string :=
  if strings.Contains (ReportTimeWeekly c) "," then
    (* old gocron format, e.g. "fri,18:00" *)
    let split := strings.Split (ReportTimeWeekly c) "," in
    s0 <- at_index split 0 ;;
    let weekday := ParseWeekday D s0 in
    s1 <- at_index split 1 ;;
    let timeParts := strings.Split s1 ":" in
    p0 <- at_index timeParts 0 ;;
    h <- atoi_or_fatal p0 ;;
    p1 <- at_index timeParts 1 ;;
    m <- atoi_or_fatal p1 ;;
    Returns ("0 " +++ strconv.Itoa m +++ " " +++ strconv.Itoa h +++ " * * "
               +++ strconv.Itoa weekday)
  else Returns (CronPadToSecondly D (ReportTimeWeekly c)).

(** The two closures [parse] of [GetLeaderboardGenerationTimeCron]. *)
Definition parse_old (s : string) : Outcome string :=
  let timeParts := strings.Split s ":" in
  p0 <- at_index timeParts 0 ;;
  h <- atoi_or_fatal p0 ;;
  p1 <- at_index timeParts 1 ;;
  m <- atoi_or_fatal p1 ;;
  Returns (daily_cron m h).

Definition parse_new (s : string) : Outcome string :=
  Returns (CronPadToSecondly D s).

(** [for _, s := range parts { crons = append(crons, parse(...)) }] *)
Fixpoint append_parsed (parse : string -> Outcome string) (crons : list string)
    (parts : list string) : Outcome (list string) :=
  match parts with
  | [] => Returns crons
  | s :: rest =>
      cron <- parse (TrimSpace D s) ;;
      append_parsed parse (crons ++ [cron]) rest
  end.

Definition GetLeaderboardGenerationTimeCron (c : appConfig) : Outcome (list string) :=
  let crons : list string := [] in
  let parse :=
    if strings.Contains (LeaderboardGenerationTime c) ":" then parse_old
    else parse_new in
  append_parsed parse crons
    (SplitMulti D (LeaderboardGenerationTime c) [","; ";"]%string).

Definition HeartbeatsMaxAge (c : appConfig) : Duration :=
  fst (ParseDuration D (HeartbeatMaxAge c)).

(** ** Trusted reverse proxies *)

Definition with_parsed (c : securityConfig) (parsed : slice IP) : securityConfig :=
  {| AllowSignup := AllowSignup c;
     ExposeMetrics := ExposeMetrics c;
     EnableProxy := EnableProxy c;
     DisableFrontpage := DisableFrontpage c;
     PasswordSalt := PasswordSalt c;
     InsecureCookies := InsecureCookies c;
     CookieMaxAgeSec := CookieMaxAgeSec c;
     TrustedHeaderAuth := TrustedHeaderAuth c;
     TrustedHeaderAuthKey := TrustedHeaderAuthKey c;
     TrustReverseProxyIps := TrustReverseProxyIps c;
     SecureCookie_ := SecureCookie_ c;
     SessionKey := SessionKey c;
     trustReverseProxyIpParsed := parsed |}.

(** The loop of [ParseTrustReverseProxyIPs]: the addresses parsed so far and
    the number of warnings logged so far. *)
Fixpoint parse_ips (ips : list string) (parsed : list IP) (warnings : nat)
    : list IP * nat :=
  match ips with
  | [] => (parsed, warnings)
  | ip :: rest =>
      match ParseIP D (TrimSpace D ip) with
      | None => parse_ips rest parsed (S warnings)
      | Some parsedIp => parse_ips rest (parsed ++ [parsedIp]) warnings
      end
  end.

(** The configuration after the call, and how often
    [failed to parse reverse proxy ip] was logged as a warning. *)
Definition ParseTrustReverseProxyIPs (c : securityConfig) : securityConfig * nat :=
  let '(parsed, warnings) :=
    parse_ips (strings.Split (TrustReverseProxyIps c) ",") [] 0 in
  (with_parsed c (slice_of parsed), warnings).

Definition TrustReverseProxyIPs (c : securityConfig) : slice IP :=
  trustReverseProxyIpParsed c.

End Schedules.

End config.

(** ** Splitting and parsing *)

Definition one (c : ascii) : string := String c EmptyString.

Lemma Contains_cons (a c : ascii) (r : string) :
  strings.Contains (String a r) (one c) = Ascii.eqb a c || strings.Contains r (one c).
Proof.
  unfold one. cbn [strings.Contains String.prefix].
  destruct (ascii_dec c a) as [->|N].
  - rewrite Ascii.eqb_refl. now destruct r.
  - assert (Ascii.eqb a c = false) as -> by (apply Ascii.eqb_neq; congruence).
    reflexivity.
Qed.

Lemma Split_nonempty (s : string) (c : ascii) :
  exists p rest, strings.Split s c = p :: rest.
Proof.
  induction s as [|a r IH]; cbn [strings.Split]; [eauto|].
  destruct (Ascii.eqb a c); [eauto|].
  destruct IH as (p & rest & ->). eauto.
Qed.

(** A string that holds the separator splits in two pieces or more. *)
Lemma Split_two (s : string) (c : ascii) :
  strings.Contains s (one c) = true ->
  exists p0 p1 rest, strings.Split s c = p0 :: p1 :: rest.
Proof.
  induction s as [|a r IH]; [discriminate|].
  rewrite Contains_cons. cbn [strings.Split]. intros H.
  destruct (Ascii.eqb a c).
  - destruct (Split_nonempty r c) as (p & rest & ->). eauto.
  - destruct (IH H) as (p0 & p1 & rest & ->). eauto.
Qed.

Lemma Split_none (s : string) (c : ascii) :
  strings.Contains s (one c) = false -> strings.Split s c = [s].
Proof.
  induction s as [|a r IH]; [reflexivity|].
  rewrite Contains_cons. cbn [strings.Split]. intros H.
  apply orb_false_iff in H as [-> H]. now rewrite (IH H).
Qed.

Lemma Split_app (a b : string) (c : ascii) :
  strings.Contains a (one c) = false ->
  strings.Split (a +++ String c b) c = a :: strings.Split b c.
Proof.
  induction a as [|x r IH]; intros H.
  - cbn. now rewrite Ascii.eqb_refl.
  - rewrite Contains_cons in H. apply orb_false_iff in H as [Hx H].
    cbn [String.append strings.Split]. now rewrite Hx, (IH H).
Qed.

Definition is_digit (a : ascii) : bool :=
  match uint_of_char a (Some Decimal.Nil) with
  | Some _ => true
  | None => false
  end.

Lemma uint_of_char_digit (a : ascii) (o : option Decimal.uint) (d : Decimal.uint) :
  uint_of_char a o = Some d -> is_digit a = true /\ exists d', o = Some d'.
Proof.
  destruct o as [d'|].
  - intros H. split; [|eauto]. unfold is_digit.
    destruct a as [[] [] [] [] [] [] [] []]; cbn in *; try discriminate; reflexivity.
  - destruct a as [[] [] [] [] [] [] [] []]; cbn; discriminate.
Qed.

Lemma digits_only (s : string) (d : Decimal.uint) (c : ascii) :
  NilEmpty.uint_of_string s = Some d -> is_digit c = false ->
  strings.Contains s (one c) = false.
Proof.
  revert d. induction s as [|a r IH]; intros d H Hc; [reflexivity|].
  cbn [NilEmpty.uint_of_string] in H.
  apply uint_of_char_digit in H as [Ha [d' Hr]].
  rewrite Contains_cons, (IH d' Hr Hc), orb_false_r.
  apply Ascii.eqb_neq. intros ->. congruence.
Qed.

Lemma Atoi_digits (s : string) :
  snd (strconv.Atoi s) = None ->
  NilZero.uint_of_string (snd (strconv.sign_split s)) <> None.
Proof.
  unfold strconv.Atoi. destruct (strconv.sign_split s) as [neg digits]. cbn [snd].
  destruct (NilZero.uint_of_string digits); [discriminate|]. cbn. discriminate.
Qed.

(** What [strconv.Atoi] accepts holds neither a colon nor a comma. *)
Lemma Atoi_no_separator (s : string) (c : ascii) :
  snd (strconv.Atoi s) = None ->
  is_digit c = false -> c <> "+"%char -> c <> "-"%char ->
  strings.Contains s (one c) = false.
Proof.
  intros H Hc Hp Hm. apply Atoi_digits in H.
  assert (forall digits, NilZero.uint_of_string digits <> None ->
          strings.Contains digits (one c) = false) as Hd.
  { intros digits N. unfold NilZero.uint_of_string in N.
    destruct digits as [|a r]; [reflexivity|].
    destruct (NilEmpty.uint_of_string (String a r)) as [d|] eqn:E; [|congruence].
    eapply digits_only; eauto. }
  destruct s as [|a r]; [reflexivity|]. cbn [strconv.sign_split] in H.
  destruct (Ascii.eqb a "-") eqn:Em.
  { apply Ascii.eqb_eq in Em. subst a. cbn [snd] in H.
    rewrite Contains_cons, (Hd r H), orb_false_r. apply Ascii.eqb_neq. congruence. }
  destruct (Ascii.eqb a "+") eqn:Ep.
  { apply Ascii.eqb_eq in Ep. subst a. cbn [snd] in H.
    rewrite Contains_cons, (Hd r H), orb_false_r. apply Ascii.eqb_neq. congruence. }
  now apply Hd.
Qed.

Lemma Contains_app_sep (a b : string) (c : ascii) :
  strings.Contains (a +++ String c b) (one c) = true.
Proof.
  induction a as [|x r IH]; cbn [String.append]; rewrite Contains_cons.
  - now rewrite Ascii.eqb_refl.
  - rewrite IH. apply orb_true_r.
Qed.

Lemma append_empty (s : string) : s +++ EmptyString = s.
Proof. induction s as [|a r IH]; cbn; congruence. Qed.

Lemma append_assoc (a b c : string) : (a +++ b) +++ c = a +++ b +++ c.
Proof. induction a as [|x r IH]; cbn; congruence. Qed.

(** ** Properties of the schedules *)

Definition sample_deps : config.Deps :=
  {| config.TrimSpace := fun s => s;
     config.ParseIP := fun s => if String.eqb s "" then None else Some s;
     config.ParseDuration := fun s =>
       if String.eqb s "4320h" then (15552000000000000%Z, None)
       else (0%Z, Some "time: invalid duration"%string);
     config.CronPadToSecondly := fun s => s;
     config.ParseWeekday := fun s => if String.eqb s "fri" then 5%Z else 0%Z;
     config.SplitMulti := fun s _ => strings.Split s ";" |}.

Definition app_with_times (aggregation weekly leaderboard : string) : config.appConfig :=
  {| config.AggregationTime := aggregation;
     config.LeaderboardGenerationTime := leaderboard;
     config.ReportTimeWeekly := weekly;
     config.DataCleanupTime := "0 0 6 * * 0";
     config.ImportEnabled := true;
     config.ImportBackoffMin := 5;
     config.ImportMaxRate := 24;
     config.ImportBatchSize := 50;
     config.InactiveDays := 7;
     config.HeartbeatMaxAge := "4320h";
     config.CountCacheTTLMin := 30;
     config.DataRetentionMonths := (-1);
     config.DataCleanupDryRun := false;
     config.AvatarURLTemplate := "api/avatar/{username_hash}.svg";
     config.SupportContact := "hostmaster@wakapi.dev";
     config.CustomLanguages := [];
     config.Colors := [] |}.

Section ScheduleFacts.

Variable D : config.Deps.

(** The result of parsing the first two pieces of a time in the old format. *)
Definition old_time (p0 p1 : string) : config.Outcome string :=
  match strconv.Atoi p0 with
  | (_, Some e) => config.Aborts (config.FatalAtoi e)
  | (h, None) =>
      match strconv.Atoi p1 with
      | (_, Some e) => config.Aborts (config.FatalAtoi e)
      | (m, None) => config.Returns (config.daily_cron m h)
      end
  end.

Lemma old_time_pieces (p0 p1 : string) (rest : list string) :
  config.obind (config.at_index (p0 :: p1 :: rest) 0) (fun p0 =>
    config.obind (config.atoi_or_fatal p0) (fun h =>
      config.obind (config.at_index (p0 :: p1 :: rest) 1) (fun p1 =>
        config.obind (config.atoi_or_fatal p1) (fun m =>
          config.Returns (config.daily_cron m h)))))
  = old_time p0 p1.
Proof.
  unfold old_time, config.atoi_or_fatal. cbn.
  destruct (strconv.Atoi p0) as [h [e|]]; cbn; trivial.
  destruct (strconv.Atoi p1) as [m [e|]]; reflexivity.
Qed.

(** X8. [GetAggregationTimeCron] never reads a piece that is not there: a
    value with a colon splits in two pieces or more, of which it parses the
    first two as hour and minute and ignores the others, stopping with the
    error of [strconv.Atoi] when one is not a number; a value without a
    colon goes through [utils.CronPadToSecondly]. *)
Theorem aggregation_cron_pieces (c : config.appConfig) :
  (forall i n,
     config.GetAggregationTimeCron D c <> config.Aborts (config.IndexOutOfRange i n))
  /\ if strings.Contains (config.AggregationTime c) ":"
     then exists p0 p1 rest,
            strings.Split (config.AggregationTime c) ":" = p0 :: p1 :: rest
            /\ config.GetAggregationTimeCron D c = old_time p0 p1
     else config.GetAggregationTimeCron D c
          = config.Returns (config.CronPadToSecondly D (config.AggregationTime c)).
Proof.
  unfold config.GetAggregationTimeCron.
  destruct (strings.Contains (config.AggregationTime c) ":") eqn:E.
  - destruct (Split_two _ ":" E) as (p0 & p1 & rest & S). rewrite S.
    rewrite old_time_pieces. split; [|eauto].
    intros i n. unfold old_time.
    destruct (strconv.Atoi p0) as [h [e|]]; [discriminate|].
    destruct (strconv.Atoi p1) as [m [e|]]; discriminate.
  - split; [discriminate | reflexivity].
Qed.

Lemma Split_old_time (hs ms tail : string) :
  strings.Contains hs ":" = false ->
  strings.Contains ms ":" = false ->
  tail = EmptyString \/ (exists x, tail = ":" +++ x) ->
  exists rest, strings.Split (hs +++ ":" +++ ms +++ tail) ":" = hs :: ms :: rest.
Proof.
  intros Hh Hm T. change (":" +++ ms +++ tail) with (String ":" (ms +++ tail)).
  rewrite (Split_app hs _ ":" Hh).
  destruct T as [->|[x ->]].
  - rewrite append_empty, (Split_none ms ":" Hm). eauto.
  - change (":" +++ x) with (String ":" x). rewrite (Split_app ms _ ":" Hm). eauto.
Qed.

(** X9. A time in the old format, hour and minute as decimal numbers around
    a colon, becomes the daily schedule [0 <minute> <hour> * * *], with the
    numbers written afresh (no leading zeros); what follows a second colon
    is ignored. *)
Theorem aggregation_cron_old_format (c : config.appConfig) (hs ms tail : string)
    (h m : Z) :
  config.AggregationTime c = hs +++ ":" +++ ms +++ tail ->
  tail = EmptyString \/ (exists x, tail = ":" +++ x) ->
  strconv.Atoi hs = (h, None) ->
  strconv.Atoi ms = (m, None) ->
  config.GetAggregationTimeCron D c
  = config.Returns ("0 " +++ strconv.Itoa m +++ " " +++ strconv.Itoa h +++ " * * *").
Proof.
  intros Et T Hh Hm.
  assert (strings.Contains hs ":" = false) as Ch
      by (apply (Atoi_no_separator hs ":"); [now rewrite Hh | reflexivity | | ]; discriminate).
  assert (strings.Contains ms ":" = false) as Cm
      by (apply (Atoi_no_separator ms ":"); [now rewrite Hm | reflexivity | | ]; discriminate).
  destruct (Split_old_time hs ms tail Ch Cm T) as [rest S].
  unfold config.GetAggregationTimeCron. rewrite Et.
  pose proof (Contains_app_sep hs (ms +++ tail) ":") as C. unfold one in C.
  change (String ":" (ms +++ tail)) with (":" +++ ms +++ tail) in C.
  rewrite C, S, old_time_pieces. unfold old_time. now rewrite Hh, Hm.
Qed.

End ScheduleFacts.

Lemma aggregation_cron_old_format_witness :
  config.GetAggregationTimeCron sample_deps (app_with_times "02:05:59" "" "")
  = config.Returns "0 5 2 * * *"%string.
Proof.
  apply (aggregation_cron_old_format sample_deps (app_with_times "02:05:59" "" "")
           "02" "05" ":59" 2 5); try reflexivity.
  right. exists "59"%string. reflexivity.
Defined.

Lemma Contains_app_other (a b : string) (x c : ascii) :
  strings.Contains a (one c) = false ->
  Ascii.eqb x c = false ->
  strings.Contains b (one c) = false ->
  strings.Contains (a +++ String x b) (one c) = false.
Proof.
  intros Ha Hx Hb. induction a as [|y r IH]; cbn [String.append].
  - now rewrite Contains_cons, Hx, Hb.
  - rewrite Contains_cons in Ha. apply orb_false_iff in Ha as [Hy Hr].
    now rewrite Contains_cons, Hy, (IH Hr).
Qed.

Section WeeklyFacts.

Variable D : config.Deps.

(** X10. A weekly report time in the old format, a day, a comma, then hour
    and minute as decimal numbers around a colon, becomes the schedule
    [0 <minute> <hour> * * <weekday>], the weekday being what
    [utils.ParseWeekday] makes of the day. *)
Theorem weekly_cron_old_format (c : config.appConfig) (day hs ms : string) (h m : Z) :
  config.ReportTimeWeekly c = day +++ "," +++ hs +++ ":" +++ ms ->
  strings.Contains day "," = false ->
  strconv.Atoi hs = (h, None) ->
  strconv.Atoi ms = (m, None) ->
  config.GetWeeklyReportCron D c
  = config.Returns ("0 " +++ strconv.Itoa m +++ " " +++ strconv.Itoa h +++ " * * "
                      +++ strconv.Itoa (config.ParseWeekday D day)).
Proof.
  intros Et Hd Hh Hm.
  assert (forall s v x, strconv.Atoi s = (v, None) ->
          is_digit x = false -> x <> "+"%char -> x <> "-"%char ->
          strings.Contains s (one x) = false) as NS.
  { intros s v x E. apply Atoi_no_separator. now rewrite E. }
  assert (strings.Contains hs ":" = false) as Ch
      by (apply (NS hs h ":"%char Hh); [reflexivity | | ]; discriminate).
  assert (strings.Contains ms ":" = false) as Cm
      by (apply (NS ms m ":"%char Hm); [reflexivity | | ]; discriminate).
  assert (strings.Contains (hs +++ ":" +++ ms) "," = false) as Ct.
  { apply (Contains_app_other hs ms ":" ","); trivial.
    - apply (NS hs h ","%char Hh); [reflexivity | | ]; discriminate.
    - apply (NS ms m ","%char Hm); [reflexivity | | ]; discriminate. }
  unfold config.GetWeeklyReportCron. rewrite Et.
  pose proof (Contains_app_sep day (hs +++ ":" +++ ms) ",") as C. unfold one in C.
  change (String "," (hs +++ ":" +++ ms)) with ("," +++ hs +++ ":" +++ ms) in C.
  rewrite C.
  change ("," +++ hs +++ ":" +++ ms) with (String "," (hs +++ ":" +++ ms)).
  rewrite (Split_app day _ "," Hd), (Split_none _ "," Ct). cbn [config.at_index nth_error config.obind].
  change (":" +++ ms) with (String ":" ms).
  rewrite (Split_app hs ms ":" Ch), (Split_none ms ":" Cm).
  cbn [config.at_index nth_error config.obind].
  unfold config.atoi_or_fatal. rewrite Hh, Hm. reflexivity.
Qed.

(** X11. A weekly report time in the old format whose time is an hour
    alone, a decimal number without colon and minute, makes
    [GetWeeklyReportCron] read the second of one piece: it panics with an
    index out of range, where a time that is no number ends in the error
    of [strconv.Atoi]. *)
Theorem weekly_cron_missing_minute (c : config.appConfig) (day hs : string) :
  config.ReportTimeWeekly c = day +++ "," +++ hs ->
  strings.Contains day "," = false ->
  snd (strconv.Atoi hs) = None ->
  config.GetWeeklyReportCron D c = config.Aborts (config.IndexOutOfRange 1 1).
Proof.
  intros Et Hd Hh.
  assert (strings.Contains hs ":" = false) as Ch
      by (apply (Atoi_no_separator hs ":" Hh); [reflexivity | | ]; discriminate).
  assert (strings.Contains hs "," = false) as Cc
      by (apply (Atoi_no_separator hs "," Hh); [reflexivity | | ]; discriminate).
  unfold config.GetWeeklyReportCron. rewrite Et.
  pose proof (Contains_app_sep day hs ",") as C. unfold one in C.
  change (String "," hs) with ("," +++ hs) in C. rewrite C.
  change ("," +++ hs) with (String "," hs).
  rewrite (Split_app day _ "," Hd), (Split_none _ "," Cc).
  cbn [config.at_index nth_error config.obind].
  rewrite (Split_none hs ":" Ch). cbn [config.at_index nth_error config.obind].
  unfold config.atoi_or_fatal.
  destruct (strconv.Atoi hs) as [h [e|]]; [discriminate | reflexivity].
Qed.

End WeeklyFacts.

Lemma weekly_cron_old_format_witness :
  config.GetWeeklyReportCron sample_deps (app_with_times "" "fri,18:00" "")
  = config.Returns "0 0 18 * * 5"%string.
Proof.
  apply (weekly_cron_old_format sample_deps (app_with_times "" "fri,18:00" "")
           "fri" "18" "00" 18 0); reflexivity.
Defined.

Lemma weekly_cron_missing_minute_witness :
  config.GetWeeklyReportCron sample_deps (app_with_times "" "fri,18" "")
  = config.Aborts (config.IndexOutOfRange 1 1).
Proof.
  apply (weekly_cron_missing_minute sample_deps (app_with_times "" "fri,18" "")
           "fri" "18"); reflexivity.
Defined.

Section LeaderboardFacts.

Variable D : config.Deps.

Lemma append_parsed_new (parts crons : list string) :
  config.append_parsed D (config.parse_new D) crons parts
  = config.Returns
      (crons ++ map (fun s => config.CronPadToSecondly D (config.TrimSpace D s)) parts).
Proof.
  revert crons. induction parts as [|s rest IH]; intros crons; cbn.
  - now rewrite app_nil_r.
  - rewrite IH, <- app_assoc. reflexivity.
Qed.

Lemma append_parsed_length (parse : string -> config.Outcome string)
    (parts crons out : list string) :
  config.append_parsed D parse crons parts = config.Returns out ->
  List.length out = (List.length crons + List.length parts)%nat.
Proof.
  revert crons. induction parts as [|s rest IH]; intros crons; cbn.
  - intros E. inversion E. lia.
  - destruct (parse (config.TrimSpace D s)) as [cron|why]; cbn; [|discriminate].
    intros E. apply IH in E. rewrite length_app in E. cbn in E. lia.
Qed.

Lemma append_parsed_aborts (parse : string -> config.Outcome string)
    (parts crons : list string) (s : string) :
  In s parts ->
  (exists why, parse (config.TrimSpace D s) = config.Aborts why) ->
  exists why, config.append_parsed D parse crons parts = config.Aborts why.
Proof.
  revert crons. induction parts as [|p rest IH]; intros crons Hin Hs; [contradiction|].
  cbn. destruct (parse (config.TrimSpace D p)) as [cron|why] eqn:E; cbn; [|eauto].
  destruct Hin as [->|Hin]; [|now apply IH].
  destruct Hs as [why Hs]. congruence.
Qed.

Lemma parse_old_needs_colon (s : string) :
  strings.Contains s ":" = false -> exists why, config.parse_old s = config.Aborts why.
Proof.
  intros H. unfold config.parse_old. rewrite (Split_none s ":" H).
  cbn [config.at_index nth_error config.obind]. unfold config.atoi_or_fatal.
  destruct (strconv.Atoi s) as [h [e|]]; cbn; eauto.
Qed.

(** X12. [GetLeaderboardGenerationTimeCron] decides on the format once, for
    the whole value.  Without a colon anywhere it returns one schedule per
    entry of the list, each entry trimmed and passed through
    [utils.CronPadToSecondly].  With a colon somewhere every entry is read
    as hour and minute: the call does not return when one entry has no
    colon.  Whenever it returns, there is one schedule per entry. *)
Theorem leaderboard_cron_entries (c : config.appConfig) :
  let value := config.LeaderboardGenerationTime c in
  let entries := config.SplitMulti D value [","; ";"]%string in
  (strings.Contains value ":" = false ->
   config.GetLeaderboardGenerationTimeCron D c
   = config.Returns
       (map (fun s => config.CronPadToSecondly D (config.TrimSpace D s)) entries))
  /\ (strings.Contains value ":" = true ->
      forall s, In s entries ->
        strings.Contains (config.TrimSpace D s) ":" = false ->
        exists why, config.GetLeaderboardGenerationTimeCron D c = config.Aborts why)
  /\ (forall crons,
        config.GetLeaderboardGenerationTimeCron D c = config.Returns crons ->
        List.length crons = List.length entries).
Proof.
  cbv zeta. unfold config.GetLeaderboardGenerationTimeCron. split; [|split].
  - intros ->. apply append_parsed_new.
  - intros -> s Hin Hs. apply (append_parsed_aborts _ _ _ s Hin).
    now apply parse_old_needs_colon.
  - intros crons E. now apply append_parsed_length in E.
Qed.

End LeaderboardFacts.

Lemma leaderboard_cron_entries_witness :
  config.GetLeaderboardGenerationTimeCron sample_deps
    (app_with_times "" "" "0 0 6 * * *;0 0 18 * * *")
  = config.Returns ["0 0 6 * * *"; "0 0 18 * * *"]%string
  /\ exists why,
       config.GetLeaderboardGenerationTimeCron sample_deps
         (app_with_times "" "" "06:00;18")
       = config.Aborts why.
Proof.
  split.
  - apply (proj1 (leaderboard_cron_entries sample_deps
                    (app_with_times "" "" "0 0 6 * * *;0 0 18 * * *"))).
    reflexivity.
  - apply (proj1 (proj2 (leaderboard_cron_entries sample_deps
                           (app_with_times "" "" "06:00;18")))
             eq_refl "18"%string); [right; left|]; reflexivity.
Defined.

(** ** Trusted reverse proxies *)

Section ProxyFacts.

Variable D : config.Deps.

Definition parsed_ip (ip : string) : list config.IP :=
  match config.ParseIP D (config.TrimSpace D ip) with
  | Some parsedIp => [parsedIp]
  | None => []
  end.

Lemma parse_ips_result (ips : list string) (parsed : list config.IP) (warnings : nat) :
  config.parse_ips D ips parsed warnings
  = (parsed ++ flat_map parsed_ip ips,
     (warnings + (List.length ips - List.length (flat_map parsed_ip ips)))%nat).
Proof.
  revert parsed warnings. induction ips as [|ip rest IH]; intros parsed warnings.
  - cbn. now rewrite app_nil_r, Nat.add_0_r.
  - cbn [config.parse_ips flat_map]. unfold parsed_ip at 1 3.
    assert (List.length (flat_map parsed_ip rest) <= List.length rest)%nat as L.
    { clear. induction rest as [|x r IH]; cbn; trivial. rewrite length_app.
      unfold parsed_ip at 1. destruct (config.ParseIP D _); cbn; lia. }
    destruct (config.ParseIP D (config.TrimSpace D ip)) as [p|]; rewrite IH.
    + rewrite <- app_assoc. cbn [app List.length]. f_equal.
    + cbn [app List.length]. f_equal. lia.
Qed.

(** X13. [ParseTrustReverseProxyIPs] starts from an empty, non-nil slice
    every time: the parsed addresses are those of the comma-separated
    entries that [net.ParseIP] accepts once trimmed, in their order, every
    other entry costing one warning, and nothing else of the configuration
    changes.  So a second call leaves the configuration as the first made
    it. *)
Theorem ParseTrustReverseProxyIPs_result (c : config.securityConfig) :
  let entries := strings.Split (config.TrustReverseProxyIps c) "," in
  let c' := fst (config.ParseTrustReverseProxyIPs D c) in
  let warnings := snd (config.ParseTrustReverseProxyIPs D c) in
  c' = config.with_parsed c (slice_of (flat_map parsed_ip entries))
  /\ (List.length (elems (config.TrustReverseProxyIPs c')) + warnings
      = List.length entries)%nat
  /\ (1 <= List.length entries)%nat
  /\ config.ParseTrustReverseProxyIPs D c' = (c', warnings).
Proof.
  cbv zeta. unfold config.ParseTrustReverseProxyIPs.
  rewrite parse_ips_result. cbn [fst snd app config.with_parsed
    config.TrustReverseProxyIps config.TrustReverseProxyIPs
    config.trustReverseProxyIpParsed elems].
  rewrite parse_ips_result. cbn [app].
  assert (List.length (flat_map parsed_ip
            (strings.Split (config.TrustReverseProxyIps c) ","))
          <= List.length (strings.Split (config.TrustReverseProxyIps c) ","))%nat as L.
  { generalize (strings.Split (config.TrustReverseProxyIps c) ",").
    induction l as [|x r IH]; cbn; trivial. rewrite length_app.
    unfold parsed_ip at 1. destruct (config.ParseIP D _); cbn; lia. }
  repeat split.
  - lia.
  - destruct (Split_nonempty (config.TrustReverseProxyIps c) ",") as (p & rest & ->).
    cbn. lia.
Qed.

End ProxyFacts.

(** ** The database dialect *)

Definition db_of_type (dbType : string) : config.dbConfig :=
  {| config.Host := ""; config.Socket := ""; config.Port := 0; config.User := "";
     config.Password := ""; config.Name := "wakapi_db.db";
     config.Dialect := config.resolveDbDialect dbType;
     config.Charset := "utf8mb4"; config.Type_ := dbType; config.DSN := "";
     config.MaxConn := 2; config.Ssl := false;
     config.AutoMigrateFailSilently := false |}.

(** X14. Resolving a database type twice is resolving it once, and of a
    configuration whose dialect is the resolved type, [IsPostgres] holds
    exactly for the types postgres and cockroach, [IsSQLite] for sqlite3 and
    sqlite, [IsMySQL] for mysql and mariadb; so at most one of the three
    holds. *)
Theorem resolved_dialect (c : config.dbConfig) :
  config.Dialect c = config.resolveDbDialect (config.Type_ c) ->
  config.resolveDbDialect (config.Dialect c) = config.Dialect c
  /\ (config.IsPostgres c = true
      <-> config.Type_ c = "postgres"%string \/ config.Type_ c = "cockroach"%string)
  /\ (config.IsSQLite c = true
      <-> config.Type_ c = "sqlite3"%string \/ config.Type_ c = "sqlite"%string)
  /\ (config.IsMySQL c = true
      <-> config.Type_ c = "mysql"%string \/ config.Type_ c = "mariadb"%string)
  /\ (config.IsPostgres c && config.IsSQLite c = false)
  /\ (config.IsPostgres c && config.IsMySQL c = false)
  /\ (config.IsSQLite c && config.IsMySQL c = false).
Proof.
  unfold config.IsPostgres, config.IsSQLite, config.IsMySQL. intros ->.
  generalize (config.Type_ c). intros t. unfold config.resolveDbDialect.
  destruct (String.eqb_spec t "cockroach") as [->|N1];
    [cbn; intuition (discriminate || congruence)|].
  destruct (String.eqb_spec t "sqlite") as [->|N2];
    [cbn; intuition (discriminate || congruence)|].
  destruct (String.eqb_spec t "mariadb") as [->|N3];
    [cbn; intuition (discriminate || congruence)|].
  apply String.eqb_neq in N1 as E1. apply String.eqb_neq in N2 as E2.
  apply String.eqb_neq in N3 as E3. rewrite E1, E2, E3.
  split; [reflexivity|].
  destruct (String.eqb_spec t "postgres") as [->|P];
    [cbn; intuition (discriminate || congruence)|].
  destruct (String.eqb_spec t "sqlite3") as [->|S];
    [cbn; intuition (discriminate || congruence)|].
  destruct (String.eqb_spec t "mysql") as [->|M];
    [cbn; intuition (discriminate || congruence)|].
  cbn. intuition (discriminate || congruence).
Qed.

Lemma resolved_dialect_witness :
  config.IsPostgres (db_of_type "cockroach") = true
  /\ config.IsSQLite (db_of_type "cockroach") = false.
Proof.
  destruct (resolved_dialect (db_of_type "cockroach") eq_refl)
    as (_ & P & _ & _ & PS & _).
  assert (config.IsPostgres (db_of_type "cockroach") = true) as H
      by (apply P; now right).
  split; [exact H|]. rewrite H in PS. exact PS.
Defined.

(** ** Trailing slashes *)

Lemma length_append (a b : string) :
  String.length (a +++ b) = (String.length a + String.length b)%nat.
Proof. induction a as [|x r IH]; cbn; congruence. Qed.

Lemma substring_prefix (a b : string) :
  String.substring 0 (String.length a) (a +++ b) = a.
Proof. induction a as [|x r IH]; cbn; [now destruct b | congruence]. Qed.

Lemma substring_suffix (a b : string) :
  String.substring (String.length a) (String.length b) (a +++ b) = b.
Proof.
  induction a as [|x r IH]; cbn; trivial.
  clear. induction b as [|y r IH]; cbn; congruence.
Qed.

Lemma substring_split (s : string) :
  forall n, (n <= String.length s)%nat ->
    s = String.substring 0 n s +++ String.substring n (String.length s - n) s.
Proof.
  induction s as [|a r IH]; intros n Hn.
  - cbn in Hn. assert (n = 0)%nat as -> by lia. reflexivity.
  - destruct n as [|n].
    + cbn [String.substring String.append]. rewrite Nat.sub_0_r.
      cbn [String.length]. f_equal.
      clear. induction r as [|y r IH]; cbn; congruence.
    + cbn in Hn. cbn [String.substring String.append String.length Nat.sub].
      f_equal. apply IH. lia.
Qed.

Lemma HasSuffix_iff (s suffix : string) :
  strings.HasSuffix s suffix = true <-> exists x, s = x +++ suffix.
Proof.
  unfold strings.HasSuffix. split.
  - intros H. apply andb_true_iff in H as [L E].
    apply Nat.leb_le in L. apply String.eqb_eq in E.
    exists (String.substring 0 (String.length s - String.length suffix) s).
    rewrite (substring_split s (String.length s - String.length suffix)) at 1 by lia.
    f_equal. rewrite <- E at 3. f_equal. lia.
  - intros [x ->]. rewrite length_append. apply andb_true_iff. split.
    + apply Nat.leb_le. lia.
    + replace (String.length x + String.length suffix - String.length suffix)%nat
        with (String.length x) by lia.
      rewrite substring_suffix. apply String.eqb_refl.
Qed.

Lemma TrimSuffix_app (x suffix : string) :
  strings.TrimSuffix (x +++ suffix) suffix = x.
Proof.
  unfold strings.TrimSuffix.
  rewrite (proj2 (HasSuffix_iff (x +++ suffix) suffix)) by eauto.
  rewrite length_append.
  replace (String.length x + String.length suffix - String.length suffix)%nat
    with (String.length x) by lia.
  apply substring_prefix.
Qed.

Definition server_with_url (url basePath : string) : config.serverConfig :=
  {| config.ServerPort := 3000; config.ListenIpV4 := "127.0.0.1";
     config.ListenIpV6 := "::1"; config.ListenSocket := "";
     config.ListenSocketMode := 438; config.TimeoutSec := 30;
     config.BasePath := basePath; config.PublicUrl := url;
     config.TlsCertPath := ""; config.TlsKeyPath := "" |}.

(** X15. [GetPublicUrl] takes one trailing slash off the public URL and no
    more: a URL that ends with a slash comes back without that slash, even
    when another slash precedes it, and a URL that does not end with a slash
    comes back as it is. *)
Theorem GetPublicUrl_trims_one_slash (c : config.serverConfig) :
  (forall x, config.PublicUrl c = x +++ "/" -> config.GetPublicUrl c = x)
  /\ ((forall x, config.PublicUrl c <> x +++ "/") ->
      config.GetPublicUrl c = config.PublicUrl c).
Proof.
  unfold config.GetPublicUrl. split.
  - intros x ->. apply TrimSuffix_app.
  - intros H. unfold strings.TrimSuffix.
    destruct (strings.HasSuffix (config.PublicUrl c) "/") eqn:E; trivial.
    apply HasSuffix_iff in E as [x E]. now elim (H x).
Qed.

Lemma GetPublicUrl_trims_one_slash_witness :
  config.GetPublicUrl (server_with_url "http://localhost:3000//" "/")
  = "http://localhost:3000/"%string.
Proof.
  apply (proj1 (GetPublicUrl_trims_one_slash
                  (server_with_url "http://localhost:3000//" "/"))).
  reflexivity.
Defined.

(** ** Loading the configuration *)

Module load.

Import config.

Inductive LogEntry :=
| Info (msg : string)
| Warn (msg : string)
| InitSentry (c : sentryConfig) (debug : bool).

(** A computation that logs, and returns or aborts. *)
Definition W (A : Type) : Type := list LogEntry * Outcome A.

Definition wret {A} (a : A) : W A := ([], Returns a).

Definition wbind {A B} (m : W A) (f : A -> W B) : W B :=
  match m with
  | (l1, Returns a) => let (l2, o) := f a in (l1 ++ l2, o)
  | (l1, Aborts why) => (l1, Aborts why)
  end.

Definition wlog (e : LogEntry) : W unit := ([e], Returns tt).
Definition wfatal {A} (format : string) (args : list string) : W A :=
  ([], Aborts (FatalError format args)).
Definition lift {A} (o : Outcome A) : W A := ([], o).

(** [if cond { body }] *)
Definition when (cond : bool) (body : W unit) : W unit :=
  if cond then body else wret tt.

Declare Scope w_scope.
Delimit Scope w_scope with w.
Notation "x <- c ;; k" := (wbind c (fun x => k))
  (at level 61, c at next level, right associativity) : w_scope.
Notation "c ;;; k" := (wbind c (fun _ => k))
  (at level 61, right associativity) : w_scope.

(** The package variables [cfg] and [env]. *)
Record Globals := {
  cfg : option Config;
  env : string
}.

(** [Set(config)] and [Get()]; the pointer [cfg] is [nil] until it is set. *)
Definition Set_ (g : Globals) (config : Config) : Globals :=
  {| cfg := Some config; env := env g |}.

Definition Get_ (g : Globals) : option Config := cfg g.

Record LoadEnv := {
  deps : Deps;
  (** [configor.New(...).Load(config, configFlag)]: what it fills in *)
  configor_Load : string -> Config * option error;
  (** [regexp.MatchString] with the pattern of three dotted numbers *)
  regexp_MatchString : string -> bool;
  (** [uuid.NewV4().String()] *)
  uuid_NewV4 : string;
  (** [data.ColorsFile], [os.ReadFile], [json.Unmarshal] *)
  data_ColorsFile : string;
  os_ReadFile : string -> string;
  json_Unmarshal : string -> list (string * list (string * string)) * option error;
  (** The three results of [securecookie.GenerateRandomKey] *)
  randomHashKey : string;
  randomBlockKey : string;
  randomSessionKey : string;
  (** [getTemporarySecureKeys()] *)
  getTemporarySecureKeys : string * string;
  (** [utils.FindString] *)
  FindString : string -> list string -> string -> string;
  (** [cronParser.Parse], its error *)
  cron_Parse : string -> option error
}.

(** *** Assignments to fields *)

Definition with_App (c : Config) (a : appConfig) : Config :=
  {| Env := Env c; Version := Version c; QuickStart := QuickStart c;
     SkipMigrations := SkipMigrations c; InstanceId := InstanceId c;
     EnablePprof := EnablePprof c; App := a; Security := Security c; Db := Db c;
     Server := Server c; Subscriptions := Subscriptions c; Sentry := Sentry c;
     Mail := Mail c |}.

Definition with_Security (c : Config) (s : securityConfig) : Config :=
  {| Env := Env c; Version := Version c; QuickStart := QuickStart c;
     SkipMigrations := SkipMigrations c; InstanceId := InstanceId c;
     EnablePprof := EnablePprof c; App := App c; Security := s; Db := Db c;
     Server := Server c; Subscriptions := Subscriptions c; Sentry := Sentry c;
     Mail := Mail c |}.

Definition with_Db (c : Config) (d : dbConfig) : Config :=
  {| Env := Env c; Version := Version c; QuickStart := QuickStart c;
     SkipMigrations := SkipMigrations c; InstanceId := InstanceId c;
     EnablePprof := EnablePprof c; App := App c; Security := Security c; Db := d;
     Server := Server c; Subscriptions := Subscriptions c; Sentry := Sentry c;
     Mail := Mail c |}.

Definition with_Server (c : Config) (s : serverConfig) : Config :=
  {| Env := Env c; Version := Version c; QuickStart := QuickStart c;
     SkipMigrations := SkipMigrations c; InstanceId := InstanceId c;
     EnablePprof := EnablePprof c; App := App c; Security := Security c; Db := Db c;
     Server := s; Subscriptions := Subscriptions c; Sentry := Sentry c;
     Mail := Mail c |}.

Definition with_Version (c : Config) (v : string) : Config :=
  {| Env := Env c; Version := v; QuickStart := QuickStart c;
     SkipMigrations := SkipMigrations c; InstanceId := InstanceId c;
     EnablePprof := EnablePprof c; App := App c; Security := Security c; Db := Db c;
     Server := Server c; Subscriptions := Subscriptions c; Sentry := Sentry c;
     Mail := Mail c |}.

Definition with_InstanceId (c : Config) (id : string) : Config :=
  {| Env := Env c; Version := Version c; QuickStart := QuickStart c;
     SkipMigrations := SkipMigrations c; InstanceId := id;
     EnablePprof := EnablePprof c; App := App c; Security := Security c; Db := Db c;
     Server := Server c; Subscriptions := Subscriptions c; Sentry := Sentry c;
     Mail := Mail c |}.

Definition app_with_maps (a : appConfig) (customLanguages : list (string * string))
    (colors : list (string * list (string * string))) : appConfig :=
  {| AggregationTime := AggregationTime a;
     LeaderboardGenerationTime := LeaderboardGenerationTime a;
     ReportTimeWeekly := ReportTimeWeekly a;
     DataCleanupTime := DataCleanupTime a;
     ImportEnabled := ImportEnabled a;
     ImportBackoffMin := ImportBackoffMin a;
     ImportMaxRate := ImportMaxRate a;
     ImportBatchSize := ImportBatchSize a;
     InactiveDays := InactiveDays a;
     HeartbeatMaxAge := HeartbeatMaxAge a;
     CountCacheTTLMin := CountCacheTTLMin a;
     DataRetentionMonths := DataRetentionMonths a;
     DataCleanupDryRun := DataCleanupDryRun a;
     AvatarURLTemplate := AvatarURLTemplate a;
     SupportContact := SupportContact a;
     CustomLanguages := customLanguages;
     Colors := colors |}.

Definition db_with (d : dbConfig) (dialect : string) (maxConn : Z) : dbConfig :=
  {| Host := Host d; Socket := Socket d; Port := Port d; User := User d;
     Password := Password d; Name := Name d; Dialect := dialect;
     Charset := Charset d; Type_ := Type_ d; DSN := DSN d; MaxConn := maxConn;
     Ssl := Ssl d; AutoMigrateFailSilently := AutoMigrateFailSilently d |}.

Definition server_with_BasePath (s : serverConfig) (basePath : string) : serverConfig :=
  {| ServerPort := ServerPort s; ListenIpV4 := ListenIpV4 s;
     ListenIpV6 := ListenIpV6 s; ListenSocket := ListenSocket s;
     ListenSocketMode := ListenSocketMode s; TimeoutSec := TimeoutSec s;
     BasePath := basePath; PublicUrl := PublicUrl s;
     TlsCertPath := TlsCertPath s; TlsKeyPath := TlsKeyPath s |}.

Definition security_with (s : securityConfig) (trustedHeaderAuth : bool)
    (secureCookie : option SecureCookie) (sessionKey : string) : securityConfig :=
  {| AllowSignup := AllowSignup s;
     ExposeMetrics := ExposeMetrics s;
     EnableProxy := EnableProxy s;
     DisableFrontpage := DisableFrontpage s;
     PasswordSalt := PasswordSalt s;
     InsecureCookies := InsecureCookies s;
     CookieMaxAgeSec := CookieMaxAgeSec s;
     TrustedHeaderAuth := trustedHeaderAuth;
     TrustedHeaderAuthKey := TrustedHeaderAuthKey s;
     TrustReverseProxyIps := TrustReverseProxyIps s;
     SecureCookie_ := secureCookie;
     SessionKey := sessionKey;
     trustReverseProxyIpParsed := trustReverseProxyIpParsed s |}.

Section Load.

Variable E : LoadEnv.

Local Open Scope w_scope.

Definition readColors (g : Globals) : W (list (string * list (string * string))) :=
  let raw := data_ColorsFile E in
  let raw := if IsDev (env g) then os_ReadFile E "data/colors.json" else raw in
  let '(colors, err) := json_Unmarshal E raw in
  match err with
  | Some e => wfatal e []
  | None => wret colors
  end.

(** [for k, v := range m { if v == "" { m[k] = "unknown" } }] *)
Definition fill_unknown (m : list (string * string)) : list (string * string) :=
  map (fun kv => if String.eqb (snd kv) EmptyString
                 then (fst kv, "unknown"%string) else kv) m.

(** The loop over the leaderboard schedules. *)
Fixpoint check_crons (crons : list string) : W unit :=
  match crons with
  | [] => wret tt
  | c :: rest =>
      when (match cron_Parse E c with Some _ => true | None => false end)
        (wfatal "invalid cron expression for leaderboard_generation_time" []) ;;;
      check_crons rest
  end.

Definition retention_warning (months : Z) : string :=
  "⚠️ data retention policy will cause user data older than " +++ strconv.Itoa months
    +++ " months to be deleted".

Definition Load (g : Globals) (configFlag version : string)
    : W (option Config * Globals) :=
  let '(config, err) := configor_Load E configFlag in
  match err with
  | Some e => wfatal "failed to read config: %v" [e]
  | None => wret tt
  end ;;;
  let g := {| cfg := cfg g; env := Env config |} in
  let config := with_Version config (TrimSpace (deps E) version) in
  let tagVersionMatch := regexp_MatchString E version in
  let config :=
    if tagVersionMatch then with_Version config ("v" +++ Version config) else config in
  let config := with_InstanceId config (uuid_NewV4 E) in
  colors <- readColors g ;;
  let config :=
    with_App config (app_with_maps (App config) (CustomLanguages (App config)) colors) in
  let config :=
    with_Db config
      (db_with (Db config) (resolveDbDialect (Type_ (Db config))) (MaxConn (Db config))) in
  let hashKey := randomHashKey E in
  let blockKey := randomBlockKey E in
  let sessionKey := randomSessionKey E in
  keys <- (if IsDev (env g) then
             wlog (Warn "using temporary keys to sign and encrypt cookies in dev mode, make sure to set env to production for real-world use") ;;;
             let '(hashKey, blockKey) := getTemporarySecureKeys E in
             let blockKey := hashKey in
             wret (hashKey, blockKey)
           else wret (hashKey, blockKey)) ;;
  let '(hashKey, blockKey) := keys in
  let config :=
    with_Security config
      (security_with (Security config) (TrustedHeaderAuth (Security config))
         (Some {| hashKey := hashKey; blockKey := blockKey |}) sessionKey) in
  let '(security, warnings) := ParseTrustReverseProxyIPs (deps E) (Security config) in
  (repeat (Warn "failed to parse reverse proxy ip") warnings, Returns tt) ;;;
  let config := with_Security config security in
  let config :=
    with_Server config
      (server_with_BasePath (Server config)
         (strings.TrimSuffix (BasePath (Server config)) "/")) in
  let config :=
    with_App config
      (app_with_maps (App config) (fill_unknown (CustomLanguages (App config)))
         (Colors (App config))) in
  when (negb (String.eqb (Dsn (Sentry config)) EmptyString))
    (wlog (Info "enabling sentry integration") ;;;
     wlog (InitSentry (Sentry config) (Config_IsDev config))) ;;;
  (if (DataRetentionMonths (App config) <=? 0)%Z then
     wlog (Info "disabling data retention policy, keeping data forever")
   else
     let dataRetentionWarning := retention_warning (DataRetentionMonths (App config)) in
     let dataRetentionWarning :=
       if Enabled (Subscriptions config)
       then dataRetentionWarning +++ " (except for users with active subscriptions)"
       else dataRetentionWarning in
     wlog (Warn dataRetentionWarning)) ;;;
  (* some validation checks *)
  when (String.eqb (ListenIpV4 (Server config)) "-"
        && String.eqb (ListenIpV6 (Server config)) "-"
        && String.eqb (ListenSocket (Server config)) EmptyString)
    (wfatal "either of listen_ipv4 or listen_ipv6 or listen_socket must be set" []) ;;;
  when (MaxConn (Db config) <=? 0)%Z
    (wfatal "you must allow at least one database connection" []) ;;;
  config <- (if (1 <? MaxConn (Db config))%Z && IsSQLite (Db config) then
               wlog (Warn "with sqlite, only a single connection is supported") ;;;
               wret (with_Db config (db_with (Db config) (Dialect (Db config)) 1))
             else wret config) ;;
  when (negb (String.eqb (Provider (Mail config)) EmptyString)
        && String.eqb (FindString E (Provider (Mail config)) emailProviders EmptyString)
             EmptyString)
    (wfatal "unknown mail provider '%s'" [Provider (Mail config)]) ;;;
  when (match snd (ParseDuration (deps E) (HeartbeatMaxAge (App config))) with
        | Some _ => true
        | None => false
        end)
    (wfatal "invalid duration set for heartbeat_max_age" []) ;;;
  let config :=
    if TrustedHeaderAuth (Security config)
       && (List.length (elems (trustReverseProxyIpParsed (Security config))) =? 0)%nat
    then with_Security config
           (security_with (Security config) false (SecureCookie_ (Security config))
              (SessionKey (Security config)))
    else config in
  weekly <- lift (GetWeeklyReportCron (deps E) (App config)) ;;
  when (match cron_Parse E weekly with Some _ => true | None => false end)
    (wfatal "invalid cron expression for report_time_weekly" []) ;;;
  aggregation <- lift (GetAggregationTimeCron (deps E) (App config)) ;;
  when (match cron_Parse E aggregation with Some _ => true | None => false end)
    (wfatal "invalid cron expression for aggregation_time" []) ;;;
  crons <- lift (GetLeaderboardGenerationTimeCron (deps E) (App config)) ;;
  check_crons crons ;;;
  (* deprecation notices *)
  when (strings.Contains (AggregationTime (App config)) ":")
    (wlog (Warn "you're using deprecated syntax for 'aggregation_time', please change it to a valid cron expression")) ;;;
  when (strings.Contains (ReportTimeWeekly (App config)) ":")
    (wlog (Warn "you're using deprecated syntax for 'report_time_weekly', please change it to a valid cron expression")) ;;;
  when (strings.Contains (LeaderboardGenerationTime (App config)) ":")
    (wlog (Warn "you're using deprecated syntax for 'leaderboard_generation_time', please change it to a semicolon-separated list if valid cron expressions")) ;;;
  let g := Set_ g config in
  wret (Get_ g, g).

End Load.

End load.

(** ** A sample configuration *)

Definition security0 : config.securityConfig :=
  {| config.AllowSignup := true;
     config.ExposeMetrics := true;
     config.EnableProxy := false;
     config.DisableFrontpage := false;
     config.PasswordSalt := "";
     config.InsecureCookies := false;
     config.CookieMaxAgeSec := 172800;
     config.TrustedHeaderAuth := true;
     config.TrustedHeaderAuthKey := "Remote-User";
     config.TrustReverseProxyIps := "";
     config.SecureCookie_ := None;
     config.SessionKey := "";
     config.trustReverseProxyIpParsed := nil_slice |}.

Definition file0 : config.Config :=
  {| config.Env := "production";
     config.Version := "";
     config.QuickStart := false;
     config.SkipMigrations := false;
     config.InstanceId := "";
     config.EnablePprof := false;
     config.App :=
       load.app_with_maps (app_with_times "0 15 2 * * *" "fri,18:00" "06:00;18:00")
         [("hbs", "handlebars"); ("tpl", "")]%string [];
     config.Security := security0;
     config.Db := db_of_type "sqlite";
     config.Server := server_with_url "http://localhost:3000" "/wakapi/";
     config.Subscriptions :=
       {| config.Enabled := false; config.ExpiryNotifications := true;
          config.StripeApiKey := ""; config.StripeSecretKey := "";
          config.StripeEndpointSecret := ""; config.StandardPriceId := "";
          config.StandardPrice := "" |};
     config.Sentry :=
       {| config.Dsn := ""; config.EnableTracing := false;
          config.SampleRate := config.float32_bits 1061158912;
          config.SampleRateHeartbeats := config.float32_bits 1036831949 |};
     config.Mail :=
       {| config.MailEnabled := true; config.Provider := "smtp";
          config.MailWhale :=
            {| config.Url := ""; config.ClientId := ""; config.ClientSecret := "" |};
          config.Smtp :=
            {| config.SmtpHost := "localhost"; config.SmtpPort := 25;
               config.Username := ""; config.SmtpPassword := ""; config.TLS := false |};
          config.Sender := "" |} |}.

Definition env0 : load.LoadEnv :=
  {| load.deps := sample_deps;
     load.configor_Load := fun _ => (file0, None);
     load.regexp_MatchString := fun v => String.eqb v "2.11.2";
     load.uuid_NewV4 := "6ba7b810-9dad-11d1-80b4-00c04fd430c8";
     load.data_ColorsFile := "{}";
     load.os_ReadFile := fun _ => "{}"%string;
     load.json_Unmarshal := fun _ => ([], None);
     load.randomHashKey := "hash";
     load.randomBlockKey := "block";
     load.randomSessionKey := "session";
     load.getTemporarySecureKeys := ("temporary hash", "temporary block")%string;
     load.FindString := fun needle haystack default =>
       if existsb (String.eqb needle) haystack then needle else default;
     load.cron_Parse := fun s =>
       if (String.length s <=? 8)%nat then Some "expected 5 to 6 fields"%string
       else None |}.

Definition globals0 : load.Globals :=
  {| load.cfg := None; load.env := "" |}.

(** ** What a loaded configuration is *)

Section LoadFacts.

Import load.

Variable E : LoadEnv.

Lemma wbind_returns {A B} (m : W A) (f : A -> W B) (b : B) :
  snd (wbind m f) = config.Returns b ->
  exists a, snd m = config.Returns a /\ snd (f a) = config.Returns b.
Proof.
  destruct m as [l [a|why]]; cbn; [|discriminate].
  destruct (f a) as [l2 o] eqn:Ef. cbn. intros ->. exists a. rewrite Ef. auto.
Qed.

Lemma when_fatal_returns (cond : bool) (format : string) (args : list string)
    (u : unit) :
  snd (when cond (wfatal format args)) = config.Returns u -> cond = false.
Proof. destruct cond; [discriminate | reflexivity]. Qed.

Lemma check_crons_returns (crons : list string) (u : unit) :
  snd (check_crons E crons) = config.Returns u ->
  Forall (fun c => cron_Parse E c = None) crons.
Proof.
  induction crons as [|c rest IH]; intros H; [constructor|].
  cbn [check_crons] in H. apply wbind_returns in H as (a & Ha & H).
  apply when_fatal_returns in Ha. constructor; [|now apply IH].
  destruct (cron_Parse E c); [discriminate | reflexivity].
Qed.

(** The keys of the cookie codec: freshly generated ones, or in dev mode the
    temporary hash key in both places. *)
Definition cookie_keys (file : config.Config) : config.SecureCookie :=
  if config.IsDev (config.Env file)
  then {| config.hashKey := fst (getTemporarySecureKeys E);
          config.blockKey := fst (getTemporarySecureKeys E) |}
  else {| config.hashKey := randomHashKey E; config.blockKey := randomBlockKey E |}.

Definition loaded_version (version : string) : string :=
  if regexp_MatchString E version
  then "v" +++ config.TrimSpace (deps E) version
  else config.TrimSpace (deps E) version.

Definition loaded_proxies (file : config.Config) : list config.IP :=
  flat_map (parsed_ip (deps E))
    (strings.Split (config.TrustReverseProxyIps (config.Security file)) ",").

Definition loaded_max_conn (file : config.Config) : Z :=
  if (1 <? config.MaxConn (config.Db file))%Z
     && String.eqb (config.resolveDbDialect (config.Type_ (config.Db file))) "sqlite3"
  then 1%Z else config.MaxConn (config.Db file).

(** [Load] has returned [c], leaving the package variables as [g']: what
    the configuration read from the file was, and what [c] is made of. *)
Record Loaded (g : Globals) (flag version : string) (file : config.Config)
    (colors : list (string * list (string * string))) (c : config.Config)
    (g' : Globals) : Prop := {
  loaded_file : configor_Load E flag = (file, None);
  loaded_colors :
    snd (readColors E {| cfg := cfg g; env := config.Env file |})
    = config.Returns colors;
  loaded_globals : g' = {| cfg := Some c; env := config.Env file |};
  loaded_top :
    config.Env c = config.Env file
    /\ config.Version c = loaded_version version
    /\ config.InstanceId c = uuid_NewV4 E
    /\ config.QuickStart c = config.QuickStart file
    /\ config.SkipMigrations c = config.SkipMigrations file
    /\ config.EnablePprof c = config.EnablePprof file
    /\ config.Subscriptions c = config.Subscriptions file
    /\ config.Sentry c = config.Sentry file
    /\ config.Mail c = config.Mail file;
  loaded_app :
    config.App c
    = app_with_maps (config.App file)
        (fill_unknown (config.CustomLanguages (config.App file))) colors;
  loaded_db :
    config.Db c
    = db_with (config.Db file)
        (config.resolveDbDialect (config.Type_ (config.Db file)))
        (loaded_max_conn file);
  loaded_server :
    config.Server c
    = server_with_BasePath (config.Server file)
        (strings.TrimSuffix (config.BasePath (config.Server file)) "/");
  loaded_security :
    config.Security c
    = config.with_parsed
        (security_with (config.Security file)
           (config.TrustedHeaderAuth (config.Security file)
            && negb (List.length (loaded_proxies file) =? 0)%nat)
           (Some (cookie_keys file)) (randomSessionKey E))
        (slice_of (loaded_proxies file));
  checked_listen :
    String.eqb (config.ListenIpV4 (config.Server file)) "-"
    && String.eqb (config.ListenIpV6 (config.Server file)) "-"
    && String.eqb (config.ListenSocket (config.Server file)) EmptyString = false;
  checked_max_conn : (0 < config.MaxConn (config.Db file))%Z;
  checked_mail :
    config.Provider (config.Mail file) = EmptyString
    \/ FindString E (config.Provider (config.Mail file)) config.emailProviders
         EmptyString <> EmptyString;
  checked_max_age :
    snd (config.ParseDuration (deps E) (config.HeartbeatMaxAge (config.App file)))
    = None;
  checked_weekly :
    exists cron,
      config.GetWeeklyReportCron (deps E) (config.App c) = config.Returns cron
      /\ cron_Parse E cron = None;
  checked_aggregation :
    exists cron,
      config.GetAggregationTimeCron (deps E) (config.App c) = config.Returns cron
      /\ cron_Parse E cron = None;
  checked_leaderboard :
    exists crons,
      config.GetLeaderboardGenerationTimeCron (deps E) (config.App c)
      = config.Returns crons
      /\ Forall (fun cron => cron_Parse E cron = None) crons
}.

Ltac step H :=
  let a := fresh "a" in
  let Ha := fresh "Ha" in
  apply wbind_returns in H as (a & Ha & H); cbv beta in H.

Ltac norm H :=
  cbn [with_App with_Security with_Db with_Server with_Version with_InstanceId
       app_with_maps db_with server_with_BasePath security_with config.with_parsed
       config.Env config.Version config.QuickStart config.SkipMigrations
       config.InstanceId config.EnablePprof config.App config.Security config.Db
       config.Server config.Subscriptions config.Sentry config.Mail
       config.CustomLanguages config.Colors config.Type_ config.MaxConn config.Dialect
       config.BasePath config.TrustedHeaderAuth config.trustReverseProxyIpParsed
       config.SecureCookie_ config.SessionKey config.HeartbeatMaxAge
       config.DataRetentionMonths config.ListenIpV4 config.ListenIpV6
       config.ListenSocket config.AggregationTime config.ReportTimeWeekly
       config.LeaderboardGenerationTime config.TrustReverseProxyIps
       cfg env Set_ Get_ fst snd] in H.

Lemma Load_returns (g : Globals) (flag version : string) (c : option config.Config)
    (g' : Globals) :
  snd (Load E g flag version) = config.Returns (c, g') ->
  exists file colors c', c = Some c' /\ Loaded g flag version file colors c' g'.
Proof.
  unfold Load. destruct (configor_Load E flag) as [file [e|]] eqn:EF; [discriminate|].
  intros H. step H. clear Ha a.
  cbv zeta in H.
  assert ((if regexp_MatchString E version
           then with_Version (with_Version file (config.TrimSpace (deps E) version))
                  ("v" +++ config.Version
                             (with_Version file (config.TrimSpace (deps E) version)))
           else with_Version file (config.TrimSpace (deps E) version))
          = with_Version file (loaded_version version)) as EV.
  { unfold loaded_version. destruct (regexp_MatchString E version); reflexivity. }
  rewrite !EV in H. clear EV. norm H.
  step H. rename a into colors, Ha into Hcolors.
  step H. destruct a as [hk bk].
  assert ({| config.hashKey := hk; config.blockKey := bk |} = cookie_keys file) as EK.
  { unfold cookie_keys. destruct (config.IsDev (config.Env file)).
    - cbn in Ha. destruct (getTemporarySecureKeys E) as [th tb].
      cbn in Ha. inversion Ha. reflexivity.
    - cbn in Ha. inversion Ha. reflexivity. }
  clear Ha. norm H. rewrite EK in H. clear EK hk bk.
  unfold config.ParseTrustReverseProxyIPs in H. rewrite parse_ips_result in H.
  norm H. cbn [app] in H. fold (loaded_proxies file) in H.
  step H. clear Ha a. norm H.
  step H. clear Ha a. step H. clear Ha a.
  step H. apply when_fatal_returns in Ha. rename Ha into Hlisten. clear a.
  step H. apply when_fatal_returns in Ha. rename Ha into Hmax. clear a.
  step H. rename a into cfg9, Ha into Hsql.
  unfold config.IsSQLite in Hsql. norm Hsql. fold (loaded_max_conn file) in Hsql.
  assert (exists cond,
            cond = ((1 <? config.MaxConn (config.Db file))%Z
                    && String.eqb (config.resolveDbDialect (config.Type_ (config.Db file)))
                         "sqlite3")) as [cond Hcond] by eauto.
  rewrite <- Hcond in Hsql.
  assert (loaded_max_conn file = if cond then 1%Z else config.MaxConn (config.Db file))
    as EM by (unfold loaded_max_conn; now rewrite <- Hcond).
  clear Hcond.
  destruct cond; cbn in Hsql; inversion Hsql; subst cfg9; clear Hsql; norm H.
  all: step H; apply when_fatal_returns in Ha; rename Ha into Hmail; clear a.
  all: step H; apply when_fatal_returns in Ha; rename Ha into Hage; clear a.
  all: cbv zeta in H; cbn [elems] in H.
  all: destruct (config.TrustedHeaderAuth (config.Security file)
                 && (List.length (loaded_proxies file) =? 0)%nat) eqn:ET; norm H.
  all: step H; cbn [lift snd] in Ha; rename a into weekly, Ha into Hweekly.
  all: step H; apply when_fatal_returns in Ha; rename Ha into Hweekly'; clear a.
  all: step H; cbn [lift snd] in Ha; rename a into aggregation, Ha into Hagg.
  all: step H; apply when_fatal_returns in Ha; rename Ha into Hagg'; clear a.
  all: step H; cbn [lift snd] in Ha; rename a into crons, Ha into Hcrons.
  all: step H; apply check_crons_returns in Ha; rename Ha into Hcrons'; clear a.
  all: step H; clear Ha a; step H; clear Ha a; step H; clear Ha a.
  all: norm H; cbn [wret snd] in H; inversion H; subst c g'; clear H.
  all: exists file, colors; eexists; split; [reflexivity|].
  all: constructor; norm Hweekly; norm Hagg; norm Hcrons;
    cbn [with_App with_Security with_Db with_Server with_Version with_InstanceId
         app_with_maps db_with server_with_BasePath security_with config.with_parsed
         config.Env config.Version config.QuickStart config.SkipMigrations
         config.InstanceId config.EnablePprof config.App config.Security config.Db
         config.Server config.Subscriptions config.Sentry config.Mail
         config.CustomLanguages config.Colors config.Type_ config.MaxConn
         config.Dialect config.BasePath config.TrustedHeaderAuth
         config.trustReverseProxyIpParsed config.SecureCookie_ config.SessionKey];
    trivial.
  all: try (repeat split; reflexivity).
  all: try (rewrite EM; reflexivity).
  all: try solve [apply Z.leb_gt in Hmax; lia].
  all: try solve [destruct (snd (config.ParseDuration (deps E)
                                   (config.HeartbeatMaxAge (config.App file))));
                  [discriminate | reflexivity]].
  all: try solve [exists weekly; split; [exact Hweekly|];
                  destruct (cron_Parse E weekly); [discriminate | reflexivity]].
  all: try solve [exists aggregation; split; [exact Hagg|];
                  destruct (cron_Parse E aggregation); [discriminate | reflexivity]].
  all: try solve [exists crons; split; [exact Hcrons | exact Hcrons']].
  all: try solve [destruct (String.eqb_spec (config.Provider (config.Mail file)) "");
                  [now left | right; cbn in Hmail; now apply String.eqb_neq]].
  all: try solve [apply andb_true_iff in ET as [E1 E2]; rewrite E1, E2; reflexivity].
  all: try solve [destruct (config.TrustedHeaderAuth (config.Security file)),
                    (List.length (loaded_proxies file) =? 0)%nat;
                  cbn in ET; try discriminate; reflexivity].
Qed.


(** X16. When [Load] returns, the dialect of the database is the resolved
    type, at least one connection is allowed, and exactly one with sqlite;
    otherwise the number of connections is the one that was read. *)
Theorem Load_database (g : Globals) (flag version : string)
    (c : option config.Config) (g' : Globals) :
  snd (Load E g flag version) = config.Returns (c, g') ->
  exists c',
    c = Some c'
    /\ config.Type_ (config.Db c') = config.Type_ (config.Db (fst (configor_Load E flag)))
    /\ config.Dialect (config.Db c') = config.resolveDbDialect (config.Type_ (config.Db c'))
    /\ (1 <= config.MaxConn (config.Db c'))%Z
    /\ (config.IsSQLite (config.Db c') = true -> config.MaxConn (config.Db c') = 1%Z)
    /\ (config.IsSQLite (config.Db c') = false ->
        config.MaxConn (config.Db c')
        = config.MaxConn (config.Db (fst (configor_Load E flag)))).
Proof.
  intros H. apply Load_returns in H as (file & colors & c' & -> & L).
  exists c'. split; [reflexivity|].
  rewrite (loaded_file _ _ _ _ _ _ _ L), (loaded_db _ _ _ _ _ _ _ L).
  pose proof (checked_max_conn _ _ _ _ _ _ _ L) as M.
  unfold config.IsSQLite, loaded_max_conn.
  cbn [fst db_with config.Type_ config.Dialect config.MaxConn].
  split; [reflexivity|]. split; [reflexivity|].
  destruct (String.eqb (config.resolveDbDialect (config.Type_ (config.Db file)))
              "sqlite3");
    destruct (1 <? config.MaxConn (config.Db file))%Z eqn:EM; cbn [andb];
    repeat split; intros; try lia; try discriminate.
Qed.

(** X17. When [Load] returns, authentication by a trusted header is on only
    if it was switched on in the file and at least one address of a trusted
    reverse proxy was parsed; the parsed addresses are those of the
    configured list, as a slice that is never nil. *)
Theorem Load_trusted_header (g : Globals) (flag version : string)
    (c : option config.Config) (g' : Globals) :
  snd (Load E g flag version) = config.Returns (c, g') ->
  exists c',
    c = Some c'
    /\ config.TrustReverseProxyIPs (config.Security c')
       = slice_of (loaded_proxies (fst (configor_Load E flag)))
    /\ (config.TrustedHeaderAuth (config.Security c') = true <->
        config.TrustedHeaderAuth (config.Security (fst (configor_Load E flag))) = true
        /\ elems (config.TrustReverseProxyIPs (config.Security c')) <> []).
Proof.
  intros H. apply Load_returns in H as (file & colors & c' & -> & L).
  exists c'. split; [reflexivity|].
  rewrite (loaded_file _ _ _ _ _ _ _ L), (loaded_security _ _ _ _ _ _ _ L).
  unfold config.TrustReverseProxyIPs.
  cbn [fst config.with_parsed security_with config.TrustedHeaderAuth
       config.trustReverseProxyIpParsed elems].
  split; [reflexivity|].
  destruct (config.TrustedHeaderAuth (config.Security file));
    destruct (loaded_proxies file); cbn; intuition congruence.
Qed.

(** X18. When [Load] returns, the custom languages have the keys that were
    read, in their order, no empty value, and every value that was not empty
    as it was read; the empty ones have become [unknown]. *)
Theorem Load_custom_languages (g : Globals) (flag version : string)
    (c : option config.Config) (g' : Globals) :
  snd (Load E g flag version) = config.Returns (c, g') ->
  exists c',
    c = Some c'
    /\ let read := config.CustomLanguages (config.App (fst (configor_Load E flag))) in
       let loaded := config.CustomLanguages (config.App c') in
       map fst loaded = map fst read
       /\ Forall (fun kv => snd kv <> EmptyString) loaded
       /\ (forall k v, In (k, v) read -> v <> EmptyString -> In (k, v) loaded)
       /\ (forall k, In (k, EmptyString) read -> In (k, "unknown"%string) loaded).
Proof.
  intros H. apply Load_returns in H as (file & colors & c' & -> & L).
  exists c'. split; [reflexivity|].
  rewrite (loaded_file _ _ _ _ _ _ _ L), (loaded_app _ _ _ _ _ _ _ L).
  cbn [fst app_with_maps config.CustomLanguages]. cbv zeta.
  generalize (config.CustomLanguages (config.App file)). intros m.
  unfold fill_unknown. repeat split.
  - rewrite map_map. apply map_ext. intros [k v]. cbn.
    now destruct (String.eqb v EmptyString).
  - apply Forall_map, Forall_forall. intros [k v] _. cbn.
    destruct (String.eqb_spec v EmptyString); cbn; [discriminate | assumption].
  - intros k v Hin Hv. apply in_map_iff. exists (k, v). split; [|assumption].
    cbn. apply String.eqb_neq in Hv. now rewrite Hv.
  - intros k Hin. apply in_map_iff. exists (k, EmptyString). now split.
Qed.

(** X19. What [Load] returns is never nil and is what [Get()] returns from
    then on; the package variable [env] is the environment of that
    configuration, its version is the trimmed version, with a [v] in front
    when the version has the form of a tag, and its instance id is the fresh
    UUID. *)
Theorem Load_sets_globals (g : Globals) (flag version : string)
    (c : option config.Config) (g' : Globals) :
  snd (Load E g flag version) = config.Returns (c, g') ->
  exists c',
    c = Some c'
    /\ Get_ g' = Some c'
    /\ env g' = config.Env c'
    /\ config.Env c' = config.Env (fst (configor_Load E flag))
    /\ config.Version c'
       = (if regexp_MatchString E version
          then "v" +++ config.TrimSpace (deps E) version
          else config.TrimSpace (deps E) version)
    /\ config.InstanceId c' = uuid_NewV4 E.
Proof.
  intros H. apply Load_returns in H as (file & colors & c' & -> & L).
  exists c'. split; [reflexivity|].
  rewrite (loaded_file _ _ _ _ _ _ _ L), (loaded_globals _ _ _ _ _ _ _ L).
  destruct (loaded_top _ _ _ _ _ _ _ L) as (E1 & E2 & E3 & _).
  cbn [fst Get_ cfg env]. rewrite E1, E2, E3. repeat split.
Qed.

(** X20. When [Load] returns, the three schedules of the configuration are
    readable: [GetWeeklyReportCron], [GetAggregationTimeCron] and
    [GetLeaderboardGenerationTimeCron] return on it, and the cron parser
    accepts every expression they give. *)
Theorem Load_schedules_valid (g : Globals) (flag version : string)
    (c : option config.Config) (g' : Globals) :
  snd (Load E g flag version) = config.Returns (c, g') ->
  exists c' weekly aggregation leaderboard,
    c = Some c'
    /\ config.GetWeeklyReportCron (deps E) (config.App c') = config.Returns weekly
    /\ config.GetAggregationTimeCron (deps E) (config.App c')
       = config.Returns aggregation
    /\ config.GetLeaderboardGenerationTimeCron (deps E) (config.App c')
       = config.Returns leaderboard
    /\ Forall (fun cron => cron_Parse E cron = None)
         (weekly :: aggregation :: leaderboard).
Proof.
  intros H. apply Load_returns in H as (file & colors & c' & -> & L).
  destruct (checked_weekly _ _ _ _ _ _ _ L) as (w & Hw & Pw).
  destruct (checked_aggregation _ _ _ _ _ _ _ L) as (a & Ha & Pa).
  destruct (checked_leaderboard _ _ _ _ _ _ _ L) as (l & Hl & Pl).
  exists c', w, a, l. repeat split; trivial. repeat constructor; trivial.
Qed.

(** X21. When [Load] returns, the session key is the third generated key,
    and the cookie codec is made of the first two generated keys, except in
    dev mode, where the temporary hash key serves as hash key and as block
    key, and the temporary block key is not used. *)
Theorem Load_cookie_keys (g : Globals) (flag version : string)
    (c : option config.Config) (g' : Globals) :
  snd (Load E g flag version) = config.Returns (c, g') ->
  exists c',
    c = Some c'
    /\ config.SessionKey (config.Security c') = randomSessionKey E
    /\ config.SecureCookie_ (config.Security c')
       = Some (if config.IsDev (config.Env c')
               then {| config.hashKey := fst (getTemporarySecureKeys E);
                       config.blockKey := fst (getTemporarySecureKeys E) |}
               else {| config.hashKey := randomHashKey E;
                       config.blockKey := randomBlockKey E |}).
Proof.
  intros H. apply Load_returns in H as (file & colors & c' & -> & L).
  exists c'. split; [reflexivity|].
  destruct (loaded_top _ _ _ _ _ _ _ L) as (E1 & _).
  rewrite (loaded_security _ _ _ _ _ _ _ L), E1.
  cbn [config.with_parsed security_with config.SessionKey config.SecureCookie_].
  split; reflexivity.
Qed.

End LoadFacts.

Lemma sample_load_returns :
  exists c' g',
    snd (load.Load env0 globals0 "config.yml" "2.11.2") = config.Returns (Some c', g').
Proof. eexists. eexists. vm_compute. reflexivity. Qed.

Lemma Load_database_witness :
  exists c' g',
    snd (load.Load env0 globals0 "config.yml" "2.11.2") = config.Returns (Some c', g')
    /\ config.Dialect (config.Db c') = config.resolveDbDialect (config.Type_ (config.Db c'))
    /\ (1 <= config.MaxConn (config.Db c'))%Z.
Proof.
  destruct sample_load_returns as (c' & g' & H). exists c', g'. split; [exact H|].
  destruct (Load_database env0 _ _ _ _ _ H) as (c'' & Ec & _ & D & M & _).
  inversion Ec. subst c''. split; assumption.
Defined.

Lemma Load_trusted_header_witness :
  exists c' g',
    snd (load.Load env0 globals0 "config.yml" "2.11.2") = config.Returns (Some c', g')
    /\ config.TrustReverseProxyIPs (config.Security c') = slice_of [].
Proof.
  destruct sample_load_returns as (c' & g' & H). exists c', g'. split; [exact H|].
  destruct (Load_trusted_header env0 _ _ _ _ _ H) as (c'' & Ec & P & _).
  inversion Ec. subst c''. exact P.
Defined.

Lemma Load_custom_languages_witness :
  exists c' g',
    snd (load.Load env0 globals0 "config.yml" "2.11.2") = config.Returns (Some c', g')
    /\ In ("tpl", "unknown")%string (config.CustomLanguages (config.App c'))
    /\ In ("hbs", "handlebars")%string (config.CustomLanguages (config.App c')).
Proof.
  destruct sample_load_returns as (c' & g' & H). exists c', g'. split; [exact H|].
  destruct (Load_custom_languages env0 _ _ _ _ _ H) as (c'' & Ec & _ & _ & K & U).
  inversion Ec. subst c''. split.
  - apply U. right. now left.
  - apply K; [now left | discriminate].
Defined.

Lemma Load_sets_globals_witness :
  exists c' g',
    snd (load.Load env0 globals0 "config.yml" "2.11.2") = config.Returns (Some c', g')
    /\ load.Get_ g' = Some c'
    /\ config.Version c' = "v2.11.2"%string.
Proof.
  destruct sample_load_returns as (c' & g' & H). exists c', g'. split; [exact H|].
  destruct (Load_sets_globals env0 _ _ _ _ _ H) as (c'' & Ec & G & _ & _ & V & _).
  inversion Ec. subst c''. split; [exact G | exact V].
Defined.

Lemma Load_schedules_valid_witness :
  exists c' g',
    snd (load.Load env0 globals0 "config.yml" "2.11.2") = config.Returns (Some c', g')
    /\ exists weekly,
         config.GetWeeklyReportCron sample_deps (config.App c') = config.Returns weekly.
Proof.
  destruct sample_load_returns as (c' & g' & H). exists c', g'. split; [exact H|].
  destruct (Load_schedules_valid env0 _ _ _ _ _ H) as (c'' & w & a & l & Ec & W & _).
  inversion Ec. subst c''. exists w. exact W.
Defined.

Lemma Load_cookie_keys_witness :
  exists c' g',
    snd (load.Load env0 globals0 "config.yml" "2.11.2") = config.Returns (Some c', g')
    /\ config.SessionKey (config.Security c') = "session"%string.
Proof.
  destruct sample_load_returns as (c' & g' & H). exists c', g'. split; [exact H|].
  destruct (Load_cookie_keys env0 _ _ _ _ _ H) as (c'' & Ec & S & _).
  inversion Ec. subst c''. exact S.
Defined.
